(** * HoneyPort: a shallow embedding of the analysis engine

The development follows the Python sources of the repository:

- [backend/aetherion_app.py]   : [analyze_command_threat]
- [backend/ai.py]              : class [AIManager]
- [honeypot/ai_analysis.py]    : class [AIAnalyzer] (with its cache)
- [honeypot/handlers.py]       : class [ConnectionHandler] (responses)
- [honeypot/telegram_alert.py] : class [TelegramManager]

Conventions of the embedding.

- A Python [str] is a [string] of 8-bit characters; the character
  predicates ([isalnum], [isspace], ...) and [lower]/[upper] are the
  ASCII ones, so commands are ASCII text.  [len] counts characters of
  that representation.
- A Python [float] that the program builds from decimal literals with
  [+], [*], [/], [min], [max] is an exact rational ([Q]).  Every score
  constant of [analyze_command_threat] has two decimals and its total is
  scaled by 0.75, so that its scores stay at least 0.0025 away from the
  boundaries 0.85, 0.65 and 0.35 they are compared with, far more than
  the rounding of the floats.
- Code that can raise returns a [py_result]; [try]/[except] is a match
  on it.
- The wall clock ([datetime.now()]), the digest ([hashlib.sha256]),
  [numpy.log2], the learned model, the random generator and the HTTP
  client are not code of the repository: they are arguments. *)

From Stdlib Require Import String Ascii List ZArith QArith Qround Qminmax.
From Stdlib Require Import Lia Lqa Bool DecimalString PeanoNat.
Import ListNotations.
Open Scope string_scope.

(* ================================================================== *)
(** * Python values used by the sources                                *)
(* ================================================================== *)

(** Outcome of a call that may raise: the value, or the exception class. *)
Inductive py_result (A : Type) : Type :=
| Ok (a : A)
| Raise (exn : string).
Arguments Ok {A} a.
Arguments Raise {A} exn.

Definition bind {A B : Type} (r : py_result A) (k : A -> py_result B)
  : py_result B :=
  match r with
  | Ok a => k a
  | Raise e => Raise e
  end.

Notation "x <- c ;; k" := (bind c (fun x => k))
  (at level 61, c at next level, right associativity).

Definition raises {A : Type} (r : py_result A) : bool :=
  match r with Ok _ => false | Raise _ => true end.

Module PyStr.

Definition in_range (lo hi : nat) (c : ascii) : bool :=
  let n := nat_of_ascii c in (lo <=? n)%nat && (n <=? hi)%nat.

Definition isdigit (c : ascii) : bool := in_range 48 57 c.
Definition isupper (c : ascii) : bool := in_range 65 90 c.
Definition islower (c : ascii) : bool := in_range 97 122 c.
Definition isalpha (c : ascii) : bool := isupper c || islower c.
Definition isalnum (c : ascii) : bool := isalpha c || isdigit c.

(** [str.isspace] on ASCII: TAB, LF, VT, FF, CR, the separators
    FS, GS, RS, US and the blank. *)
Definition isspace (c : ascii) : bool :=
  in_range 9 13 c || in_range 28 31 c || in_range 32 32 c.

Definition lower_char (c : ascii) : ascii :=
  if isupper c then ascii_of_nat (nat_of_ascii c + 32) else c.

Definition upper_char (c : ascii) : ascii :=
  if islower c then ascii_of_nat (nat_of_ascii c - 32) else c.

Fixpoint map_chars (f : ascii -> ascii) (s : string) : string :=
  match s with
  | EmptyString => EmptyString
  | String c t => String (f c) (map_chars f t)
  end.

Definition lower : string -> string := map_chars lower_char.
Definition upper : string -> string := map_chars upper_char.

Definition is_empty (s : string) : bool :=
  match s with EmptyString => true | String _ _ => false end.

Fixpoint lstrip (s : string) : string :=
  match s with
  | EmptyString => EmptyString
  | String c t => if isspace c then lstrip t else s
  end.

Fixpoint rstrip (s : string) : string :=
  match s with
  | EmptyString => EmptyString
  | String c t =>
      let r := rstrip t in
      if is_empty r && isspace c then EmptyString else String c r
  end.

(** [s.strip()] *)
Definition strip (s : string) : string := rstrip (lstrip s).

(** [s.startswith(p)] *)
Definition startswith (s p : string) : bool := prefix p s.

(** [sub in s] *)
Fixpoint contains (sub s : string) : bool :=
  prefix sub s ||
  match s with
  | EmptyString => false
  | String _ t => contains sub t
  end.

(** [s[n:]] and [s[:n]] *)
Fixpoint drop (n : nat) (s : string) : string :=
  match n, s with
  | O, _ => s
  | S _, EmptyString => EmptyString
  | S k, String _ t => drop k t
  end.

Fixpoint take (n : nat) (s : string) : string :=
  match n, s with
  | O, _ => EmptyString
  | S _, EmptyString => EmptyString
  | S k, String c t => String c (take k t)
  end.

(** [sum(1 for c in s if p(c))] *)
Fixpoint count_if (p : ascii -> bool) (s : string) : nat :=
  match s with
  | EmptyString => O
  | String c t => (if p c then 1 else 0) + count_if p t
  end.

(** [s.count(sub)] for a non-empty [sub]: occurrences are counted from
    the left and do not overlap; [skip] is the number of characters
    still covered by the last occurrence counted. *)
Fixpoint count_from (skip : nat) (sub s : string) : nat :=
  match s with
  | EmptyString => O
  | String _ t =>
      match skip with
      | S k => count_from k sub t
      | O =>
          if prefix sub s
          then S (count_from (String.length sub - 1) sub t)
          else count_from O sub t
      end
  end.

Definition count (s sub : string) : nat := count_from O sub s.

(** [s.split()]: the maximal runs of non-blank characters. *)
Fixpoint split_from (cur : string) (s : string) : list string :=
  match s with
  | EmptyString => if is_empty cur then [] else [cur]
  | String c t =>
      if isspace c
      then (if is_empty cur then split_from EmptyString t
            else cur :: split_from EmptyString t)
      else split_from (cur ++ String c EmptyString) t
  end.

Definition split (s : string) : list string := split_from EmptyString s.

(** [s.replace(c, by)] for a one-character [c]. *)
Fixpoint replace_char (c : ascii) (by_ : string) (s : string) : string :=
  match s with
  | EmptyString => EmptyString
  | String d t =>
      if Ascii.eqb c d then by_ ++ replace_char c by_ t
      else String d (replace_char c by_ t)
  end.

(** Decimal digits of a natural number, and [str.zfill]. *)
Definition of_nat (n : nat) : string :=
  NilEmpty.string_of_uint (Nat.to_uint n).

Fixpoint zeros (n : nat) : string :=
  match n with O => EmptyString | S k => String "0" (zeros k) end.

Definition zfill (width : nat) (s : string) : string :=
  zeros (width - String.length s) ++ s.

Definition of_Z (z : Z) : string :=
  match z with
  | Zneg p => String "-" (of_nat (Pos.to_nat p))
  | _ => of_nat (Z.to_nat z)
  end.

End PyStr.

(* ================================================================== *)
(** * Numbers                                                          *)
(* ================================================================== *)

Definition Qgtb (x y : Q) : bool := negb (Qle_bool x y).
Definition Qgeb (x y : Q) : bool := Qle_bool y x.
Definition Qnat (n : nat) : Q := inject_Z (Z.of_nat n).

(** The integer nearest to [y], a tie going to the even neighbour. *)
Definition round_half_even (y : Q) : Z :=
  let f := Qfloor y in
  match Qcompare (y - inject_Z f) (1 # 2) with
  | Lt => f
  | Gt => (f + 1)%Z
  | Eq => if Z.even f then f else (f + 1)%Z
  end.

(** [round(x, ndigits)] *)
Definition py_round (x : Q) (ndigits : nat) : Q :=
  let s := Z.pow 10 (Z.of_nat ndigits) in
  inject_Z (round_half_even (x * inject_Z s)) / inject_Z s.

(** [format(x, '.<digits>f')] *)
Definition format_f (x : Q) (digits : nat) : string :=
  let s := Z.pow 10 (Z.of_nat digits) in
  let n := round_half_even (x * inject_Z s) in
  let m := Z.abs n in
  (if Qle_bool 0 x then "" else "-")
  ++ PyStr.of_nat (Z.to_nat (m / s)) ++ "."
  ++ PyStr.zfill digits (PyStr.of_nat (Z.to_nat (m mod s))).

(* ================================================================== *)
(** * The wall clock                                                   *)
(* ================================================================== *)

(** One reading of [datetime.now()].  [epoch_seconds] is
    [int(now.timestamp())], which depends on the time zone of the host. *)
Record datetime : Type := mk_datetime {
  year : nat; month : nat; day : nat;
  hour : nat; minute : nat; second : nat; microsecond : nat;
  epoch_seconds : Z
}.

Definition two (n : nat) : string := PyStr.zfill 2 (PyStr.of_nat n).

(** [t.strftime('%Y%m%d')] *)
Definition strftime_Ymd (t : datetime) : string :=
  PyStr.zfill 4 (PyStr.of_nat (year t)) ++ two (month t) ++ two (day t).

(** [t.strftime('%H:%M:%S')] *)
Definition strftime_HMS (t : datetime) : string :=
  two (hour t) ++ ":" ++ two (minute t) ++ ":" ++ two (second t).

(** [t.strftime('%Y-%m-%d %H:%M:%S UTC')] *)
Definition strftime_full_utc (t : datetime) : string :=
  PyStr.zfill 4 (PyStr.of_nat (year t)) ++ "-" ++ two (month t) ++ "-"
  ++ two (day t) ++ " " ++ strftime_HMS t ++ " UTC".

(** [t.isoformat()] *)
Definition isoformat (t : datetime) : string :=
  PyStr.zfill 4 (PyStr.of_nat (year t)) ++ "-" ++ two (month t) ++ "-"
  ++ two (day t) ++ "T" ++ strftime_HMS t
  ++ (if Nat.eqb (microsecond t) 0 then ""
      else "." ++ PyStr.zfill 6 (PyStr.of_nat (microsecond t))).

(** Two readings fall on the same calendar day. *)
Definition same_day (t1 t2 : datetime) : Prop :=
  year t1 = year t2 /\ month t1 = month t2 /\ day t1 = day t2.

(* ================================================================== *)
(** * backend/aetherion_app.py                                         *)
(* ================================================================== *)

Module aetherion_app.

(** The dictionary [threat_scoring], in the order of its keys. *)
Record threat_scoring : Type := mk_scoring {
  command_complexity : Q;
  suspicious_patterns : Q;
  privilege_escalation : Q;
  data_access : Q;
  system_modification : Q;
  network_activity : Q;
  code_execution : Q;
  information_gathering : Q
}.

Definition scoring_zero : threat_scoring :=
  mk_scoring 0 0 0 0 0 0 0 0.

(** [sum(threat_scoring.values())] *)
Definition scoring_sum (s : threat_scoring) : Q :=
  0 + command_complexity s + suspicious_patterns s
    + privilege_escalation s + data_access s + system_modification s
    + network_activity s + code_execution s + information_gathering s.

Definition add_suspicious_patterns (w : Q) (s : threat_scoring) :=
  mk_scoring (command_complexity s) (suspicious_patterns s + w)
    (privilege_escalation s) (data_access s) (system_modification s)
    (network_activity s) (code_execution s) (information_gathering s).

Definition add_privilege_escalation (w : Q) (s : threat_scoring) :=
  mk_scoring (command_complexity s) (suspicious_patterns s)
    (privilege_escalation s + w) (data_access s) (system_modification s)
    (network_activity s) (code_execution s) (information_gathering s).

Definition add_data_access (w : Q) (s : threat_scoring) :=
  mk_scoring (command_complexity s) (suspicious_patterns s)
    (privilege_escalation s) (data_access s + w) (system_modification s)
    (network_activity s) (code_execution s) (information_gathering s).

Definition add_system_modification (w : Q) (s : threat_scoring) :=
  mk_scoring (command_complexity s) (suspicious_patterns s)
    (privilege_escalation s) (data_access s) (system_modification s + w)
    (network_activity s) (code_execution s) (information_gathering s).

Definition add_network_activity (w : Q) (s : threat_scoring) :=
  mk_scoring (command_complexity s) (suspicious_patterns s)
    (privilege_escalation s) (data_access s) (system_modification s)
    (network_activity s + w) (code_execution s) (information_gathering s).

Definition add_code_execution (w : Q) (s : threat_scoring) :=
  mk_scoring (command_complexity s) (suspicious_patterns s)
    (privilege_escalation s) (data_access s) (system_modification s)
    (network_activity s) (code_execution s + w) (information_gathering s).

Definition add_information_gathering (w : Q) (s : threat_scoring) :=
  mk_scoring (command_complexity s) (suspicious_patterns s)
    (privilege_escalation s) (data_access s) (system_modification s)
    (network_activity s) (code_execution s) (information_gathering s + w).

Definition set_command_complexity (w : Q) (s : threat_scoring) :=
  mk_scoring w (suspicious_patterns s)
    (privilege_escalation s) (data_access s) (system_modification s)
    (network_activity s) (code_execution s) (information_gathering s).

(** The keys of [threat_patterns]. *)
Inductive category : Type :=
| system_destruction
| cat_privilege_escalation
| cat_data_access
| network_exploitation
| cat_code_execution
| system_reconnaissance
| file_manipulation.

Definition threat_patterns : list (category * list string) :=
  [ (system_destruction,
      ["rm -rf/"; "del /f"; "format c:"; "mkfs"; "dd if="]);
    (cat_privilege_escalation,
      ["sudo"; "su -"; "chmod +s"; "setuid"; "passwd"]);
    (cat_data_access,
      ["cat /etc/passwd"; "cat /etc/shadow"; "cat /proc/"; "strings "]);
    (network_exploitation,
      ["nc -l"; "nc "; "netcat"; "telnet"; "ssh -i"]);
    (cat_code_execution,
      ["python -c"; "bash -c"; "sh -c"; "eval("; "exec("]);
    (system_reconnaissance,
      ["whoami"; "id"; "uname -a"; "ps aux"; "netstat"]);
    (file_manipulation,
      ["chmod +x"; "mv "; "cp "; "touch "; "mkdir "]) ].

(** What one matched pattern of a category adds to the buckets (the
    local [category_score] of the source is never read). *)
Definition bump (c : category) (s : threat_scoring) : threat_scoring :=
  match c with
  | system_destruction => add_system_modification 0.3 s
  | cat_privilege_escalation => add_privilege_escalation 0.25 s
  | cat_data_access => add_data_access 0.2 s
  | network_exploitation => add_network_activity 0.22 s
  | cat_code_execution => add_code_execution 0.28 s
  | system_reconnaissance => add_information_gathering 0.18 s
  | file_manipulation => add_system_modification 0.15 s
  end.

(** [for pattern in patterns: if pattern in command_lower: ...] *)
Definition scan_patterns (command_lower : string) (c : category)
    (patterns : list string) (s : threat_scoring) : threat_scoring :=
  fold_left
    (fun acc pattern =>
       if PyStr.contains pattern command_lower then bump c acc else acc)
    patterns s.

(** [for category, patterns in threat_patterns.items(): ...] *)
Definition scan_categories (command_lower : string)
    (table : list (category * list string)) (s : threat_scoring)
  : threat_scoring :=
  fold_left
    (fun acc entry => scan_patterns command_lower (fst entry) (snd entry) acc)
    table s.

Definition is_special (c : ascii) : bool :=
  negb (PyStr.isalnum c) && negb (Ascii.eqb c " ").

(** [special_chars / len(command) if command else 0] *)
Definition char_ratio (command : string) : Q :=
  if PyStr.is_empty command then 0
  else Qnat (PyStr.count_if is_special command)
       / Qnat (String.length command).

Definition complexity_step (command : string) (s : threat_scoring) :=
  if (150 <? String.length command)%nat then set_command_complexity 0.2 s
  else if (100 <? String.length command)%nat
       then set_command_complexity 0.15 s
       else s.

Definition ratio_step (command : string) (s : threat_scoring) :=
  if Qgtb (char_ratio command) 0.3 then add_suspicious_patterns 0.2 s else s.

Definition chaining_step (command : string) (s : threat_scoring) :=
  if PyStr.contains "&&" command || PyStr.contains "||" command
     || PyStr.contains ";" command
  then add_suspicious_patterns 0.15 s else s.

Definition substitution_step (command : string) (s : threat_scoring) :=
  if PyStr.contains "$((" command || PyStr.contains "`" command
  then add_suspicious_patterns 0.18 s else s.

Definition dquote : string := String (ascii_of_nat 34) EmptyString.

Definition quoting_step (command : string) (s : threat_scoring) :=
  if (2 <? PyStr.count command dquote)%nat
     || (4 <? PyStr.count command "'")%nat
  then add_suspicious_patterns 0.12 s else s.

Definition internal_prefixes : list string :=
  ["192.168"; "10."; "172.16"; "127."; "::1"].

(** [ip and not any(x in ip for x in [...])] *)
Definition is_external (ip : string) : bool :=
  negb (PyStr.is_empty ip)
  && negb (existsb (fun x => PyStr.contains x ip) internal_prefixes).

Definition ip_step (ip : string) (s : threat_scoring) :=
  if is_external ip then add_network_activity 0.08 s else s.

(** The value of [threat_scoring] when the total is taken. *)
Definition score_command (command ip : string) : threat_scoring :=
  let command_lower := PyStr.strip (PyStr.lower command) in
  let s := complexity_step command scoring_zero in
  let s := ratio_step command s in
  let s := scan_categories command_lower threat_patterns s in
  let s := chaining_step command s in
  let s := substitution_step command s in
  let s := quoting_step command s in
  ip_step ip s.

(** [min(1.0, total_score * 0.75)] *)
Definition normalize (total_score : Q) : Q := Qmin 1 (total_score * 0.75).

(** The [if]/[elif] chain on [anomaly_score]: level and confidence. *)
Definition threat_level_of (anomaly_score : Q) : string * Q :=
  if Qgeb anomaly_score 0.85 then ("CRITICAL", 0.96)
  else if Qgeb anomaly_score 0.65 then ("HIGH", 0.88)
  else if Qgeb anomaly_score 0.35 then ("MEDIUM", 0.72)
  else ("LOW", 0.52).

Definition when (b : bool) (label : string) : list string :=
  if b then [label] else [].

Definition indicators_of (s : threat_scoring) : list string :=
  when (Qgtb (privilege_escalation s) 0.2) "Privilege Escalation Attempt"
  ++ when (Qgtb (code_execution s) 0.2) "Code Execution Pattern"
  ++ when (Qgtb (system_modification s) 0.25) "System Modification Threat"
  ++ when (Qgtb (data_access s) 0.15) "Unauthorized Data Access"
  ++ when (Qgtb (network_activity s) 0.15) "Suspicious Network Activity"
  ++ when (Qgtb (information_gathering s) 0.15) "Reconnaissance Activity"
  ++ when (Qgtb (suspicious_patterns s) 0.2) "Advanced Attack Patterns".

(** The [if]/[elif] chain that classifies the attack vector. *)
Definition attack_vector_of (s : threat_scoring) : string :=
  if Qgtb (system_modification s) 0.25 then "System Destruction"
  else if Qgtb (privilege_escalation s) 0.2 then "Privilege Escalation"
  else if Qgtb (code_execution s) 0.25 then "Code Injection"
  else if Qgtb (data_access s) 0.18 then "Data Exfiltration"
  else if Qgtb (network_activity s) 0.2 then "Network Intrusion"
  else if Qgtb (information_gathering s) 0.15 then "Reconnaissance"
  else "Generic Command".

(** The dictionary returned by [analyze_command_threat]. *)
Record assessment : Type := mk_assessment {
  threat_level : string;
  anomaly_score : Q;
  confidence : Q;
  attack_vector : string;
  indicators : list string;
  scoring_breakdown : threat_scoring;
  threat_signature : string;
  analyzer_version : string;
  analysis_timestamp : string
}.

Section Analyzer.

(** [hashlib.sha256(data.encode()).hexdigest()] *)
Variable sha256_hexdigest : string -> string.

Definition signature_of (command ip : string) (t : datetime) : string :=
  let signature_data := command ++ ":" ++ ip ++ ":" ++ strftime_Ymd t in
  PyStr.upper (PyStr.take 16 (sha256_hexdigest signature_data)).

(** [analyze_command_threat(command, ip)]; the clock is read twice,
    [t_sig] for the signature and [t_stamp] for the time stamp. *)
Definition analyze_command_threat (command ip : string)
    (t_sig t_stamp : datetime) : assessment :=
  let threat_scoring := score_command command ip in
  let total_score := scoring_sum threat_scoring in
  let anomaly_score := normalize total_score in
  let '(threat_level, confidence) := threat_level_of anomaly_score in
  {| threat_level := threat_level;
     anomaly_score := py_round anomaly_score 6;
     confidence := py_round confidence 3;
     attack_vector := attack_vector_of threat_scoring;
     indicators := indicators_of threat_scoring;
     scoring_breakdown := threat_scoring;
     threat_signature := signature_of command ip t_sig;
     analyzer_version := "AetherionBot 1.0";
     analysis_timestamp := isoformat t_stamp |}.

End Analyzer.

End aetherion_app.

(* ================================================================== *)
(** * Python dictionaries                                              *)
(* ================================================================== *)

(** A [dict] with string keys keeps its keys in insertion order: an
    association list without repeated keys. *)
Module PyDict.

Definition dict (V : Type) : Type := list (string * V).

(** [d.get(k)] *)
Fixpoint get {V : Type} (d : dict V) (k : string) : option V :=
  match d with
  | [] => None
  | (k', v) :: r => if String.eqb k' k then Some v else get r k
  end.

(** [k in d] *)
Definition mem {V : Type} (d : dict V) (k : string) : bool :=
  match get d k with Some _ => true | None => false end.

(** [d[k] = v]: a present key keeps its place, a new key goes last. *)
Fixpoint set {V : Type} (d : dict V) (k : string) (v : V) : dict V :=
  match d with
  | [] => [(k, v)]
  | (k', v') :: r =>
      if String.eqb k' k then (k', v) :: r else (k', v') :: set r k v
  end.

(** [del d[k]] for a key of [d]. *)
Fixpoint del {V : Type} (d : dict V) (k : string) : dict V :=
  match d with
  | [] => []
  | (k', v') :: r => if String.eqb k' k then r else (k', v') :: del r k
  end.

(** [list(d.keys())] *)
Definition keys {V : Type} (d : dict V) : list string := map fst d.

End PyDict.

(* ================================================================== *)
(** * backend/aetherion_app.py: intelligence, pages, sessions          *)
(* ================================================================== *)

Module aetherion_api.

Import aetherion_app.

(** [get_geographic_info(ip)] *)
Definition get_geographic_info (ip : string) : PyDict.dict string :=
  if PyStr.startswith ip "192.168" || PyStr.startswith ip "10."
     || PyStr.startswith ip "172.16"
  then [("country", "Internal Network"); ("city", "LAN Zone");
        ("type", "Private")]
  else if PyStr.startswith ip "127." || String.eqb ip "::1"
  then [("country", "Localhost"); ("city", "Local"); ("type", "Local")]
  else [("country", "Unknown"); ("city", "Unknown"); ("type", "External")].

(** The model [ThreatIntelligence]. *)
Record ThreatIntelligence : Type := mk_intelligence {
  ti_ip : string;
  source_country : string;
  source_city : string;
  known_malware : bool;
  attack_frequency : Z;
  first_seen : string;
  last_seen : string;
  reputation_score : Q;
  ti_threat_signature : string
}.

(** [load_threat_intelligence()] on the content of the file: an
    unreadable file counts as an empty dictionary. *)
Definition load_threat_intelligence
    (file : py_result (PyDict.dict ThreatIntelligence))
  : PyDict.dict ThreatIntelligence :=
  match file with
  | Ok intelligence => intelligence
  | Raise _ => []
  end.

(** [geo_info.get(key, 'Unknown')] *)
Definition geo_get (geo_info : PyDict.dict string) (key : string) : string :=
  match PyDict.get geo_info key with
  | Some v => v
  | None => "Unknown"
  end.

(** [update_threat_intelligence(ip, analysis)]: the dictionary that is
    written back to the file. *)
Definition update_threat_intelligence
    (file : py_result (PyDict.dict ThreatIntelligence))
    (ip : string) (a : assessment) (t : datetime)
  : PyDict.dict ThreatIntelligence :=
  let intelligence := load_threat_intelligence file in
  let now := isoformat t in
  let geo_info := get_geographic_info ip in
  match PyDict.get intelligence ip with
  | Some ti =>
      PyDict.set intelligence ip
        {| ti_ip := ti_ip ti;
           source_country := source_country ti;
           source_city := source_city ti;
           known_malware := known_malware ti;
           attack_frequency := attack_frequency ti + 1;
           first_seen := first_seen ti;
           last_seen := now;
           reputation_score := Qmin 1 (reputation_score ti + 0.1);
           ti_threat_signature := ti_threat_signature ti |}
  | None =>
      PyDict.set intelligence ip
        {| ti_ip := ip;
           source_country := geo_get geo_info "country";
           source_city := geo_get geo_info "city";
           known_malware := false;
           attack_frequency := 1;
           first_seen := now;
           last_seen := now;
           reputation_score := anomaly_score a;
           ti_threat_signature := threat_signature a |}
  end.

(** The index that a slice bound [i] denotes in a list of [len]
    elements: a negative bound counts from the end, and every bound is
    clipped to the list. *)
Definition slice_bound (i : Z) (len : nat) : nat :=
  if (i <? 0)%Z then Z.to_nat (Z.max 0 (i + Z.of_nat len))
  else Nat.min (Z.to_nat i) len.

(** [l[start:stop]] *)
Definition py_slice {A : Type} (l : list A) (start stop : Z) : list A :=
  let s := slice_bound start (List.length l) in
  let e := slice_bound stop (List.length l) in
  firstn (e - s) (skipn s l).

(** The page that [get_session_analytics] cuts out of the filtered
    sessions, before it sorts that page. *)
Definition page_of {A : Type} (filtered_sessions : list A) (page limit : Z)
  : list A :=
  let start_idx := ((page - 1) * limit)%Z in
  let end_idx := (start_idx + limit)%Z in
  py_slice filtered_sessions start_idx end_idx.

(** [(total_count + limit - 1) // limit] *)
Definition total_pages (total_count limit : Z) : py_result Z :=
  if (limit =? 0)%Z then Raise "ZeroDivisionError"
  else Ok ((total_count + limit - 1) / limit)%Z.

(** The list that [save_professional_session] dumps: the sessions
    loaded, the new one, cut to the last 1500. *)
Definition saved_sessions {A : Type} (sessions : list A) (session : A)
  : list A :=
  let sessions := (sessions ++ [session])%list in
  if (1500 <? List.length sessions)%nat
  then skipn (List.length sessions - 1500) sessions
  else sessions.

End aetherion_api.

(* ================================================================== *)
(** * backend/ai.py                                                    *)
(* ================================================================== *)

Module ai.

(** The dictionary built by [extract_features]. *)
Module Feat.
Record features : Type := mk_features {
  length : nat;
  word_count : nat;
  digit_count : nat;
  special_char_count : nat;
  uppercase_count : nat;
  path_depth : nat;
  has_numbers : bool;
  suspicious_patterns : nat;
  detected_patterns : list string;
  entropy : Q;
  has_file_path : bool;
  has_url : bool;
  has_ip : bool
}.
End Feat.

(** Values stored in an analysis dictionary. *)
Inductive pyval : Type :=
| VStr (s : string)
| VNum (q : Q)
| VStrList (l : list string)
| VFeatures (f : Feat.features).

Definition analysis : Type := PyDict.dict pyval.

Definition suspicious_patterns : list string :=
  [ "rm -rf"; "sudo"; "su -"; "passwd"; "shadow";
    "iptables"; "netstat"; "ps aux"; "whoami"; "id";
    "curl"; "wget"; "nc "; "netcat"; "telnet";
    "ftp"; "nmap"; "hydra"; "john"; "hashcat";
    "python"; "bash"; "sh "; "chmod"; "chown";
    "kill"; "pkill"; "killall"; "systemctl";
    "journalctl"; "cat /etc"; "cat /proc"; "ls -la";
    "find "; "grep "; "awk"; "sed"; "xargs"; "..";
    "/dev/null"; "2>&1"; ">/dev/null"; "&&"; "||" ].

(** [char_counts[char] = char_counts.get(char, 0) + 1] *)
Fixpoint incr (c : ascii) (d : list (ascii * nat)) : list (ascii * nat) :=
  match d with
  | [] => [(c, 1%nat)]
  | (k, n) :: r => if Ascii.eqb k c then (k, S n) :: r else (k, n) :: incr c r
  end.

Definition char_counts (command : string) : list (ascii * nat) :=
  fold_left (fun d c => incr c d) (list_ascii_of_string command) [].

(** [part.replace('.', '').isdigit() and len(part.split('.')) == 4] *)
Definition looks_like_ip (part : string) : bool :=
  let digits := PyStr.replace_char "." "" part in
  (negb (PyStr.is_empty digits)
   && (PyStr.count_if PyStr.isdigit digits =? String.length digits)%nat)
  && (S (PyStr.count_if (Ascii.eqb ".") part) =? 4)%nat.

Definition backslash : string := String (ascii_of_nat 92) EmptyString.

Section Manager.

(** [numpy.log2] *)
Variable log2 : Q -> Q.

(** The entropy loop: [entropy -= p * np.log2(p)] for each count. *)
Definition entropy_of (command : string) : Q :=
  fold_left
    (fun entropy kv =>
       if (0 <? snd kv)%nat
       then let p := Qnat (snd kv) / Qnat (String.length command) in
            entropy - p * log2 p
       else entropy)
    (char_counts command) 0.

Definition extract_features (command : string) : Feat.features :=
  let lowered := PyStr.lower command in
  let detected :=
    filter (fun pattern => PyStr.contains pattern lowered)
           suspicious_patterns in
  {| Feat.length := String.length command;
     Feat.word_count := List.length (PyStr.split command);
     Feat.digit_count := PyStr.count_if PyStr.isdigit command;
     Feat.special_char_count :=
       PyStr.count_if
         (fun c => negb (PyStr.isalnum c) && negb (PyStr.isspace c))
         command;
     Feat.uppercase_count := PyStr.count_if PyStr.isupper command;
     Feat.path_depth := PyStr.count command "/";
     Feat.has_numbers :=
       negb (PyStr.count_if PyStr.isdigit command =? 0)%nat;
     Feat.suspicious_patterns := List.length detected;
     Feat.detected_patterns := detected;
     Feat.entropy := entropy_of command;
     Feat.has_file_path :=
       PyStr.contains "/" command || PyStr.contains backslash command;
     Feat.has_url :=
       PyStr.contains "http://" command
       || PyStr.contains "https://" command;
     Feat.has_ip := existsb looks_like_ip (PyStr.split command) |}.

Definition Qbool (b : bool) : Q := if b then 1 else 0.

Definition create_feature_vector (f : Feat.features) : list Q :=
  [ Qnat (Feat.length f);
    Qnat (Feat.word_count f);
    Qnat (Feat.digit_count f);
    Qnat (Feat.special_char_count f);
    Qnat (Feat.uppercase_count f);
    Qnat (Feat.path_depth f);
    Qnat (Feat.suspicious_patterns f);
    Feat.entropy f;
    Qbool (Feat.has_numbers f);
    Qbool (Feat.has_file_path f);
    Qbool (Feat.has_url f);
    Qbool (Feat.has_ip f) ].

(** The object loaded from [iforest.joblib], seen through the calls
    [predict_anomaly] makes on it; each of them may raise. *)
Record Model : Type := mk_model {
  has_decision_function : bool;
  decision_function_0 : list Q -> py_result Q;
  offset_0 : py_result Q;
  predict_0 : list Q -> py_result Z
}.

(** The attributes of [AIManager] that the analysis reads. *)
Record AIManager : Type := mk_manager {
  model : option Model;
  scaler : option (list Q -> py_result (list Q))
}.

Definition _heuristic_score (f : Feat.features) : Q :=
  let score := 0 in
  let score :=
    if (50 <? Feat.length f)%nat then score + 0.2 else score in
  let score := score + Qnat (Feat.suspicious_patterns f) * 0.15 in
  let score :=
    if (5 <? Feat.special_char_count f)%nat then score + 0.1 else score in
  let score := if Qgtb (Feat.entropy f) 4 then score + 0.2 else score in
  let score := if Feat.has_file_path f then score + 0.1 else score in
  Qmin 1 score.

(** The body of the [try] block of [predict_anomaly].  (When the
    offset is zero numpy divides to an infinity or a NaN, which the
    clamp sends to 0 or 1; [Q] divides to 0, which the clamp keeps at
    one half.) *)
Definition predict_with_model (m : Model)
    (sc : option (list Q -> py_result (list Q)))
    (f : Feat.features) : py_result Q :=
  let feature_vector := create_feature_vector f in
  feature_vector <-
    match sc with
    | Some transform => transform feature_vector
    | None => Ok feature_vector
    end ;;
  if has_decision_function m then
    score <- decision_function_0 m feature_vector ;;
    off1 <- offset_0 m ;;
    off2 <- offset_0 m ;;
    let normalized_score :=
      Qmax 0 (Qmin 1 ((score + off1) / (2 * off2) + 0.5)) in
    Ok (1 - normalized_score)
  else
    prediction <- predict_0 m feature_vector ;;
    Ok (if (prediction =? -1)%Z then 1 else 0).

Definition predict_anomaly (self : AIManager) (f : Feat.features) : Q :=
  match model self with
  | None => _heuristic_score f
  | Some m =>
      match predict_with_model m (scaler self) f with
      | Ok score => score
      | Raise _ => _heuristic_score f
      end
  end.

Definition get_threat_level (anomaly_score : Q) : string :=
  if Qgeb anomaly_score 0.8 then "CRITICAL"
  else if Qgeb anomaly_score 0.6 then "HIGH"
  else if Qgeb anomaly_score 0.4 then "MEDIUM"
  else "LOW".

Definition validate_command (self : AIManager) (command : string)
    (now : datetime) : analysis :=
  let features := extract_features command in
  let anomaly_score := predict_anomaly self features in
  let threat_level := get_threat_level anomaly_score in
  [ ("command", VStr command);
    ("features", VFeatures features);
    ("anomaly_score", VNum anomaly_score);
    ("threat_level", VStr threat_level);
    ("risk_factors", VStrList (Feat.detected_patterns features));
    ("analysis_timestamp", VStr (isoformat now)) ].

End Manager.

End ai.

(* ================================================================== *)
(** * honeypot/ai_analysis.py                                          *)
(* ================================================================== *)

Module ai_analysis.

Import ai.

(** The attributes of [AIAnalyzer]; [analysis_cache] is the only one the
    analysis changes. *)
Record AIAnalyzer : Type := mk_analyzer {
  ai_manager : AIManager;
  analysis_cache : PyDict.dict analysis;
  cache_size : nat
}.

(** [AIAnalyzer.__init__] *)
Definition init (manager : AIManager) : AIAnalyzer :=
  {| ai_manager := manager; analysis_cache := []; cache_size := 1000 |}.

Definition attack_patterns : list (string * list string) :=
  [ ("privilege_escalation", ["sudo"; "su -"; "su root"; "su -l"; "su -"]);
    ("file_manipulation", ["rm -rf"; "rm -rf /"; "dd if="; "cat >"; "echo >"]);
    ("system_enumeration",
      ["cat /etc/passwd"; "cat /etc/shadow"; "uname -a"; "ps aux"]);
    ("network_scanning", ["nmap"; "masscan"; "zmap"; "nc -z"; "nc -v"]);
    ("command_injection", ["; "; "&&"; "||"; "|"; "`"; "$("; "${{"]);
    ("data_exfiltration", ["curl"; "wget"; "scp"; "rsync"; "nc-"]);
    ("service_disruption",
      ["kill -9"; "killall"; "systemctl stop"; "service stop"]);
    ("malicious_scripting", ["python -c"; "bash -c"; "sh -c"; "curl | sh"]);
    ("authentication_bypass",
      ["passwd"; "ssh-copy-id"; "ssh-keygen"; "id_rsa"]);
    ("persistence", ["crontab"; "systemctl enable"; ".bashrc"; ".profile"]) ].

Definition _detect_attack_patterns (command : string) : list string :=
  let command_lower := PyStr.lower command in
  map fst
    (filter
       (fun entry =>
          existsb (fun keyword => PyStr.contains keyword command_lower)
                  (snd entry))
       attack_patterns).

Definition _calculate_complexity (command : string) : Q :=
  let score := 0 in
  let score :=
    if (50 <? String.length command)%nat then score + 0.2
    else if (100 <? String.length command)%nat then score + 0.4
    else score in
  let score := score + Qnat (PyStr.count command "|") * 0.1 in
  let score := score + Qnat (PyStr.count command ";") * 0.1 in
  let score := score + Qnat (PyStr.count command "&&") * 0.15 in
  let score := score + Qnat (PyStr.count command "||") * 0.15 in
  let score := score + Qnat (PyStr.count command "$(") * 0.2 in
  let score := score + Qnat (PyStr.count command "`") * 0.15 in
  let score := score + Qnat (PyStr.count command ">") * 0.05 in
  let score := score + Qnat (PyStr.count command "<") * 0.05 in
  let score := score + Qnat (PyStr.count command "2>&1") * 0.1 in
  let args := PyStr.split command in
  let score := if (5 <? List.length args)%nat then score + 0.1 else score in
  Qmin 1 score.

(** [_cache_analysis]: the new value of [self.analysis_cache]. *)
Definition _cache_analysis (self : AIAnalyzer) (cache_key : string)
    (a : analysis) : PyDict.dict analysis :=
  let cache := analysis_cache self in
  let cache :=
    if (cache_size self <=? List.length cache)%nat then
      let keys_to_remove :=
        firstn (cache_size self / 5) (PyDict.keys cache) in
      fold_left (fun c key => PyDict.del c key) keys_to_remove cache
    else cache in
  PyDict.set cache cache_key a.

Definition _fallback_analysis (command ip : string) (now : datetime)
  : analysis :=
  [ ("command", VStr command);
    ("ip", VStr ip);
    ("anomaly_score", VNum 0.5);
    ("threat_level", VStr "MEDIUM");
    ("risk_factors", VStrList ["analysis_error"]);
    ("timestamp", VStr (isoformat now));
    ("analysis_method", VStr "fallback") ].

Section Analyzer.

(** [numpy.log2] *)
Variable log2 : Q -> Q.

(** The body of the [try] block of [analyze_command]: the value returned
    and the analyzer afterwards.  [clock i] is the [i]-th reading of
    [datetime.now()] made by the call. *)
Definition analyze_command_try (self : AIAnalyzer) (command ip : string)
    (clock : nat -> datetime) : py_result (analysis * AIAnalyzer) :=
  let cache_key := ip ++ ":" ++ command in
  match PyDict.get (analysis_cache self) cache_key with
  | Some cached => Ok (cached, self)
  | None =>
      let a := validate_command log2 (ai_manager self) command (clock 0%nat) in
      let a := PyDict.set a "ip" (VStr ip) in
      let a := PyDict.set a "timestamp" (VStr (isoformat (clock 1%nat))) in
      let a :=
        PyDict.set a "session_id"
          (VStr (ip ++ "_" ++ PyStr.of_Z (epoch_seconds (clock 2%nat)))) in
      let a :=
        PyDict.set a "attack_patterns"
          (VStrList (_detect_attack_patterns command)) in
      let a :=
        PyDict.set a "complexity_score"
          (VNum (_calculate_complexity command)) in
      let cache := _cache_analysis self cache_key a in
      Ok (a, {| ai_manager := ai_manager self;
                analysis_cache := cache;
                cache_size := cache_size self |})
  end.

(** [analyze_command]: [except Exception] sends every error to
    [_fallback_analysis]. *)
Definition analyze_command (self : AIAnalyzer) (command ip : string)
    (clock : nat -> datetime) : analysis * AIAnalyzer :=
  match analyze_command_try self command ip clock with
  | Ok r => r
  | Raise _ => (_fallback_analysis command ip (clock 0%nat), self)
  end.


(** [get_analysis_stats()["cache_size"]] *)
Definition stats_cache_size (self : AIAnalyzer) : nat :=
  List.length (analysis_cache self).

End Analyzer.

End ai_analysis.

(* ================================================================== *)
(** * honeypot/handlers.py                                             *)
(* ================================================================== *)

Module handlers.

Import ai.

Definition nl : string := String (ascii_of_nat 10) EmptyString.
Definition dquote : string := String (ascii_of_nat 34) EmptyString.

(** The canned outputs of [_get_command_response]. *)
Definition ls_long_listing : string :=
"total 84
drwxr-xr-x 22 root root  4096 Jan 15 10:30 .
drwxr-xr-x 23 root root  4096 Dec 23 08:15 ..
-rw-------  1 root root  1234 Jan 14 09:20 .bash_history
-rw-r--r--  1 root root  2043 Jan 01 00:00 .bashrc
drwxr-xr-x  2 root root  4096 Nov 30 12:45 backups
-rwxr-xr-x  1 root root  8192 Jan 02 15:20 cronjob.sh
drwxr-xr-x  3 root root  4096 Dec 15 14:30 data
-rw-r--r--  1 root root  1024 Jan 10 18:30 config.ini
-rwxr-xr-x  1 root root  4096 Dec 28 16:45 deploy.sh
drwxr-xr-x  2 root root  4096 Jan 05 11:20 logs
drwxrwxr-x  2 root root  4096 Dec 20 09:15 temp
-rwxr-xr-x  1 root root  2048 Jan 12 13:25 update.sh
-rwxr-xr-x  1 root root  512  Dec 18 07:30 watchdog.sh".

Definition ls_listing : string :=
"backups  config.ini  cronjob.sh  data  deploy.sh  logs  temp  update.sh  watchdog.sh".

Definition uname_output : string :=
"Linux server 5.4.0-94-generic #106-Ubuntu SMP Thu Jan 6 23:58:14 UTC 2022 x86_64 x86_64 x86_64 GNU/Linux".

Definition ps_aux_output : string :=
"USER       PID %CPU %MEM    VSZ   RSS TTY      STAT START   TIME COMMAND
root         1  0.0  0.1 225836  9216 ?        Ss   Jan15   0:02 /sbin/init
root         2  0.0  0.0      0     0 ?        S    Jan15   0:00 [kthreadd]
root         3  0.0  0.0      0     0 ?        I<   Jan15   0:00 [rcu_gp]
root         4  0.0  0.0      0     0 ?        I<   Jan15   0:00 [rcu_par_gp]
root         5  0.0  0.0      0     0 ?        I<   Jan15   0:00 [netns]
root        87 0.0 0.3 201532 24784 ?        Ss   Jan15   0:00 sshd: /usr/sbin/sshd [listener] 
root       234 0.0 0.1 185268  8504 ?        Ss   Jan15   0:00 crond".

Definition etc_passwd_output : string :=
"root:x:0:0:root:/root:/bin/bash
daemon:x:1:1:daemon:/usr/sbin:/usr/sbin/nologin
bin:x:2:2:bin:/bin:/usr/sbin/nologin
sys:x:3:3:sys:/dev:/usr/sbin/nologin
sync:x:4:65534:sync:/bin:/bin/sync
games:x:5:60:games:/usr/games:/usr/sbin/nologin
man:x:6:12:man:/var/cache/man:/usr/sbin/nologin
lp:x:7:7:lp:/var/spool/lpd:/usr/sbin/nologin
mail:x:8:8:mail:/var/mail:/usr/sbin/nologin
news:x:9:9:news:/var/spool/news:/usr/sbin/nologin".

Definition netstat_output : string :=
"Active Internet connections (only servers)
Proto Recv-Q Send-Q Local Address           Foreign Address         State      
tcp        0      0 0.0.0.0:22              0.0.0.0:*               LISTEN     
tcp        0      0 127.0.0.1:6379          0.0.0.0:*               LISTEN     
tcp6       0      0 :::22                    :::*                    LISTEN     
tcp6       0      0 :::80                    :::*                    LISTEN".

Definition curl_output : string :=
"Connected to example.com (93.184.216.34:80)
HTTP/1.1 200 OK
Date: Mon, 15 Jan 2024 10:30:45 GMT
Server: nginx/1.18.0
Content-Type: text/html; charset=UTF-8

<html>
<head><title>Welcome to Example Server</title></head>
<body><h1>Server is running</h1></body>
</html>".

Definition python_banner : string :=
"Python 3.8.10 (default, Jun 22 2022, 20:18:18)
[GCC 9.4.0] on linux".

Definition uptime_output : string :=
" 10:30:45 up 23 days, 8:45, 1 user, load average: 0.08, 0.03, 0.00".

Definition free_output : string :=
"              total        used        free      shared  buff/cache   available
Mem:        8053068     2048560     1234567       245678     4770941     3456789
Swap:       2097148           0     2097148".

Definition df_output : string :=
"Filesystem     Size  Used Avail Use% Mounted on
/dev/sda1       20G  8.5G   11G  45% /
/dev/sda2        8G  2.1G  5.9G  27% /var
tmpfs          3.9G     0  3.9G   0% /dev/shm".

Definition history_output : string :=
"   1  ls -la
   2  whoami  
   3  pwd
   4  date
   5  uptime
   6  ps aux".

Definition env_output : string :=
"PATH=/usr/local/sbin:/usr/local/bin:/usr/sbin:/usr/bin:/sbin:/bin
TERM=xterm-256color
SHELL=/bin/bash
HOME=/root
USER=root
PWD=/root".

(** [_get_command_response(command)]; [now] is the reading of the clock
    that the [date] branch makes.  The last branch indexes
    [command.split()], which raises on an empty list. *)
Definition _get_command_response (command : string) (now : datetime)
  : py_result string :=
  let command_lower := PyStr.lower command in
  if PyStr.startswith command_lower "ls" then
    if PyStr.contains "-la" command_lower || PyStr.contains "-a" command_lower
    then Ok ls_long_listing
    else Ok ls_listing
  else if String.eqb command_lower "pwd" then Ok "/root"
  else if String.eqb command_lower "whoami" then Ok "root"
  else if PyStr.startswith command_lower "uname" then Ok uname_output
  else if String.eqb command_lower "id"
       then Ok "uid=0(root) gid=0(root) groups=0(root)"
  else if PyStr.startswith command_lower "ps aux" then Ok ps_aux_output
  else if PyStr.startswith command_lower "cat /etc/passwd"
       then Ok etc_passwd_output
  else if PyStr.startswith command_lower "netstat" then Ok netstat_output
  else if PyStr.startswith command_lower "curl"
          || PyStr.startswith command_lower "wget"
       then Ok curl_output
  else if PyStr.startswith command_lower "python" then Ok python_banner
  else if PyStr.startswith command_lower "date"
       then Ok ("Mon Jan 15 " ++ strftime_HMS now ++ " UTC 2024")
  else if PyStr.startswith command_lower "uptime" then Ok uptime_output
  else if PyStr.startswith command_lower "free" then Ok free_output
  else if PyStr.startswith command_lower "df" then Ok df_output
  else if PyStr.startswith command_lower "history" then Ok history_output
  else if PyStr.startswith command_lower "env" then Ok env_output
  else if PyStr.startswith command_lower "echo" then
    let echo_msg := PyStr.strip (PyStr.drop 4 command) in
    Ok (dquote ++ echo_msg ++ dquote)
  else if PyStr.startswith command_lower "touch" then
    let filename := PyStr.strip (PyStr.drop 5 command) in
    Ok ("touch: creating file '" ++ filename ++ "': Permission denied")
  else if PyStr.startswith command_lower "mkdir"
       then Ok "mkdir: cannot create directory 'test': File exists"
  else if PyStr.startswith command_lower "rm"
       then Ok "rm: cannot remove '/root/test': No such file or directory"
  else if PyStr.startswith command_lower "su "
          || PyStr.startswith command_lower "sudo"
       then Ok "Authenticate as super user:"
  else
    match PyStr.split command with
    | first :: _ => Ok ("-bash: " ++ first ++ ": command not found")
    | [] => Raise "IndexError"
    end.

(** [random.choice(seq)], [draw] being the number the generator yields. *)
Definition choice (draw : nat) (seq : list string) : string :=
  nth (draw mod List.length seq) seq EmptyString.

Definition _add_suspicious_output (command : string) (draw : nat) : string :=
  let indicators :=
    [ nl ++ "Warning: Suspicious activity detected";
      nl ++ "System integrity check initiated...";
      nl ++ "Access denied to secure component";
      nl ++ "[ALERT] Security module activated";
      nl ++ "Monitoring command execution..." ] in
  choice draw indicators.

Definition _add_warning_output (command : string) (draw : nat) : string :=
  let warnings :=
    [ nl ++ "Note: Command logged for security audit";
      nl ++ "Warning: Unusual command pattern detected";
      nl ++ "System monitoring active" ] in
  choice draw warnings.

Definition is_str (v : pyval) (s : string) : bool :=
  match v with VStr s' => String.eqb s' s | _ => false end.

(** [analysis.get("threat_level", "LOW")] *)
Definition threat_level_of (a : analysis) : pyval :=
  match PyDict.get a "threat_level" with
  | Some v => v
  | None => VStr "LOW"
  end.

(** [generate_response(command, analysis)] *)
Definition generate_response (command : string) (a : analysis)
    (now : datetime) (draw : nat) : py_result string :=
  let threat_level := threat_level_of a in
  response <- _get_command_response (PyStr.strip command) now ;;
  let response :=
    if is_str threat_level "HIGH" || is_str threat_level "CRITICAL"
    then response ++ _add_suspicious_output command draw
    else if is_str threat_level "MEDIUM"
         then response ++ _add_warning_output command draw
         else response in
  Ok (response ++ nl ++ "[root@server ~]# ").

(** [logs[-n:]] for a positive [n]: the last [n] entries. *)
Definition last_entries {A : Type} (n : nat) (logs : list A) : list A :=
  skipn (List.length logs - n) logs.

(** The cap of [_append_to_json], 10000 entries. *)
Definition json_log_cap : nat := 100 * 100.

(** The list that [_append_to_json] dumps: the entries read, the new one,
    cut to the last 10000. *)
Definition appended {A : Type} (logs : list A) (data : A) : list A :=
  let logs := (logs ++ [data])%list in
  if (json_log_cap <? List.length logs)%nat
  then last_entries json_log_cap logs
  else logs.

(** [_append_to_json(file_path, data)] on the content of the file as
    [json.load] gives it ([Raise] when the file cannot be read): the
    content afterwards.  An error is logged and leaves the file as it
    was. *)
Definition _append_to_json {A : Type} (content : py_result (list A))
    (data : A) : py_result (list A) :=
  match content with
  | Ok logs => Ok (appended logs data)
  | Raise e => Raise e
  end.

Definition tab : string := String (ascii_of_nat 9) EmptyString.
Definition backslash : string := String (ascii_of_nat 92) EmptyString.

(** [command.replace('\t', '\\t').replace('\n', '\\n')] *)
Definition safe_command (command : string) : string :=
  PyStr.replace_char (ascii_of_nat 10) (backslash ++ "n")
    (PyStr.replace_char (ascii_of_nat 9) (backslash ++ "t") command).

(** The line that [_append_to_tsv] writes; [threat_level] and [score] are
    the texts that the f-string makes of the two values. *)
Definition tsv_line (timestamp ip command threat_level score : string)
  : string :=
  timestamp ++ tab ++ ip ++ tab ++ safe_command command ++ tab
  ++ threat_level ++ tab ++ score ++ nl.

(** [_append_to_tsv] on the text of the file ([Raise] when it cannot be
    opened for appending): the text afterwards. *)
Definition _append_to_tsv (content : py_result string)
    (timestamp ip command threat_level score : string) : py_result string :=
  match content with
  | Ok lines => Ok (lines ++ tsv_line timestamp ip command threat_level score)
  | Raise e => Raise e
  end.

(** The entries that [log_command] builds. *)
Record session_entry : Type := mk_session_entry {
  se_session_id : string;
  se_timestamp : string;
  se_ip : string;
  se_command : string;
  se_analysis : analysis;
  se_threat_level : pyval;
  se_anomaly_score : pyval
}.

Record command_entry : Type := mk_command_entry {
  ce_timestamp : string;
  ce_ip : string;
  ce_command : string;
  ce_threat_level : pyval;
  ce_anomaly_score : pyval
}.

(** The three log files. *)
Record log_files : Type := mk_log_files {
  sessions_log : py_result (list session_entry);
  commands_log : py_result (list command_entry);
  tsv_log : py_result string
}.

(** [analysis.get(key, default)] *)
Definition get_or (a : analysis) (key : string) (default : pyval) : pyval :=
  match PyDict.get a key with
  | Some v => v
  | None => default
  end.

Section Logging.

(** [str(value)], as an f-string writes a value. *)
Variable py_str : pyval -> string.

(** [log_command(command, ip, analysis)]: the log files afterwards.  The
    clock is read twice; none of the three appends raises into it. *)
Definition log_command (files : log_files) (command ip : string)
    (a : analysis) (clock : nat -> datetime) : log_files :=
  let timestamp := isoformat (clock 0%nat) in
  let session_id :=
    ip ++ "_" ++ PyStr.of_Z (epoch_seconds (clock 1%nat)) in
  let level := get_or a "threat_level" (VStr "UNKNOWN") in
  let score := get_or a "anomaly_score" (VNum 0) in
  {| sessions_log :=
       _append_to_json (sessions_log files)
         (mk_session_entry session_id timestamp ip command a level score);
     commands_log :=
       _append_to_json (commands_log files)
         (mk_command_entry timestamp ip command level score);
     tsv_log :=
       _append_to_tsv (tsv_log files) timestamp ip command
         (py_str level) (py_str score) |}.

End Logging.

End handlers.

(* ================================================================== *)
(** * honeypot/telegram_alert.py                                       *)
(* ================================================================== *)

Module telegram_alert.

Definition nl : string := String (ascii_of_nat 10) EmptyString.

(** [bot_token] and [chat_id] come from [os.getenv]: [None] or a string. *)
Record TelegramManager : Type := mk_telegram {
  bot_token : option string;
  chat_id : option string;
  max_message_length : nat
}.

(** [TelegramManager.__init__] over the two environment variables. *)
Definition init (token chat : option string) : TelegramManager :=
  {| bot_token := token; chat_id := chat; max_message_length := 4096 |}.

Definition truthy (o : option string) : bool :=
  match o with
  | Some s => negb (PyStr.is_empty s)
  | None => false
  end.

Definition is_configured (self : TelegramManager) : bool :=
  truthy (bot_token self) && truthy (chat_id self).

(** [str(x)] of an optional string inside an f-string. *)
Definition str_of (o : option string) : string :=
  match o with Some s => s | None => "None" end.

Record payload : Type := mk_payload {
  p_chat_id : option string;
  text : string;
  parse_mode : string;
  disable_web_page_preview : bool
}.

(** What [requests.post(url, json=payload, timeout=10)] and the reading of
    its response can do. *)
Inductive http_outcome : Type :=
| RaisesTimeout
| RaisesRequestException
| RaisesOther
| Response (status_is_error : bool) (json_ok : py_result bool).

Definition _sanitize_command (command : string) : string :=
  let safe := PyStr.replace_char "<" "&lt;" command in
  let safe := PyStr.replace_char ">" "&gt;" safe in
  let safe := PyStr.replace_char "&" "&amp;" safe in
  if (500 <? String.length safe)%nat
  then PyStr.take 500 safe ++ "... [truncated]"
  else safe.

Section Sender.

(** [requests.post] *)
Variable post : string -> payload -> http_outcome.

(** The body of the [try] block of [_send_message]. *)
Definition _send_message_try (self : TelegramManager) (text : string)
  : py_result bool :=
  let text :=
    if (max_message_length self <? String.length text)%nat
    then PyStr.take (max_message_length self - 3) text ++ "..."
    else text in
  let url :=
    "https://api.telegram.org/bot" ++ str_of (bot_token self)
    ++ "/sendMessage" in
  let p := {| p_chat_id := chat_id self; text := text;
              parse_mode := "HTML"; disable_web_page_preview := true |} in
  match post url p with
  | RaisesTimeout => Raise "Timeout"
  | RaisesRequestException => Raise "RequestException"
  | RaisesOther => Raise "Exception"
  | Response true _ => Raise "HTTPError"
  | Response false json_ok =>
      ok <- json_ok ;;
      Ok ok
  end.

(** [_send_message]: each of the three [except] clauses returns [False]. *)
Definition _send_message (self : TelegramManager) (text : string) : bool :=
  match _send_message_try self text with
  | Ok sent => sent
  | Raise _ => false
  end.

Definition threat_emoji (threat_level : string) : string :=
  if String.eqb threat_level "LOW" then "🟢"
  else if String.eqb threat_level "MEDIUM" then "🟡"
  else if String.eqb threat_level "HIGH" then "🟠"
  else if String.eqb threat_level "CRITICAL" then "🚨"
  else "⚠️".

Definition info_lines (info : list (string * string)) : string :=
  fold_left
    (fun message kv => message ++ "• " ++ fst kv ++ ": " ++ snd kv ++ nl)
    info EmptyString.

(** [send_alert]; [anomaly_score] defaults to [None] in the source, and
    the f-string formats it with [.3f], which raises [TypeError] on
    [None]. *)
Definition send_alert (self : TelegramManager)
    (command ip threat_level : string) (anomaly_score : option Q)
    (additional_info : option (list (string * string))) (now : datetime)
  : py_result bool :=
  if negb (is_configured self) then Ok false
  else
    let emoji := threat_emoji threat_level in
    let safe_command := _sanitize_command command in
    score_text <-
      match anomaly_score with
      | Some q => Ok (format_f q 3)
      | None => Raise "TypeError"
      end ;;
    let message :=
      emoji ++ " <b>AIML Honeypot Alert</b>" ++ nl
      ++ "🌍 <b>Source IP:</b> <code>" ++ ip ++ "</code>" ++ nl
      ++ "🔍 <b>Threat Level:</b> " ++ threat_level ++ nl
      ++ "💻 <b>Attempted Command:</b>" ++ nl
      ++ "<pre>" ++ safe_command ++ "</pre>" ++ nl
      ++ "📊 <b>Anomaly Score:</b> " ++ score_text ++ nl
      ++ "⏰ <b>Time:</b> " ++ strftime_full_utc now ++ nl in
    let message :=
      match additional_info with
      | Some (kv :: rest) =>
          message ++ nl ++ "📍 <b>Additional Info:</b>" ++ nl
          ++ info_lines (kv :: rest)
      | _ => message
      end in
    let message := message ++ nl ++ "🤖 <b>Detected by AIML Honeypot</b>" in
    Ok (_send_message self message).

(** [a / b] on integers: true division, which raises on a zero divisor. *)
Definition py_div (a b : Z) : py_result Q :=
  if (b =? 0)%Z then Raise "ZeroDivisionError"
  else Ok (inject_Z a / inject_Z b).

(** The leading decimal digits of a string, and what follows them. *)
Fixpoint span_digits (s : string) : string * string :=
  match s with
  | EmptyString => (EmptyString, EmptyString)
  | String c t =>
      if PyStr.isdigit c
      then let (ds, rest) := span_digits t in (String c ds, rest)
      else (EmptyString, s)
  end.

Definition parse_nat (ds : string) : nat :=
  fold_left (fun n c => (10 * n + (nat_of_ascii c - 48))%nat)
    (list_ascii_of_string ds) O.

(** [format(x, spec)] of a float for a specifier that starts as [.Nf], the
    one shape the sources use: the specifier has to end with the [f], any
    text after it makes it invalid. *)
Definition format_float (x : Q) (spec : string) : py_result string :=
  match spec with
  | String "." r =>
      let (ds, rest) := span_digits r in
      if PyStr.is_empty ds then Raise "ValueError"
      else if String.eqb rest "f" then Ok (format_f x (parse_nat ds))
      else Raise "ValueError"
  | _ => Raise "ValueError"
  end.

(** [send_summary_alert(session_count, threat_count, time_period)]; the
    field of the threat rate is written
    [{(threat_count/session_count*100):.1f if session_count > 0 else 0.0}],
    so that everything after the colon is its format specifier. *)
Definition send_summary_alert (self : TelegramManager)
    (session_count threat_count : Z) (time_period : string) (now : datetime)
  : py_result bool :=
  if negb (is_configured self) then Ok false
  else
    rate <- py_div threat_count session_count ;;
    rate_text <-
      format_float (rate * 100) ".1f if session_count > 0 else 0.0" ;;
    let message :=
      "📊 <b>Honeypot Activity Summary</b>" ++ nl ++ nl
      ++ "⏱️ <b>Period:</b> " ++ time_period ++ nl
      ++ "🔌 <b>Total Sessions:</b> " ++ PyStr.of_Z session_count ++ nl
      ++ "⚠️ <b>Threats Detected:</b> " ++ PyStr.of_Z threat_count ++ nl
      ++ "📈 <b>Threat Rate:</b> " ++ rate_text ++ "%" ++ nl ++ nl
      ++ "🕒 <b>Reported:</b> " ++ strftime_full_utc now ++ nl ++ nl
      ++ "🤖 <i>AIML Honeypot Monitoring</i>" in
    Ok (_send_message self message).

Definition test_message : string :=
  "🧪 <b>AIML Honeypot Test</b>" ++ nl ++ nl
  ++ "This is a test alert to verify your Telegram integration is working correctly."
  ++ nl ++ nl
  ++ "✅ If you receive this message, your alerts are properly configured!"
  ++ nl ++ nl
  ++ "💡 <i>Start attacking your honeypot to see real alerts!</i>".

(** [test_alert()] *)
Definition test_alert (self : TelegramManager) : bool :=
  if negb (is_configured self) then false
  else _send_message self test_message.

End Sender.

(** The two shapes of the dictionary of [validate_configuration]. *)
Inductive validation : Type :=
| Invalid (error : string) (missing : list string)
| Valid (bot_token_length : nat) (valid_chat_id : string).

Definition falsy (o : option string) : bool := negb (truthy o).

(** [', '.join(items)] *)
Fixpoint join_comma (items : list string) : string :=
  match items with
  | [] => EmptyString
  | [x] => x
  | x :: rest => x ++ ", " ++ join_comma rest
  end.

(** [validate_configuration()] *)
Definition validate_configuration (self : TelegramManager) : validation :=
  if negb (is_configured self)
  then Invalid "Missing bot token or chat ID" []
  else
    let missing :=
      ((if falsy (bot_token self) then ["TELEGRAM_BOT_TOKEN"] else [])
       ++ (if falsy (chat_id self) then ["TELEGRAM_CHAT_ID"] else []))%list in
    match missing with
    | _ :: _ =>
        Invalid ("Missing environment variables: " ++ join_comma missing)
          missing
    | [] =>
        Valid (String.length (str_of (bot_token self)))
          (str_of (chat_id self))
    end.

End telegram_alert.

(* ================================================================== *)
(** * honeypot/server.py                                               *)
(* ================================================================== *)

Module server.

Import ai.








Section Service.

(** [numpy.log2] *)
Variable log2 : Q -> Q.
(** [str(value)] of the values of an analysis *)
Variable py_str : pyval -> string.
(** [requests.post(url, json=payload, timeout=10)] *)
Variable post : string -> telegram_alert.payload -> telegram_alert.http_outcome.




End Service.

End server.

(* ================================================================== *)
(** * Notions used to state the properties                             *)
(* ================================================================== *)

(** A score that is a whole number of hundredths. *)
Definition grade (q : Q) : Prop := exists n : nat, q == Z.of_nat n # 100.

Definition scoring_graded (s : aetherion_app.threat_scoring) : Prop :=
  grade (aetherion_app.command_complexity s)
  /\ grade (aetherion_app.suspicious_patterns s)
  /\ grade (aetherion_app.privilege_escalation s)
  /\ grade (aetherion_app.data_access s)
  /\ grade (aetherion_app.system_modification s)
  /\ grade (aetherion_app.network_activity s)
  /\ grade (aetherion_app.code_execution s)
  /\ grade (aetherion_app.information_gathering s).

(** The tier boundaries as the specification fixes them (section 4.1):
    at least 0.85 is CRITICAL with confidence 0.96, at least 0.65 is HIGH
    with 0.88, at least 0.35 is MEDIUM with 0.72, anything lower is LOW
    with 0.52. *)
Definition spec_tier_bucket (score : Q) (level : string) (conf : Q) : Prop :=
  (0.85 <= score -> level = "CRITICAL" /\ conf == 0.96)
  /\ (0.65 <= score /\ score < 0.85 -> level = "HIGH" /\ conf == 0.88)
  /\ (0.35 <= score /\ score < 0.65 -> level = "MEDIUM" /\ conf == 0.72)
  /\ (score < 0.35 -> level = "LOW" /\ conf == 0.52).

(** The boundaries of [AIManager.get_threat_level], which reports no
    confidence. *)
Definition ai_tier_bucket (score : Q) (level : string) : Prop :=
  (0.8 <= score -> level = "CRITICAL")
  /\ (0.6 <= score /\ score < 0.8 -> level = "HIGH")
  /\ (0.4 <= score /\ score < 0.6 -> level = "MEDIUM")
  /\ (score < 0.4 -> level = "LOW").


(** The priority table of the specification for the attack-vector label:
    bucket, boundary to exceed, label; the first entry whose bucket
    exceeds its boundary wins, and no entry gives "Generic Command". *)
Definition vector_priority
  : list ((aetherion_app.threat_scoring -> Q) * Q * string) :=
  [ (aetherion_app.system_modification, 0.25, "System Destruction");
    (aetherion_app.privilege_escalation, 0.2, "Privilege Escalation");
    (aetherion_app.code_execution, 0.25, "Code Injection");
    (aetherion_app.data_access, 0.18, "Data Exfiltration");
    (aetherion_app.network_activity, 0.2, "Network Intrusion");
    (aetherion_app.information_gathering, 0.15, "Reconnaissance") ].

Definition spec_attack_vector (s : aetherion_app.threat_scoring) : string :=
  match
    find (fun e => Qgtb (fst (fst e) s) (snd (fst e))) vector_priority
  with
  | Some e => snd e
  | None => "Generic Command"
  end.

(** The fields of an assessment other than [analysis_timestamp]. *)
Definition same_but_timestamp (a1 a2 : aetherion_app.assessment) : Prop :=
  aetherion_app.threat_level a1 = aetherion_app.threat_level a2
  /\ aetherion_app.anomaly_score a1 = aetherion_app.anomaly_score a2
  /\ aetherion_app.confidence a1 = aetherion_app.confidence a2
  /\ aetherion_app.attack_vector a1 = aetherion_app.attack_vector a2
  /\ aetherion_app.indicators a1 = aetherion_app.indicators a2
  /\ aetherion_app.scoring_breakdown a1 = aetherion_app.scoring_breakdown a2
  /\ aetherion_app.threat_signature a1 = aetherion_app.threat_signature a2
  /\ aetherion_app.analyzer_version a1 = aetherion_app.analyzer_version a2.

(** Sample clock readings. *)
Definition t_morning : datetime := mk_datetime 2024 1 15 10 30 45 0 1705314645.
Definition t_evening : datetime := mk_datetime 2024 1 15 22 5 9 0 1705356309.

(** Every substring of the two scoring tables, [threat_patterns] of
    [analyze_command_threat] and [suspicious_patterns] of [AIManager]. *)
Definition known_patterns : list string :=
  flat_map snd aetherion_app.threat_patterns ++ ai.suspicious_patterns.

(** Bucket by bucket, [s1] is at most [s2]; the bucket
    [suspicious_patterns] is compared under the condition [P] only. *)
Definition buckets_le (P : Prop) (s1 s2 : aetherion_app.threat_scoring)
  : Prop :=
  aetherion_app.command_complexity s1 <= aetherion_app.command_complexity s2
  /\ aetherion_app.privilege_escalation s1
     <= aetherion_app.privilege_escalation s2
  /\ aetherion_app.data_access s1 <= aetherion_app.data_access s2
  /\ aetherion_app.system_modification s1
     <= aetherion_app.system_modification s2
  /\ aetherion_app.network_activity s1 <= aetherion_app.network_activity s2
  /\ aetherion_app.code_execution s1 <= aetherion_app.code_execution s2
  /\ aetherion_app.information_gathering s1
     <= aetherion_app.information_gathering s2
  /\ (P -> aetherion_app.suspicious_patterns s1
           <= aetherion_app.suspicious_patterns s2).

(** The special-character test of [analyze_command_threat] does not turn
    from passed to failed between two commands. *)
Definition ratio_test_kept (command command' : string) : Prop :=
  0.3 < aetherion_app.char_ratio command ->
  0.3 < aetherion_app.char_ratio command'.

(** The key under which [analyze_command] caches a pair. *)
Definition cache_key_of (ip command : string) : string :=
  ip ++ ":" ++ command.

(** What an analyzer built by [AIAnalyzer.__init__] keeps true of its
    cache: capacity 1000, no repeated key, at most 1000 entries. *)
Definition cache_ok (self : ai_analysis.AIAnalyzer) : Prop :=
  ai_analysis.cache_size self = 1000%nat
  /\ NoDup (PyDict.keys (ai_analysis.analysis_cache self))
  /\ (List.length (ai_analysis.analysis_cache self) <= 1000)%nat.

(** The analyzer after a sequence of calls of [analyze_command], one per
    (ip, command) pair, the [i]-th call reading the clock [clocks i]. *)
Fixpoint run (log2 : Q -> Q) (self : ai_analysis.AIAnalyzer)
    (calls : list (string * string)) (clocks : nat -> nat -> datetime)
  : ai_analysis.AIAnalyzer :=
  match calls with
  | [] => self
  | (ip, command) :: rest =>
      run log2
        (snd (ai_analysis.analyze_command log2 self command ip (clocks O)))
        rest (fun i => clocks (S i))
  end.

(** The cache keys of a sequence of calls. *)
Definition call_keys (calls : list (string * string)) : list string :=
  map (fun c => cache_key_of (fst c) (snd c)) calls.

(** The keys of an analysis that hold a reading of the clock. *)
Definition clock_keys : list string :=
  ["analysis_timestamp"; "timestamp"; "session_id"].

(** The analysis that [analyze_command] computes for a pair that is not
    cached (the value of [analysis] when it is cached and returned). *)
Definition computed_analysis (log2 : Q -> Q) (manager : ai.AIManager)
    (command ip : string) (clock : nat -> datetime) : ai.analysis :=
  fst (ai_analysis.analyze_command log2 (ai_analysis.init manager)
         command ip clock).

(** A loaded model without [decision_function] whose [predict] flags
    every input as an anomaly (-1). *)
Definition flagging_model : ai.Model :=
  ai.mk_model false
    (fun _ => Raise "AttributeError") (Raise "AttributeError")
    (fun _ => Ok (-1)%Z).

(** An assessment of which only the level matters. *)
Definition low_assessment : ai.analysis := [("threat_level", ai.VStr "LOW")].

(** A manager with both environment variables set. *)
Definition configured_manager : telegram_alert.TelegramManager :=
  telegram_alert.init (Some "123456:token") (Some "-1001234").

(** What the three replacements of [_sanitize_command] make of one
    character, applied in their order: the ampersand of an entity written
    for [<] or [>] is escaped once more. *)
Definition escaped_char (c : ascii) : string :=
  if Ascii.eqb c "<" then "&amp;lt;"
  else if Ascii.eqb c ">" then "&amp;gt;"
  else if Ascii.eqb c "&" then "&amp;"
  else String c EmptyString.

Fixpoint escaped (s : string) : string :=
  match s with
  | EmptyString => EmptyString
  | String c t => escaped_char c ++ escaped t
  end.

(** The text that [_send_message] hands to the HTTP client. *)
Definition outgoing_text (self : telegram_alert.TelegramManager)
    (text : string) : string :=
  if (telegram_alert.max_message_length self <? String.length text)%nat
  then PyStr.take (telegram_alert.max_message_length self - 3) text ++ "..."
  else text.

Definition outgoing_payload (self : telegram_alert.TelegramManager)
    (text : string) : telegram_alert.payload :=
  {| telegram_alert.p_chat_id := telegram_alert.chat_id self;
     telegram_alert.text := outgoing_text self text;
     telegram_alert.parse_mode := "HTML";
     telegram_alert.disable_web_page_preview := true |}.

Definition send_message_url (self : telegram_alert.TelegramManager)
  : string :=
  "https://api.telegram.org/bot"
  ++ telegram_alert.str_of (telegram_alert.bot_token self) ++ "/sendMessage".

(** The HTTP client answered with a success status and a JSON body whose
    [ok] is true. *)
Definition accepted (o : telegram_alert.http_outcome) : bool :=
  match o with
  | telegram_alert.Response false (Ok true) => true
  | _ => false
  end.

(** The character [c] is [ch]. *)
Definition is_char (ch c : ascii) : bool :=
  if ascii_dec ch c then true else false.

(** The prompt that ends every reply. *)
Definition prompt : string := handlers.nl ++ "[root@server ~]# ".

(** The lines that [generate_response] may add for a level. *)
Definition suspicious_lines : list string :=
  [ handlers.nl ++ "Warning: Suspicious activity detected";
    handlers.nl ++ "System integrity check initiated...";
    handlers.nl ++ "Access denied to secure component";
    handlers.nl ++ "[ALERT] Security module activated";
    handlers.nl ++ "Monitoring command execution..." ].

Definition warning_lines : list string :=
  [ handlers.nl ++ "Note: Command logged for security audit";
    handlers.nl ++ "Warning: Unusual command pattern detected";
    handlers.nl ++ "System monitoring active" ].

(** [l1] ends with [l2]. *)
Definition ends_with {A : Type} (l1 l2 : list A) : Prop :=
  exists front, l1 = (front ++ l2)%list.

(** A field of a TSV record holds neither a tab nor a newline. *)
Definition plain (field : string) : Prop :=
  PyStr.contains handlers.tab field = false
  /\ PyStr.contains handlers.nl field = false.

(** Every cached assessment was computed by this analyzer for a pair of
    which its key is the cache key. *)
Definition cache_sound (log2 : Q -> Q) (self : ai_analysis.AIAnalyzer)
  : Prop :=
  forall key a,
    In (key, a) (ai_analysis.analysis_cache self) ->
    exists command ip clock,
      a = computed_analysis log2 (ai_analysis.ai_manager self)
            command ip clock
      /\ key = cache_key_of ip command.

(** The state of an analyzer that has served calls since it was built. *)
Definition in_service (log2 : Q -> Q) (self : ai_analysis.AIAnalyzer)
  : Prop :=
  cache_ok self /\ cache_sound log2 self.

(** An assessment with a score in [0,1], one of the four levels, and the
    address and command of a pair with the given cache key. *)
Definition valid_assessment (a : ai.analysis) (key : string) : Prop :=
  exists score level ip command,
    PyDict.get a "anomaly_score" = Some (ai.VNum score)
    /\ PyDict.get a "threat_level" = Some (ai.VStr level)
    /\ PyDict.get a "ip" = Some (ai.VStr ip)
    /\ PyDict.get a "command" = Some (ai.VStr command)
    /\ (0 <= score /\ score <= 1)
    /\ In level ["LOW"; "MEDIUM"; "HIGH"; "CRITICAL"]
    /\ level = ai.get_threat_level score
    /\ cache_key_of ip command = key.

(** A digit or a dot. *)
Definition digit_or_dot (c : ascii) : bool :=
  PyStr.isdigit c || Ascii.eqb "." c.

(** The characters that [_calculate_complexity] counts. *)
Definition operator_free (command : string) : Prop :=
  PyStr.count command "|" = 0%nat
  /\ PyStr.count command ";" = 0%nat
  /\ PyStr.count command "&&" = 0%nat
  /\ PyStr.count command "||" = 0%nat
  /\ PyStr.count command "$(" = 0%nat
  /\ PyStr.count command "`" = 0%nat
  /\ PyStr.count command ">" = 0%nat
  /\ PyStr.count command "<" = 0%nat
  /\ PyStr.count command "2>&1" = 0%nat.

(** A plain command of 120 characters. *)
Definition long_plain_command : string :=
  "aaaaaaaaaaaaaaaaaaaaaaaaaaaaaaaaaaaaaaaaaaaaaaaaaaaaaaaaaaaa"
  ++ "aaaaaaaaaaaaaaaaaaaaaaaaaaaaaaaaaaaaaaaaaaaaaaaaaaaaaaaaaaaa".

(** The order of the levels: LOW < MEDIUM < HIGH < CRITICAL. *)
Definition tier_rank (level : string) : nat :=
  if String.eqb level "CRITICAL" then 3
  else if String.eqb level "HIGH" then 2
  else if String.eqb level "MEDIUM" then 1
  else 0.

(** The indicator label that stands behind each attack-vector label. *)
Definition vector_indicator : list (string * string) :=
  [ ("System Destruction", "System Modification Threat");
    ("Privilege Escalation", "Privilege Escalation Attempt");
    ("Code Injection", "Code Execution Pattern");
    ("Data Exfiltration", "Unauthorized Data Access");
    ("Network Intrusion", "Suspicious Network Activity");
    ("Reconnaissance", "Reconnaissance Activity") ].

(** What [get_geographic_info] answers for an address outside the
    private and local ranges. *)
Definition external_location : PyDict.dict string :=
  [("country", "Unknown"); ("city", "Unknown"); ("type", "External")].

(** The intelligence file after a sequence of analyses of one address,
    each with its assessment and the time it was made. *)
Definition sightings (intelligence : PyDict.dict aetherion_api.ThreatIntelligence)
    (ip : string) (seen : list (aetherion_app.assessment * datetime))
  : PyDict.dict aetherion_api.ThreatIntelligence :=
  fold_left
    (fun d s => aetherion_api.update_threat_intelligence (Ok d) ip
                  (fst s) (snd s))
    seen intelligence.

(** The pages 1 to [n] of a list. *)
Definition pages {A : Type} (l : list A) (limit n : nat) : list (list A) :=
  map (fun p => aetherion_api.page_of l (Z.of_nat p) (Z.of_nat limit))
      (seq 1 n).

(** An assessment as [analyze_command_threat] returns it for a plain
    listing. *)
Definition listing_assessment : aetherion_app.assessment :=
  aetherion_app.mk_assessment "LOW" 0.18 0.52 "Generic Command" []
    aetherion_app.scoring_zero "C9D4A5F8B2E6C3A7" "AetherionBot 1.0"
    (isoformat t_morning).








(* ================================================================== *)
(** * Arithmetic of scores                                             *)
(* ================================================================== *)

Lemma Qgtb_true (x y : Q) : Qgtb x y = true <-> y < x.
Proof.
  unfold Qgtb. rewrite negb_true_iff. split; intro H.
  - apply Qnot_le_lt. intro L. apply Qle_bool_iff in L. congruence.
  - destruct (Qle_bool x y) eqn:E; [|reflexivity].
    apply Qle_bool_iff in E. exfalso. exact (Qlt_not_le _ _ H E).
Qed.

Lemma Qgtb_false (x y : Q) : Qgtb x y = false <-> x <= y.
Proof.
  unfold Qgtb. rewrite negb_false_iff. apply Qle_bool_iff.
Qed.

Lemma Qgeb_true (x y : Q) : Qgeb x y = true <-> y <= x.
Proof. unfold Qgeb. apply Qle_bool_iff. Qed.

Lemma Qgeb_false (x y : Q) : Qgeb x y = false <-> x < y.
Proof.
  unfold Qgeb. split; intro H.
  - apply Qnot_le_lt. intro L. apply Qle_bool_iff in L. congruence.
  - destruct (Qle_bool y x) eqn:E; [|reflexivity].
    apply Qle_bool_iff in E. exfalso. exact (Qlt_not_le _ _ H E).
Qed.

Lemma Qgeb_comp (x x' y : Q) : x == x' -> Qgeb x y = Qgeb x' y.
Proof. intro E. unfold Qgeb. now rewrite E. Qed.

Lemma round_half_even_Z (y : Q) (k : Z) :
  y == inject_Z k -> round_half_even y = k.
Proof.
  intro E. unfold round_half_even.
  rewrite (Qfloor_comp _ _ E), Qfloor_Z.
  assert (L : y - inject_Z k < 1 # 2) by (rewrite E; lra).
  assert (C : Qcompare (y - inject_Z k) (1 # 2) = Lt) by (apply Qlt_alt; exact L).
  now rewrite C.
Qed.

Lemma pow10_pos (n : nat) : (0 < 10 ^ Z.of_nat n)%Z.
Proof. apply Z.pow_pos_nonneg; lia. Qed.

Lemma py_round_fix (x : Q) (nd : nat) (k : Z) :
  x * inject_Z (10 ^ Z.of_nat nd) == inject_Z k -> py_round x nd == x.
Proof.
  intro E. unfold py_round. cbv zeta.
  rewrite (round_half_even_Z _ _ E).
  assert (P : ~ inject_Z (10 ^ Z.of_nat nd) == 0).
  { intro H. pose proof (pow10_pos nd) as Hp.
    unfold Qeq in H. simpl in H. lia. }
  rewrite <- E. field. exact P.
Qed.

Lemma grade_0 : grade 0.
Proof. exists 0%nat. reflexivity. Qed.

Lemma grade_lit (n : nat) (q : Q) : q == Z.of_nat n # 100 -> grade q.
Proof. intro E. now exists n. Qed.

Lemma grade_plus (a b : Q) : grade a -> grade b -> grade (a + b).
Proof.
  intros [n Hn] [m Hm]. exists (n + m)%nat.
  rewrite Hn, Hm, Nat2Z.inj_add. unfold Qeq. simpl. lia.
Qed.

Lemma grade_nonneg (a : Q) : grade a -> 0 <= a.
Proof.
  intros [n Hn]. rewrite Hn. unfold Qle. simpl. lia.
Qed.

(* ================================================================== *)
(** * aetherion_app: every bucket is a whole number of hundredths      *)
(* ================================================================== *)

Ltac solve_grade :=
  repeat first
    [ assumption
    | apply grade_0
    | apply grade_plus
    | match goal with
      | |- grade (?a # ?b) =>
          exists (Z.to_nat (a * 100 / Zpos b)); reflexivity
      end ].

Ltac split_graded :=
  match goal with
  | H : scoring_graded _ |- _ =>
      destruct H as (?H & ?H & ?H & ?H & ?H & ?H & ?H & ?H)
  end;
  unfold scoring_graded; cbn -[Qplus]; repeat split; solve_grade.

Lemma scoring_zero_graded : scoring_graded aetherion_app.scoring_zero.
Proof. unfold scoring_graded; cbn; repeat split; solve_grade. Qed.

Lemma bump_graded c s :
  scoring_graded s -> scoring_graded (aetherion_app.bump c s).
Proof. intro H. destruct c; split_graded. Qed.

Lemma scan_patterns_graded cl c ps : forall s,
  scoring_graded s -> scoring_graded (aetherion_app.scan_patterns cl c ps s).
Proof.
  unfold aetherion_app.scan_patterns.
  induction ps as [|p ps IH]; intros s H; simpl; [exact H|].
  apply IH. destruct (PyStr.contains p cl); [now apply bump_graded|exact H].
Qed.

Lemma scan_categories_graded cl table : forall s,
  scoring_graded s ->
  scoring_graded (aetherion_app.scan_categories cl table s).
Proof.
  unfold aetherion_app.scan_categories.
  induction table as [|e table IH]; intros s H; simpl; [exact H|].
  apply IH. now apply scan_patterns_graded.
Qed.

Lemma complexity_step_graded command s :
  scoring_graded s -> scoring_graded (aetherion_app.complexity_step command s).
Proof.
  intro H. unfold aetherion_app.complexity_step.
  destruct (150 <? String.length command)%nat; [split_graded|].
  destruct (100 <? String.length command)%nat; [split_graded|exact H].
Qed.

Lemma ratio_step_graded command s :
  scoring_graded s -> scoring_graded (aetherion_app.ratio_step command s).
Proof.
  intro H. unfold aetherion_app.ratio_step.
  destruct (Qgtb _ _); [split_graded|exact H].
Qed.

Lemma chaining_step_graded command s :
  scoring_graded s -> scoring_graded (aetherion_app.chaining_step command s).
Proof.
  intro H. unfold aetherion_app.chaining_step.
  destruct (_ || _); [split_graded|exact H].
Qed.

Lemma substitution_step_graded command s :
  scoring_graded s ->
  scoring_graded (aetherion_app.substitution_step command s).
Proof.
  intro H. unfold aetherion_app.substitution_step.
  destruct (_ || _); [split_graded|exact H].
Qed.

Lemma quoting_step_graded command s :
  scoring_graded s -> scoring_graded (aetherion_app.quoting_step command s).
Proof.
  intro H. unfold aetherion_app.quoting_step.
  destruct (_ || _); [split_graded|exact H].
Qed.

Lemma ip_step_graded ip s :
  scoring_graded s -> scoring_graded (aetherion_app.ip_step ip s).
Proof.
  intro H. unfold aetherion_app.ip_step.
  destruct (aetherion_app.is_external ip); [split_graded|exact H].
Qed.

Lemma score_command_graded command ip :
  scoring_graded (aetherion_app.score_command command ip).
Proof.
  unfold aetherion_app.score_command. cbv zeta.
  apply ip_step_graded, quoting_step_graded, substitution_step_graded,
    chaining_step_graded, scan_categories_graded, ratio_step_graded,
    complexity_step_graded, scoring_zero_graded.
Qed.

Lemma scoring_sum_graded s :
  scoring_graded s -> grade (aetherion_app.scoring_sum s).
Proof.
  intros (H1 & H2 & H3 & H4 & H5 & H6 & H7 & H8).
  unfold aetherion_app.scoring_sum. solve_grade.
Qed.

Lemma normalize_range total :
  0 <= total ->
  0 <= aetherion_app.normalize total /\ aetherion_app.normalize total <= 1.
Proof.
  intro H. unfold aetherion_app.normalize. split.
  - apply Q.min_glb; lra.
  - apply Q.le_min_l.
Qed.

Lemma normalize_millionths total :
  grade total ->
  exists k : Z,
    aetherion_app.normalize total * inject_Z (10 ^ Z.of_nat 6) == inject_Z k.
Proof.
  intros [n Hn]. unfold aetherion_app.normalize.
  destruct (Q.min_spec 1 (total * 0.75)) as [[_ E] | [_ E]].
  - exists 1000000%Z. rewrite E. reflexivity.
  - exists (7500 * Z.of_nat n)%Z. rewrite E, Hn.
    change (10 ^ Z.of_nat 6)%Z with 1000000%Z.
    unfold Qeq, Qmult, inject_Z. cbn [Qnum Qden]. lia.
Qed.

Lemma round6_normalize total :
  grade total ->
  py_round (aetherion_app.normalize total) 6 == aetherion_app.normalize total.
Proof.
  intro G. destruct (normalize_millionths total G) as [k Hk].
  exact (py_round_fix _ 6 k Hk).
Qed.

Lemma threat_level_of_bucket score score' :
  score' == score ->
  let '(level, conf) := aetherion_app.threat_level_of score in
  spec_tier_bucket score' level (py_round conf 3).
Proof.
  intro E. unfold aetherion_app.threat_level_of, spec_tier_bucket.
  destruct (Qgeb score 0.85) eqn:C1;
    [ apply Qgeb_true in C1
    | apply Qgeb_false in C1;
      destruct (Qgeb score 0.65) eqn:C2;
        [ apply Qgeb_true in C2
        | apply Qgeb_false in C2;
          destruct (Qgeb score 0.35) eqn:C3;
            [ apply Qgeb_true in C3 | apply Qgeb_false in C3 ] ] ];
    rewrite E; repeat split; intros; try lra; try reflexivity.
Qed.

(* ================================================================== *)
(** * ai: range of the score and its level                             *)
(* ================================================================== *)

Lemma Qnat_nonneg (n : nat) : 0 <= Qnat n.
Proof. unfold Qnat, Qle. simpl. lia. Qed.

Lemma heuristic_score_range (f : ai.Feat.features) :
  0 <= ai._heuristic_score f /\ ai._heuristic_score f <= 1.
Proof.
  unfold ai._heuristic_score. cbv zeta.
  pose proof (Qnat_nonneg (ai.Feat.suspicious_patterns f)) as Hn.
  split; [|apply Q.le_min_l].
  apply Q.min_glb; [lra|].
  repeat match goal with
         | |- context [if ?b then _ else _] => destruct b
         end; lra.
Qed.

Lemma clamp_range (x : Q) :
  0 <= 1 - Qmax 0 (Qmin 1 x) /\ 1 - Qmax 0 (Qmin 1 x) <= 1.
Proof.
  pose proof (Q.le_max_l 0 (Qmin 1 x)) as L.
  assert (U : Qmax 0 (Qmin 1 x) <= 1).
  { apply Q.max_lub; [lra|apply Q.le_min_l]. }
  split; lra.
Qed.

Lemma predict_with_model_range m sc f score :
  ai.predict_with_model m sc f = Ok score -> 0 <= score /\ score <= 1.
Proof.
  unfold ai.predict_with_model. cbv zeta.
  destruct (match sc with
            | Some transform => transform (ai.create_feature_vector f)
            | None => Ok (ai.create_feature_vector f)
            end) as [v|e]; simpl; [|discriminate].
  destruct (ai.has_decision_function m).
  - destruct (ai.decision_function_0 m v) as [s|]; simpl; [|discriminate].
    destruct (ai.offset_0 m) as [o|]; simpl; [|discriminate].
    intro H. injection H as <-. apply clamp_range.
  - destruct (ai.predict_0 m v) as [p|]; simpl; [|discriminate].
    intro H. injection H as <-. destruct (p =? -1)%Z; split; lra.
Qed.

Lemma predict_anomaly_range self f :
  0 <= ai.predict_anomaly self f /\ ai.predict_anomaly self f <= 1.
Proof.
  unfold ai.predict_anomaly.
  destruct (ai.model self) as [m|]; [|apply heuristic_score_range].
  destruct (ai.predict_with_model m (ai.scaler self) f) as [s|e] eqn:E.
  - exact (predict_with_model_range _ _ _ _ E).
  - apply heuristic_score_range.
Qed.

Lemma get_threat_level_bucket score :
  ai_tier_bucket score (ai.get_threat_level score).
Proof.
  unfold ai.get_threat_level, ai_tier_bucket.
  destruct (Qgeb score 0.8) eqn:C1;
    [ apply Qgeb_true in C1
    | apply Qgeb_false in C1;
      destruct (Qgeb score 0.6) eqn:C2;
        [ apply Qgeb_true in C2
        | apply Qgeb_false in C2;
          destruct (Qgeb score 0.4) eqn:C3;
            [ apply Qgeb_true in C3 | apply Qgeb_false in C3 ] ] ];
    repeat split; intros; try lra; try reflexivity.
Qed.

(** The heuristic score of a command in which four known patterns and
    nothing else are found: 0.6, or 0.8 when the entropy test adds 0.2. *)
Lemma heuristic_four_patterns log2 :
  let f := ai.extract_features log2 "sudo wget curl nmap" in
  ai._heuristic_score f == 0.6 \/ ai._heuristic_score f == 0.8.
Proof.
  cbv zeta. unfold ai._heuristic_score, ai.extract_features.
  cbn [ai.Feat.length ai.Feat.suspicious_patterns
       ai.Feat.special_char_count ai.Feat.entropy ai.Feat.has_file_path].
  generalize (ai.entropy_of log2 "sudo wget curl nmap"). intro e.
  destruct (Qgtb e 4); [right|left]; vm_compute; reflexivity.
Qed.

(* ================================================================== *)
(** * C1                                                               *)
(* ================================================================== *)

(** C1, as the sources have it.  In [analyze_command_threat] the returned
    [anomaly_score] lies in [0,1] and the level and confidence are those
    of the bucket of that score with the boundaries 0.85, 0.65 and 0.35.
    In [AIManager.validate_command] the score lies in [0,1] as well, the
    level is the bucket of the score with the boundaries 0.8, 0.6 and 0.4
    of [get_threat_level], and no confidence is reported. *)
Theorem C1_score_range_and_tier :
  (forall sha command ip t_sig t_stamp,
      let a :=
        aetherion_app.analyze_command_threat sha command ip t_sig t_stamp in
      (0 <= aetherion_app.anomaly_score a
       /\ aetherion_app.anomaly_score a <= 1)
      /\ spec_tier_bucket (aetherion_app.anomaly_score a)
           (aetherion_app.threat_level a) (aetherion_app.confidence a))
  /\
  (forall log2 self command now,
      let a := ai.validate_command log2 self command now in
      exists score level,
        PyDict.get a "anomaly_score" = Some (ai.VNum score)
        /\ PyDict.get a "threat_level" = Some (ai.VStr level)
        /\ PyDict.get a "confidence" = None
        /\ (0 <= score /\ score <= 1)
        /\ ai_tier_bucket score level).
Proof.
  split.
  - intros sha command ip t_sig t_stamp. cbv zeta.
    unfold aetherion_app.analyze_command_threat. cbv zeta.
    pose proof (scoring_sum_graded _ (score_command_graded command ip)) as G.
    set (total := aetherion_app.scoring_sum
                    (aetherion_app.score_command command ip)) in *.
    pose proof (round6_normalize total G) as R.
    pose proof (normalize_range total (grade_nonneg _ G)) as [L U].
    pose proof (threat_level_of_bucket _ _ R) as B.
    destruct (aetherion_app.threat_level_of (aetherion_app.normalize total))
      as [level conf].
    cbn [aetherion_app.anomaly_score aetherion_app.threat_level
         aetherion_app.confidence].
    split; [|exact B].
    rewrite R. split; assumption.
  - intros log2 self command now. cbv zeta.
    exists (ai.predict_anomaly self (ai.extract_features log2 command)).
    exists (ai.get_threat_level
              (ai.predict_anomaly self (ai.extract_features log2 command))).
    repeat split; try reflexivity;
      try apply predict_anomaly_range; apply get_threat_level_bucket.
Qed.

(** The boundaries of C1 fail on [AIManager]: without a model the command
    below scores 0.6 or 0.8 and is rated HIGH or CRITICAL, where the
    boundaries of the specification give MEDIUM or HIGH. *)
Lemma C1_counterexample :
  exists command,
    forall log2 now,
      let a := ai.validate_command log2 (ai.mk_manager None None) command now in
      exists score level,
        PyDict.get a "anomaly_score" = Some (ai.VNum score)
        /\ PyDict.get a "threat_level" = Some (ai.VStr level)
        /\ forall conf, ~ spec_tier_bucket score level conf.
Proof.
  exists "sudo wget curl nmap". intros log2 now. cbv zeta.
  set (f := ai.extract_features log2 "sudo wget curl nmap").
  exists (ai._heuristic_score f), (ai.get_threat_level (ai._heuristic_score f)).
  split; [reflexivity|]. split; [reflexivity|].
  intros conf (B1 & B2 & B3 & B4).
  pose proof (get_threat_level_bucket (ai._heuristic_score f))
    as (A1 & A2 & A3 & A4).
  destruct (heuristic_four_patterns log2) as [E|E]; fold f in E.
  - assert (H : ai.get_threat_level (ai._heuristic_score f) = "HIGH")
      by (apply A2; rewrite E; split; lra).
    destruct B3 as [B _]; [rewrite E; split; lra|].
    rewrite H in B. discriminate.
  - assert (H : ai.get_threat_level (ai._heuristic_score f) = "CRITICAL")
      by (apply A1; rewrite E; lra).
    destruct B2 as [B _]; [rewrite E; split; lra|].
    rewrite H in B. discriminate.
Qed.

(* ================================================================== *)
(** * C2                                                               *)
(* ================================================================== *)

Lemma strftime_Ymd_same_day t1 t2 :
  same_day t1 t2 -> strftime_Ymd t1 = strftime_Ymd t2.
Proof.
  intros (Hy & Hm & Hd). unfold strftime_Ymd. now rewrite Hy, Hm, Hd.
Qed.

(** C2, as the source has it.  Two calls of [analyze_command_threat] with
    the same command and source address on the same calendar day agree on
    every field except [analysis_timestamp], [threat_signature] included;
    they agree on [analysis_timestamp] too when the clock reads the same
    instant. *)
Theorem C2_same_day_determinism :
  forall sha command ip t_sig1 t_stamp1 t_sig2 t_stamp2,
    same_day t_sig1 t_sig2 ->
    let a1 :=
      aetherion_app.analyze_command_threat sha command ip t_sig1 t_stamp1 in
    let a2 :=
      aetherion_app.analyze_command_threat sha command ip t_sig2 t_stamp2 in
    same_but_timestamp a1 a2 /\ (t_stamp1 = t_stamp2 -> a1 = a2).
Proof.
  intros sha command ip s1 p1 s2 p2 D. cbv zeta.
  unfold aetherion_app.analyze_command_threat, aetherion_app.signature_of.
  cbv zeta. rewrite (strftime_Ymd_same_day _ _ D).
  destruct (aetherion_app.threat_level_of _) as [level conf].
  split.
  - unfold same_but_timestamp. cbn. repeat split.
  - intros ->. reflexivity.
Qed.

(** An instance: the same command in the morning and in the evening. *)
Lemma C2_witness :
  same_day t_morning t_evening
  /\ same_but_timestamp
       (aetherion_app.analyze_command_threat (fun s => s)
          "cat /etc/passwd" "203.0.113.25" t_morning t_morning)
       (aetherion_app.analyze_command_threat (fun s => s)
          "cat /etc/passwd" "203.0.113.25" t_evening t_evening).
Proof.
  assert (D : same_day t_morning t_evening) by (repeat split).
  split; [exact D|].
  exact (proj1 (C2_same_day_determinism (fun s => s)
                  "cat /etc/passwd" "203.0.113.25"
                  t_morning t_morning t_evening t_evening D)).
Defined.

(** Two calls on the same day at different times of the day differ in
    [analysis_timestamp]. *)
Lemma C2_counterexample :
  same_day t_morning t_evening
  /\ aetherion_app.analyze_command_threat (fun s => s)
       "cat /etc/passwd" "203.0.113.25" t_morning t_morning
     <> aetherion_app.analyze_command_threat (fun s => s)
          "cat /etc/passwd" "203.0.113.25" t_evening t_evening.
Proof.
  split; [repeat split|].
  intro H. apply (f_equal aetherion_app.analysis_timestamp) in H.
  vm_compute in H. discriminate.
Qed.

(* ================================================================== *)
(** * C5                                                               *)
(* ================================================================== *)

Lemma attack_vector_of_priority s :
  aetherion_app.attack_vector_of s = spec_attack_vector s.
Proof.
  unfold aetherion_app.attack_vector_of, spec_attack_vector, vector_priority.
  cbn [find fst snd].
  repeat match goal with
         | |- context [if ?b then _ else _] => destruct b
         end; reflexivity.
Qed.

(** C5.  The attack-vector label of an assessment is the label of the
    first bucket, in the order system-modification, privilege-escalation,
    code-execution, data-access, network-activity, information-gathering,
    that exceeds its boundary, and "Generic Command" when none does. *)
Theorem C5_attack_vector_priority :
  forall sha command ip t_sig t_stamp,
    let a :=
      aetherion_app.analyze_command_threat sha command ip t_sig t_stamp in
    let s := aetherion_app.scoring_breakdown a in
    let v := aetherion_app.attack_vector a in
    v = spec_attack_vector s
    /\ (0.25 < aetherion_app.system_modification s ->
        v = "System Destruction")
    /\ (aetherion_app.system_modification s <= 0.25 ->
        0.2 < aetherion_app.privilege_escalation s ->
        v = "Privilege Escalation")
    /\ (aetherion_app.system_modification s <= 0.25 ->
        aetherion_app.privilege_escalation s <= 0.2 ->
        0.25 < aetherion_app.code_execution s ->
        v = "Code Injection")
    /\ (aetherion_app.system_modification s <= 0.25 ->
        aetherion_app.privilege_escalation s <= 0.2 ->
        aetherion_app.code_execution s <= 0.25 ->
        0.18 < aetherion_app.data_access s ->
        v = "Data Exfiltration")
    /\ (aetherion_app.system_modification s <= 0.25 ->
        aetherion_app.privilege_escalation s <= 0.2 ->
        aetherion_app.code_execution s <= 0.25 ->
        aetherion_app.data_access s <= 0.18 ->
        0.2 < aetherion_app.network_activity s ->
        v = "Network Intrusion")
    /\ (aetherion_app.system_modification s <= 0.25 ->
        aetherion_app.privilege_escalation s <= 0.2 ->
        aetherion_app.code_execution s <= 0.25 ->
        aetherion_app.data_access s <= 0.18 ->
        aetherion_app.network_activity s <= 0.2 ->
        0.15 < aetherion_app.information_gathering s ->
        v = "Reconnaissance")
    /\ (aetherion_app.system_modification s <= 0.25 ->
        aetherion_app.privilege_escalation s <= 0.2 ->
        aetherion_app.code_execution s <= 0.25 ->
        aetherion_app.data_access s <= 0.18 ->
        aetherion_app.network_activity s <= 0.2 ->
        aetherion_app.information_gathering s <= 0.15 ->
        v = "Generic Command").
Proof.
  intros sha command ip t_sig t_stamp. cbv zeta.
  unfold aetherion_app.analyze_command_threat. cbv zeta.
  destruct (aetherion_app.threat_level_of _) as [level conf].
  cbn [aetherion_app.scoring_breakdown aetherion_app.attack_vector].
  generalize (aetherion_app.score_command command ip). intro s.
  split; [apply attack_vector_of_priority|].
  unfold aetherion_app.attack_vector_of.
  repeat split; intros;
    repeat match goal with
           | H : _ < _ |- _ => apply Qgtb_true in H; rewrite H; clear H
           | H : _ <= _ |- _ => apply Qgtb_false in H; rewrite H; clear H
           end; reflexivity.
Qed.

(* ================================================================== *)
(** * Strings: what appending text preserves                           *)
(* ================================================================== *)

Lemma string_length_app (x y : string) :
  String.length (x ++ y) = (String.length x + String.length y)%nat.
Proof. induction x as [|c x IH]; simpl; [reflexivity|now rewrite IH]. Qed.

Lemma is_empty_true (s : string) : PyStr.is_empty s = true -> s = "".
Proof. destruct s; [reflexivity|discriminate]. Qed.

Lemma app_empty_l (x y : string) : x ++ y = "" -> x = "".
Proof. destruct x; [reflexivity|discriminate]. Qed.

Lemma prefix_app (p x c : string) :
  prefix p x = true -> prefix p (x ++ c) = true.
Proof.
  revert p. induction x as [|a x IH]; intros p H.
  - destruct p; [|discriminate]. destruct c; reflexivity.
  - destruct p as [|b p]; [reflexivity|]. simpl in *.
    destruct (ascii_dec b a); [now apply IH|discriminate].
Qed.

Lemma prefix_empty (x : string) : prefix "" x = true.
Proof. destruct x; reflexivity. Qed.

Lemma contains_empty (x : string) : PyStr.contains "" x = true.
Proof. destruct x; reflexivity. Qed.

Lemma contains_app_r (p x c : string) :
  PyStr.contains p x = true -> PyStr.contains p (x ++ c) = true.
Proof.
  induction x as [|a x IH]; intro H.
  - simpl in H. rewrite orb_false_r in H.
    destruct p; [apply contains_empty|discriminate].
  - change (prefix p (String a x) || PyStr.contains p x = true) in H.
    change (prefix p (String a x ++ c) || PyStr.contains p (x ++ c) = true).
    apply orb_true_iff in H. apply orb_true_iff.
    destruct H as [H|H]; [left; now apply prefix_app|right; now apply IH].
Qed.

Lemma map_chars_app f (x y : string) :
  PyStr.map_chars f (x ++ y) = PyStr.map_chars f x ++ PyStr.map_chars f y.
Proof. induction x as [|c x IH]; simpl; [reflexivity|now rewrite IH]. Qed.

Lemma lstrip_app (x y : string) :
  PyStr.lstrip x <> "" -> PyStr.lstrip (x ++ y) = PyStr.lstrip x ++ y.
Proof.
  induction x as [|c x IH]; simpl; intro H; [congruence|].
  destruct (PyStr.isspace c); [now apply IH|reflexivity].
Qed.

Lemma rstrip_app (x y : string) :
  exists c, PyStr.rstrip (x ++ y) = PyStr.rstrip x ++ c.
Proof.
  induction x as [|a x [c IH]].
  - exists (PyStr.rstrip y). reflexivity.
  - simpl. rewrite IH.
    destruct (PyStr.is_empty (PyStr.rstrip x ++ c) && PyStr.isspace a) eqn:E.
    + apply andb_true_iff in E. destruct E as [E1 E2].
      apply is_empty_true, app_empty_l in E1. rewrite E1, E2. simpl.
      exists "". reflexivity.
    + destruct (PyStr.is_empty (PyStr.rstrip x) && PyStr.isspace a).
      * eexists. reflexivity.
      * exists c. reflexivity.
Qed.

Lemma strip_app (x y : string) :
  exists c, PyStr.strip (x ++ y) = PyStr.strip x ++ c.
Proof.
  unfold PyStr.strip.
  destruct (PyStr.lstrip x) as [|a l] eqn:E.
  - eexists. reflexivity.
  - rewrite lstrip_app by congruence. rewrite E. apply rstrip_app.
Qed.

(** A pattern found in the normalised command is still found after text
    has been appended to the command. *)
Lemma contains_strip_lower_app (p command suffix : string) :
  PyStr.contains p (PyStr.strip (PyStr.lower command)) = true ->
  PyStr.contains p (PyStr.strip (PyStr.lower (command ++ suffix))) = true.
Proof.
  intro H. unfold PyStr.lower. rewrite map_chars_app.
  destruct (strip_app (PyStr.map_chars PyStr.lower_char command)
              (PyStr.map_chars PyStr.lower_char suffix)) as [c ->].
  now apply contains_app_r.
Qed.

Lemma contains_lower_app (p command suffix : string) :
  PyStr.contains p (PyStr.lower command) = true ->
  PyStr.contains p (PyStr.lower (command ++ suffix)) = true.
Proof.
  intro H. unfold PyStr.lower. rewrite map_chars_app.
  now apply contains_app_r.
Qed.

Lemma count_if_app f (x y : string) :
  PyStr.count_if f (x ++ y)
  = (PyStr.count_if f x + PyStr.count_if f y)%nat.
Proof. induction x as [|c x IH]; simpl; [reflexivity|rewrite IH; lia]. Qed.

(** [s.count(c)] of a one-character string counts the characters equal
    to [c]. *)
Lemma count_char (ch : ascii) (s : string) :
  PyStr.count s (String ch "")
  = PyStr.count_if (fun c => if ascii_dec ch c then true else false) s.
Proof.
  unfold PyStr.count. induction s as [|a s IH]; [reflexivity|].
  cbn [PyStr.count_from PyStr.count_if prefix String.length Nat.sub].
  destruct (ascii_dec ch a).
  - rewrite prefix_empty, IH. reflexivity.
  - rewrite IH. reflexivity.
Qed.

Lemma count_char_app (ch : ascii) (x y : string) :
  (PyStr.count x (String ch "") <= PyStr.count (x ++ y) (String ch ""))%nat.
Proof. rewrite !count_char, count_if_app. lia. Qed.

Lemma filter_length_le {A : Type} (f g : A -> bool) (l : list A) :
  (forall x, f x = true -> g x = true) ->
  (List.length (filter f l) <= List.length (filter g l))%nat.
Proof.
  intro H. induction l as [|a l IH]; simpl; [lia|].
  destruct (f a) eqn:E.
  - rewrite (H a E). simpl. lia.
  - destruct (g a); simpl; lia.
Qed.

(* ================================================================== *)
(** * C3                                                               *)
(* ================================================================== *)

Ltac split_le :=
  match goal with
  | H : buckets_le _ _ _ |- _ =>
      destruct H as (?H & ?H & ?H & ?H & ?H & ?H & ?H & ?H)
  end;
  unfold buckets_le; cbn -[Qplus Qle];
  repeat split; intros;
  repeat match goal with
         | H : ?P -> _, p : ?P |- _ => specialize (H p)
         end;
  lra.

Lemma buckets_le_refl P s : buckets_le P s s.
Proof. unfold buckets_le. repeat split; intros; lra. Qed.

Lemma bump_le P c s1 s2 :
  buckets_le P s1 s2 ->
  buckets_le P (aetherion_app.bump c s1) (aetherion_app.bump c s2).
Proof. intro H. destruct c; split_le. Qed.

Lemma bump_incr P c s1 s2 :
  buckets_le P s1 s2 -> buckets_le P s1 (aetherion_app.bump c s2).
Proof. intro H. destruct c; split_le. Qed.

Lemma scan_patterns_le P cl cl' c ps :
  (forall p, PyStr.contains p cl = true -> PyStr.contains p cl' = true) ->
  forall s1 s2,
    buckets_le P s1 s2 ->
    buckets_le P (aetherion_app.scan_patterns cl c ps s1)
                 (aetherion_app.scan_patterns cl' c ps s2).
Proof.
  intro M. unfold aetherion_app.scan_patterns.
  induction ps as [|p ps IH]; intros s1 s2 H; simpl; [exact H|].
  apply IH. destruct (PyStr.contains p cl) eqn:E.
  - rewrite (M p E). now apply bump_le.
  - destruct (PyStr.contains p cl'); [now apply bump_incr|exact H].
Qed.

Lemma scan_categories_le P cl cl' table :
  (forall p, PyStr.contains p cl = true -> PyStr.contains p cl' = true) ->
  forall s1 s2,
    buckets_le P s1 s2 ->
    buckets_le P (aetherion_app.scan_categories cl table s1)
                 (aetherion_app.scan_categories cl' table s2).
Proof.
  intro M. unfold aetherion_app.scan_categories.
  induction table as [|e table IH]; intros s1 s2 H; simpl; [exact H|].
  apply IH. now apply scan_patterns_le.
Qed.

Lemma complexity_step_le P command command' :
  (String.length command <= String.length command')%nat ->
  buckets_le P
    (aetherion_app.complexity_step command aetherion_app.scoring_zero)
    (aetherion_app.complexity_step command' aetherion_app.scoring_zero).
Proof.
  intro L. unfold aetherion_app.complexity_step.
  destruct (Nat.ltb_spec 150 (String.length command));
    destruct (Nat.ltb_spec 150 (String.length command'));
    destruct (Nat.ltb_spec 100 (String.length command));
    destruct (Nat.ltb_spec 100 (String.length command'));
    try lia;
    unfold buckets_le; cbn -[Qplus Qle]; repeat split; intros; lra.
Qed.

Lemma ratio_step_le command command' s1 s2 :
  buckets_le (ratio_test_kept command command') s1 s2 ->
  buckets_le (ratio_test_kept command command')
    (aetherion_app.ratio_step command s1)
    (aetherion_app.ratio_step command' s2).
Proof.
  intro H. unfold aetherion_app.ratio_step.
  destruct (Qgtb (aetherion_app.char_ratio command) 0.3) eqn:E;
    destruct (Qgtb (aetherion_app.char_ratio command') 0.3) eqn:E';
    try split_le.
  apply Qgtb_true in E. apply Qgtb_false in E'.
  destruct H as (?H & ?H & ?H & ?H & ?H & ?H & ?H & ?H).
  unfold buckets_le; cbn -[Qplus Qle]; repeat split; try lra.
  intro K. specialize (K E). lra.
Qed.

Lemma flag_step_le P (w : Q) (b b' : bool) s1 s2 :
  0 <= w -> (b = true -> b' = true) ->
  buckets_le P s1 s2 ->
  buckets_le P
    (if b then aetherion_app.add_suspicious_patterns w s1 else s1)
    (if b' then aetherion_app.add_suspicious_patterns w s2 else s2).
Proof.
  intros W M H. destruct b; [rewrite (M eq_refl)|destruct b']; split_le.
Qed.

Lemma orb_mono (a a' b b' : bool) :
  (a = true -> a' = true) -> (b = true -> b' = true) ->
  a || b = true -> a' || b' = true.
Proof.
  intros A B H. apply orb_true_iff in H. apply orb_true_iff.
  destruct H as [H|H]; [left; exact (A H)|right; exact (B H)].
Qed.

Lemma ltb_mono (k n n' : nat) :
  (n <= n')%nat -> (k <? n)%nat = true -> (k <? n')%nat = true.
Proof. intros L H. apply Nat.ltb_lt in H. apply Nat.ltb_lt. lia. Qed.

Lemma ip_step_le P ip s1 s2 :
  buckets_le P s1 s2 ->
  buckets_le P (aetherion_app.ip_step ip s1) (aetherion_app.ip_step ip s2).
Proof.
  intro H. unfold aetherion_app.ip_step.
  destruct (aetherion_app.is_external ip); [split_le|exact H].
Qed.

(** Appending text to a command never lowers a bucket, the bucket
    [suspicious_patterns] on condition that the special-character test
    is kept. *)
Lemma score_command_app_le command suffix ip :
  buckets_le (ratio_test_kept command (command ++ suffix))
    (aetherion_app.score_command command ip)
    (aetherion_app.score_command (command ++ suffix) ip).
Proof.
  unfold aetherion_app.score_command. cbv zeta.
  apply ip_step_le.
  unfold aetherion_app.quoting_step.
  apply flag_step_le; [lra| |].
  { apply orb_mono; apply ltb_mono; apply count_char_app. }
  unfold aetherion_app.substitution_step.
  apply flag_step_le; [lra| |].
  { apply orb_mono; apply contains_app_r. }
  unfold aetherion_app.chaining_step.
  apply flag_step_le; [lra| |].
  { apply orb_mono; [apply orb_mono|]; apply contains_app_r. }
  apply scan_categories_le.
  { intros p. apply contains_strip_lower_app. }
  apply ratio_step_le.
  apply complexity_step_le. rewrite string_length_app. lia.
Qed.

Lemma scoring_sum_le P s1 s2 :
  buckets_le P s1 s2 -> P ->
  aetherion_app.scoring_sum s1 <= aetherion_app.scoring_sum s2.
Proof.
  intros (H1 & H2 & H3 & H4 & H5 & H6 & H7 & H8) p. specialize (H8 p).
  unfold aetherion_app.scoring_sum. lra.
Qed.

Lemma normalize_le x y :
  x <= y -> aetherion_app.normalize x <= aetherion_app.normalize y.
Proof.
  intro H. unfold aetherion_app.normalize.
  apply Q.min_le_compat_l. lra.
Qed.

Lemma returned_score sha command ip t_sig t_stamp :
  aetherion_app.anomaly_score
    (aetherion_app.analyze_command_threat sha command ip t_sig t_stamp)
  == aetherion_app.normalize
       (aetherion_app.scoring_sum (aetherion_app.score_command command ip)).
Proof.
  unfold aetherion_app.analyze_command_threat. cbv zeta.
  destruct (aetherion_app.threat_level_of _) as [level conf].
  cbn [aetherion_app.anomaly_score].
  apply round6_normalize, scoring_sum_graded, score_command_graded.
Qed.

Lemma add_if_le (b b' : bool) (w x y : Q) :
  0 <= w -> (b = true -> b' = true) -> x <= y ->
  (if b then x + w else x) <= (if b' then y + w else y).
Proof.
  intros W M H. destruct b; [rewrite (M eq_refl)|destruct b']; lra.
Qed.

(** The same for the heuristic of [AIManager], whose entropy test plays
    the part of the special-character test. *)
Lemma heuristic_score_app_le log2 command suffix :
  (4 < ai.entropy_of log2 command ->
   4 < ai.entropy_of log2 (command ++ suffix)) ->
  ai._heuristic_score (ai.extract_features log2 command)
  <= ai._heuristic_score (ai.extract_features log2 (command ++ suffix)).
Proof.
  intro K. unfold ai._heuristic_score, ai.extract_features. cbv zeta.
  cbn [ai.Feat.length ai.Feat.suspicious_patterns
       ai.Feat.special_char_count ai.Feat.entropy ai.Feat.has_file_path].
  apply Q.min_le_compat_l.
  apply add_if_le; [lra| |].
  { apply orb_mono; apply contains_app_r. }
  apply add_if_le; [lra| |].
  { intro E. apply Qgtb_true. apply Qgtb_true in E. exact (K E). }
  apply add_if_le; [lra| |].
  { apply ltb_mono. rewrite count_if_app. lia. }
  apply Qplus_le_compat.
  - apply add_if_le; [lra| |lra].
    apply ltb_mono. rewrite string_length_app. lia.
  - pose proof (filter_length_le
                  (fun p => PyStr.contains p (PyStr.lower command))
                  (fun p =>
                     PyStr.contains p (PyStr.lower (command ++ suffix)))
                  ai.suspicious_patterns
                  (fun p => contains_lower_app p command suffix)) as F.
    apply Qmult_le_compat_r; [|lra].
    revert F. generalize (List.length
      (filter (fun p => PyStr.contains p (PyStr.lower command))
              ai.suspicious_patterns)).
    generalize (List.length
      (filter (fun p => PyStr.contains p (PyStr.lower (command ++ suffix)))
              ai.suspicious_patterns)).
    intros n' n F. unfold Qnat, Qle. simpl. lia.
Qed.

(** C3, as the sources have it.  Appending a further occurrence of a known
    suspicious substring to a command never lowers a per-category bucket
    of [analyze_command_threat]; the bucket [suspicious_patterns] and the
    returned anomaly score do not go down either as long as the
    special-character test (more than 30% special characters) is not lost
    by the longer command, and the heuristic score of [AIManager] does
    not go down as long as its entropy test is not lost.  (The proof uses
    nothing of the substring: the same holds of any appended text.) *)
Theorem C3_append_monotone :
  forall command pattern ip,
    In pattern known_patterns ->
    let command' := command ++ pattern in
    buckets_le (ratio_test_kept command command')
      (aetherion_app.score_command command ip)
      (aetherion_app.score_command command' ip)
    /\ (ratio_test_kept command command' ->
        forall sha t_sig t_stamp,
          aetherion_app.anomaly_score
            (aetherion_app.analyze_command_threat
               sha command ip t_sig t_stamp)
          <= aetherion_app.anomaly_score
               (aetherion_app.analyze_command_threat
                  sha command' ip t_sig t_stamp))
    /\ (forall log2,
          (4 < ai.entropy_of log2 command ->
           4 < ai.entropy_of log2 command') ->
          ai._heuristic_score (ai.extract_features log2 command)
          <= ai._heuristic_score (ai.extract_features log2 command')).
Proof.
  intros command pattern ip _. cbv zeta.
  pose proof (score_command_app_le command pattern ip) as B.
  split; [exact B|]. split.
  - intros R sha t_sig t_stamp. rewrite !returned_score.
    apply normalize_le. exact (scoring_sum_le _ _ _ B R).
  - intros log2. apply heuristic_score_app_le.
Qed.

(** An instance: "sudo" appended to "cat /etc/passwd". *)
Lemma C3_witness :
  In "sudo" known_patterns
  /\ buckets_le
       (ratio_test_kept "cat /etc/passwd" ("cat /etc/passwd" ++ "sudo"))
       (aetherion_app.score_command "cat /etc/passwd" "203.0.113.25")
       (aetherion_app.score_command ("cat /etc/passwd" ++ "sudo")
          "203.0.113.25").
Proof.
  assert (H : In "sudo" known_patterns).
  { unfold known_patterns. apply in_or_app. right. simpl. tauto. }
  split; [exact H|].
  exact (proj1 (C3_append_monotone "cat /etc/passwd" "sudo"
                  "203.0.113.25" H)).
Defined.

(** Two ways in which one more occurrence of a known substring lowers a
    score.  Inserted inside the command ("id" inside "sudo") it breaks the
    match of another pattern, and the bucket [privilege_escalation] falls
    from 0.25 to 0.  Appended ("whoami" after "whoami;;;") it brings the
    share of special characters from 3/9 down to 3/15, the bucket
    [suspicious_patterns] falls from 0.35 to 0.15 and the anomaly score
    from 0.4575 to 0.3075. *)
Lemma C3_counterexample :
  (In "id" known_patterns
   /\ aetherion_app.privilege_escalation
        (aetherion_app.score_command ("id su" ++ "id" ++ "do") "10.0.0.1")
      < aetherion_app.privilege_escalation
          (aetherion_app.score_command ("id su" ++ "do") "10.0.0.1"))
  /\
  (In "whoami" known_patterns
   /\ aetherion_app.suspicious_patterns
        (aetherion_app.score_command ("whoami;;;" ++ "whoami") "8.8.8.8")
      < aetherion_app.suspicious_patterns
          (aetherion_app.score_command "whoami;;;" "8.8.8.8")
   /\ aetherion_app.anomaly_score
        (aetherion_app.analyze_command_threat (fun s => s)
           ("whoami;;;" ++ "whoami") "8.8.8.8" t_morning t_morning)
      < aetherion_app.anomaly_score
          (aetherion_app.analyze_command_threat (fun s => s)
             "whoami;;;" "8.8.8.8" t_morning t_morning)).
Proof.
  assert (I1 : In "id" known_patterns).
  { unfold known_patterns. apply in_or_app. right. simpl. tauto. }
  assert (I2 : In "whoami" known_patterns).
  { unfold known_patterns. apply in_or_app. right. simpl. tauto. }
  repeat split; try assumption; vm_compute; reflexivity.
Qed.

(* ================================================================== *)
(** * Dictionaries                                                     *)
(* ================================================================== *)

Lemma get_none_not_in {V : Type} (d : PyDict.dict V) (k : string) :
  PyDict.get d k = None <-> ~ In k (PyDict.keys d).
Proof.
  induction d as [|[k' v] d IH]; simpl.
  - tauto.
  - destruct (String.eqb_spec k' k) as [E|N].
    + split; [discriminate|]. intro H. exfalso. apply H. now left.
    + rewrite IH. split; [intros H [E|I]; [congruence|tauto]|tauto].
Qed.

Lemma set_absent {V : Type} (d : PyDict.dict V) (k : string) (v : V) :
  PyDict.get d k = None -> PyDict.set d k v = (d ++ [(k, v)])%list.
Proof.
  induction d as [|[k' v'] d IH]; simpl; [reflexivity|].
  destruct (String.eqb k' k); [discriminate|].
  intro H. now rewrite IH.
Qed.

Lemma get_set_same {V : Type} (d : PyDict.dict V) (k : string) (v : V) :
  PyDict.get (PyDict.set d k v) k = Some v.
Proof.
  induction d as [|[k' v'] d IH]; simpl.
  - now rewrite String.eqb_refl.
  - destruct (String.eqb k' k) eqn:E; simpl; rewrite E; [reflexivity|exact IH].
Qed.

Lemma keys_app {V : Type} (d1 d2 : PyDict.dict V) :
  PyDict.keys (d1 ++ d2)%list = (PyDict.keys d1 ++ PyDict.keys d2)%list.
Proof. unfold PyDict.keys. apply map_app. Qed.

(** Deleting the first [n] keys of a dictionary drops its first [n]
    entries. *)
Lemma del_oldest {V : Type} (n : nat) : forall d : PyDict.dict V,
  fold_left (fun c key => PyDict.del c key) (firstn n (PyDict.keys d)) d
  = skipn n d.
Proof.
  induction n as [|n IH]; intros [|[k v] d]; simpl; try reflexivity.
  rewrite String.eqb_refl. apply IH.
Qed.

Lemma skipn_keys {V : Type} (n : nat) (d : PyDict.dict V) :
  PyDict.keys (skipn n d) = skipn n (PyDict.keys d).
Proof. unfold PyDict.keys. symmetry. apply skipn_map. Qed.

Lemma in_skipn {A : Type} (n : nat) (x : A) : forall l,
  In x (skipn n l) -> In x l.
Proof.
  induction n as [|n IH]; intros [|a l]; simpl; auto.
Qed.

Lemma nodup_skipn {A : Type} (n : nat) : forall l : list A,
  NoDup l -> NoDup (skipn n l).
Proof.
  induction n as [|n IH]; intros [|a l] H; simpl; auto.
  apply IH. now inversion H.
Qed.

Lemma nodup_snoc {A : Type} (l : list A) (x : A) :
  NoDup l -> ~ In x l -> NoDup (l ++ [x])%list.
Proof.
  induction l as [|a l IH]; simpl; intros H N.
  - constructor; [tauto|constructor].
  - inversion H as [|? ? Ha Hl]; subst. constructor.
    + rewrite in_app_iff. simpl. intros [I|[E|[]]]; [tauto|]. subst. tauto.
    + apply IH; tauto.
Qed.

(* ================================================================== *)
(** * ai_analysis: the cache                                           *)
(* ================================================================== *)

(** [_cache_analysis] on a key that is not cached: below capacity the
    entry goes last; at capacity the [cache_size // 5] oldest entries go
    first. *)
Lemma cache_analysis_new self key a :
  PyDict.get (ai_analysis.analysis_cache self) key = None ->
  ai_analysis._cache_analysis self key a
  = ((if (ai_analysis.cache_size self
          <=? List.length (ai_analysis.analysis_cache self))%nat
      then skipn (ai_analysis.cache_size self / 5)
                 (ai_analysis.analysis_cache self)
      else ai_analysis.analysis_cache self)
     ++ [(key, a)])%list.
Proof.
  intro H. unfold ai_analysis._cache_analysis. cbv zeta.
  destruct (_ <=? _)%nat.
  - rewrite del_oldest. apply set_absent.
    apply get_none_not_in. rewrite skipn_keys.
    intro I. apply in_skipn in I. revert I. now apply get_none_not_in.
  - now apply set_absent.
Qed.

Lemma analyze_command_try_ok log2 self command ip clock :
  exists r,
    ai_analysis.analyze_command_try log2 self command ip clock = Ok r.
Proof.
  unfold ai_analysis.analyze_command_try. cbv zeta.
  destruct (PyDict.get _ _); eexists; reflexivity.
Qed.

(** A call on a cached pair, and a call on a pair that is not cached. *)
Lemma analyze_command_hit log2 self command ip clock cached :
  PyDict.get (ai_analysis.analysis_cache self) (cache_key_of ip command)
  = Some cached ->
  ai_analysis.analyze_command log2 self command ip clock = (cached, self).
Proof.
  intro H. unfold ai_analysis.analyze_command, ai_analysis.analyze_command_try.
  cbv zeta. fold (cache_key_of ip command). now rewrite H.
Qed.

Lemma analyze_command_miss log2 self command ip clock :
  PyDict.get (ai_analysis.analysis_cache self) (cache_key_of ip command)
  = None ->
  exists a,
    ai_analysis.analyze_command log2 self command ip clock
    = (a, {| ai_analysis.ai_manager := ai_analysis.ai_manager self;
             ai_analysis.analysis_cache :=
               ai_analysis._cache_analysis self (cache_key_of ip command) a;
             ai_analysis.cache_size := ai_analysis.cache_size self |})
    /\ a = fst (ai_analysis.analyze_command log2
                  (ai_analysis.init (ai_analysis.ai_manager self))
                  command ip clock).
Proof.
  intro H. unfold ai_analysis.analyze_command, ai_analysis.analyze_command_try.
  cbv zeta. fold (cache_key_of ip command). rewrite H.
  eexists. split; reflexivity.
Qed.

(* ================================================================== *)
(** * C6                                                               *)
(* ================================================================== *)

Lemma cache_ok_init manager : cache_ok (ai_analysis.init manager).
Proof. repeat split; simpl; [constructor|lia]. Qed.

(** One call on a pair that is not cached, from a state that satisfies
    [cache_ok]. *)
Lemma analyze_command_new_entry log2 self command ip clock :
  cache_ok self ->
  PyDict.get (ai_analysis.analysis_cache self) (cache_key_of ip command)
  = None ->
  let r := ai_analysis.analyze_command log2 self command ip clock in
  let cache := ai_analysis.analysis_cache self in
  let cache' := ai_analysis.analysis_cache (snd r) in
  let entry := (cache_key_of ip command, fst r) in
  cache_ok (snd r)
  /\ ((List.length cache < 1000)%nat -> cache' = (cache ++ [entry])%list)
  /\ (List.length cache = 1000%nat ->
      cache' = (skipn 200 cache ++ [entry])%list
      /\ List.length cache' = 801%nat).
Proof.
  intros (S & N & L) H. cbv zeta.
  destruct (analyze_command_miss log2 self command ip clock H) as (a & E & _).
  rewrite E. cbn [fst snd ai_analysis.analysis_cache].
  rewrite (cache_analysis_new self _ a H), S.
  change (1000 / 5)%nat with 200%nat.
  assert (K : ~ In (cache_key_of ip command)
                (PyDict.keys (ai_analysis.analysis_cache self)))
    by now apply get_none_not_in.
  destruct (Nat.leb_spec 1000 (List.length (ai_analysis.analysis_cache self)))
    as [F|F].
  - split; [|split; [lia|]].
    + unfold cache_ok. cbn [ai_analysis.cache_size ai_analysis.analysis_cache].
      split; [first [exact S|reflexivity]|]. split.
      * rewrite keys_app. apply nodup_snoc.
        -- rewrite skipn_keys. now apply nodup_skipn.
        -- rewrite skipn_keys. intro I. now apply in_skipn in I.
      * rewrite List.length_app, length_skipn. simpl. lia.
    + intros _. split; [reflexivity|].
      rewrite List.length_app, length_skipn. simpl. lia.
  - split; [|split; [reflexivity|lia]].
    unfold cache_ok. cbn [ai_analysis.cache_size ai_analysis.analysis_cache].
    split; [first [exact S|reflexivity]|]. split.
    + rewrite keys_app. now apply nodup_snoc.
    + rewrite List.length_app. simpl. lia.
Qed.

Lemma analyze_command_cache_ok log2 self command ip clock :
  cache_ok self ->
  cache_ok (snd (ai_analysis.analyze_command log2 self command ip clock)).
Proof.
  intro H.
  destruct (PyDict.get (ai_analysis.analysis_cache self)
              (cache_key_of ip command)) as [c|] eqn:E.
  - now rewrite (analyze_command_hit _ _ _ _ _ _ E).
  - exact (proj1 (analyze_command_new_entry log2 self command ip clock H E)).
Qed.

(** While the cache has room, calls on distinct new pairs add one entry
    each, in the order of the calls. *)
Lemma run_below_capacity log2 calls : forall self clocks,
  cache_ok self ->
  NoDup (PyDict.keys (ai_analysis.analysis_cache self) ++ call_keys calls) ->
  (List.length (ai_analysis.analysis_cache self) + List.length calls
   <= 1000)%nat ->
  let self' := run log2 self calls clocks in
  cache_ok self'
  /\ PyDict.keys (ai_analysis.analysis_cache self')
     = (PyDict.keys (ai_analysis.analysis_cache self) ++ call_keys calls)%list.
Proof.
  induction calls as [|[ip command] calls IH]; intros self clocks OK N L.
  - simpl. rewrite app_nil_r. now split.
  - cbn [run call_keys map fst snd] in *.
    assert (G : PyDict.get (ai_analysis.analysis_cache self)
                  (cache_key_of ip command) = None).
    { apply get_none_not_in. intro I.
      apply NoDup_remove_2 in N. apply N. apply in_or_app. now left. }
    destruct (analyze_command_new_entry log2 self command ip (clocks O) OK G)
      as (OK' & A & _).
    cbv zeta in A. rewrite List.length_cons in L.
    specialize (A ltac:(lia)).
    set (self1 := snd (ai_analysis.analyze_command log2 self command ip
                         (clocks O))) in *.
    assert (K1 : PyDict.keys (ai_analysis.analysis_cache self1)
                 = (PyDict.keys (ai_analysis.analysis_cache self)
                    ++ [cache_key_of ip command])%list).
    { rewrite A, keys_app. reflexivity. }
    destruct (IH self1 (fun i => clocks (S i)) OK') as (OK2 & K2).
    + rewrite K1, <- app_assoc. exact N.
    + rewrite A, List.length_app. simpl. lia.
    + split; [exact OK2|]. cbv zeta in K2. rewrite K2, K1, <- app_assoc.
      reflexivity.
Qed.

Lemma run_app log2 l1 : forall l2 self clocks,
  run log2 self (l1 ++ l2)%list clocks
  = run log2 (run log2 self l1 clocks) l2
      (fun i => clocks (List.length l1 + i)%nat).
Proof.
  induction l1 as [|[ip command] l1 IH]; intros l2 self clocks.
  - reflexivity.
  - cbn [run app]. rewrite IH. reflexivity.
Qed.

(** C6.  The cache of an analyzer holds at most 1000 entries.  A call on
    a pair that is not cached appends its entry when there is room; when
    the cache is full it first drops the 200 oldest entries, in insertion
    order, which leaves 801 entries.  In particular, after calls on 1001
    distinct pairs a new analyzer holds 801 entries. *)
Theorem C6_cache_bounded :
  (forall log2 self command ip clock,
      cache_ok self ->
      PyDict.get (ai_analysis.analysis_cache self) (cache_key_of ip command)
      = None ->
      let r := ai_analysis.analyze_command log2 self command ip clock in
      let cache := ai_analysis.analysis_cache self in
      let cache' := ai_analysis.analysis_cache (snd r) in
      let entry := (cache_key_of ip command, fst r) in
      cache_ok (snd r)
      /\ ((List.length cache < 1000)%nat -> cache' = (cache ++ [entry])%list)
      /\ (List.length cache = 1000%nat ->
          cache' = (skipn 200 cache ++ [entry])%list
          /\ List.length cache' = 801%nat))
  /\
  (forall log2 manager calls clocks,
      NoDup (call_keys calls) ->
      List.length calls = 1001%nat ->
      List.length
        (ai_analysis.analysis_cache
           (run log2 (ai_analysis.init manager) calls clocks))
      = 801%nat).
Proof.
  split; [exact analyze_command_new_entry|].
  intros log2 manager calls clocks N L.
  destruct (exists_last (l := calls)) as (l & [ip command] & ->).
  { intro E. now rewrite E in L. }
  rewrite List.length_app in L. simpl in L.
  unfold call_keys in N. rewrite map_app in N. fold (call_keys l) in N.
  cbn [map fst snd] in N.
  rewrite run_app.
  destruct (run_below_capacity log2 l (ai_analysis.init manager) clocks
              (cache_ok_init manager)) as (OK & K).
  { simpl. now apply NoDup_app_remove_r in N. }
  { simpl. lia. }
  cbv zeta in K. simpl in K.
  set (self := run log2 (ai_analysis.init manager) l clocks) in *.
  assert (Len : List.length (ai_analysis.analysis_cache self) = 1000%nat).
  { unfold PyDict.keys, call_keys in K.
    rewrite <- (List.length_map fst), K, List.length_map. lia. }
  assert (G : PyDict.get (ai_analysis.analysis_cache self)
                (cache_key_of ip command) = None).
  { apply get_none_not_in. rewrite K.
    apply NoDup_remove_2 in N. now rewrite app_nil_r in N. }
  cbn [run].
  exact (proj2 (proj2 (proj2 (analyze_command_new_entry log2 self command ip _
                                OK G)) Len)).
Qed.

(** An instance: the first call on a new analyzer. *)
Lemma C6_witness :
  cache_ok (ai_analysis.init (ai.mk_manager None None))
  /\ PyDict.get
       (ai_analysis.analysis_cache
          (ai_analysis.init (ai.mk_manager None None)))
       (cache_key_of "192.168.1.50" "ls -la") = None
  /\ cache_ok
       (snd (ai_analysis.analyze_command (fun _ => 0)
               (ai_analysis.init (ai.mk_manager None None))
               "ls -la" "192.168.1.50" (fun _ => t_morning))).
Proof.
  split; [apply cache_ok_init|]. split; [reflexivity|].
  exact (proj1 (proj1 C6_cache_bounded (fun _ => 0)
                  (ai_analysis.init (ai.mk_manager None None))
                  "ls -la" "192.168.1.50" (fun _ => t_morning)
                  (cache_ok_init _) eq_refl)).
Defined.

(* ================================================================== *)
(** * C7                                                               *)
(* ================================================================== *)

(** The eleven entries of a computed analysis. *)
Lemma computed_analysis_entries log2 manager command ip clock :
  computed_analysis log2 manager command ip clock
  = [ ("command", ai.VStr command);
      ("features", ai.VFeatures (ai.extract_features log2 command));
      ("anomaly_score",
        ai.VNum (ai.predict_anomaly manager
                   (ai.extract_features log2 command)));
      ("threat_level",
        ai.VStr (ai.get_threat_level
                   (ai.predict_anomaly manager
                      (ai.extract_features log2 command))));
      ("risk_factors",
        ai.VStrList
          (ai.Feat.detected_patterns (ai.extract_features log2 command)));
      ("analysis_timestamp", ai.VStr (isoformat (clock 0%nat)));
      ("ip", ai.VStr ip);
      ("timestamp", ai.VStr (isoformat (clock 1%nat)));
      ("session_id",
        ai.VStr (ip ++ "_" ++ PyStr.of_Z (epoch_seconds (clock 2%nat))));
      ("attack_patterns",
        ai.VStrList (ai_analysis._detect_attack_patterns command));
      ("complexity_score",
        ai.VNum (ai_analysis._calculate_complexity command)) ].
Proof. reflexivity. Qed.

Lemma analyze_command_computes log2 self command ip clock :
  PyDict.get (ai_analysis.analysis_cache self) (cache_key_of ip command)
  = None ->
  fst (ai_analysis.analyze_command log2 self command ip clock)
  = computed_analysis log2 (ai_analysis.ai_manager self) command ip clock.
Proof.
  intro H.
  destruct (analyze_command_miss log2 self command ip clock H) as (a & E & F).
  rewrite E. exact F.
Qed.

(** After a call the pair is cached with the value the call returned. *)
Lemma analyze_command_caches log2 self command ip clock :
  let r := ai_analysis.analyze_command log2 self command ip clock in
  PyDict.get (ai_analysis.analysis_cache (snd r)) (cache_key_of ip command)
  = Some (fst r).
Proof.
  cbv zeta.
  destruct (PyDict.get (ai_analysis.analysis_cache self)
              (cache_key_of ip command)) as [c|] eqn:E.
  - rewrite (analyze_command_hit _ _ _ _ _ _ E). exact E.
  - destruct (analyze_command_miss log2 self command ip clock E)
      as (a & -> & _).
    cbn [fst snd ai_analysis.analysis_cache].
    unfold ai_analysis._cache_analysis. cbv zeta. apply get_set_same.
Qed.

Lemma second_call_is_hit log2 self command ip clock1 clock2 :
  let r1 := ai_analysis.analyze_command log2 self command ip clock1 in
  ai_analysis.analyze_command log2 (snd r1) command ip clock2
  = (fst r1, snd r1).
Proof.
  cbv zeta.
  pose proof (analyze_command_caches log2 self command ip clock1) as C.
  cbv zeta in C.
  exact (analyze_command_hit log2 _ command ip clock2 _ C).
Qed.

(** Two computations for the same pair differ in the clock keys only. *)
Lemma computed_analysis_clock log2 manager command ip clock1 clock2 k :
  ~ In k clock_keys ->
  PyDict.get (computed_analysis log2 manager command ip clock1) k
  = PyDict.get (computed_analysis log2 manager command ip clock2) k.
Proof.
  intro N. rewrite !computed_analysis_entries. cbn [PyDict.get].
  repeat match goal with
         | |- context [String.eqb ?s k] =>
             destruct (String.eqb_spec s k) as [<-|?]
         end;
    try reflexivity;
    exfalso; apply N; unfold clock_keys; simpl; tauto.
Qed.

(** C7, as the source has it.  After a call for (ip, command) the pair is
    cached, and a second call for the same pair returns, field for field,
    the assessment the first call returned, leaving the analyzer as it
    was.  Against a fresh computation for the pair at the time of the
    second call, the returned assessment agrees on every key except
    [analysis_timestamp], [timestamp] and [session_id], which keep the
    clock readings of the first call. *)
Theorem C7_cache_hit_returns_first_result :
  forall log2 self command ip clock1 clock2,
    let r1 := ai_analysis.analyze_command log2 self command ip clock1 in
    let r2 := ai_analysis.analyze_command log2 (snd r1) command ip clock2 in
    (fst r2 = fst r1 /\ snd r2 = snd r1)
    /\ (PyDict.get (ai_analysis.analysis_cache self)
          (cache_key_of ip command) = None ->
        fst r2
        = computed_analysis log2 (ai_analysis.ai_manager self)
            command ip clock1
        /\ forall k,
            ~ In k clock_keys ->
            PyDict.get (fst r2) k
            = PyDict.get
                (computed_analysis log2 (ai_analysis.ai_manager self)
                   command ip clock2) k).
Proof.
  intros log2 self command ip clock1 clock2. cbv zeta.
  rewrite second_call_is_hit.
  cbn [fst snd]. split; [split; reflexivity|].
  intro H. rewrite (analyze_command_computes _ _ _ _ _ H).
  split; [reflexivity|].
  intros k N. now apply computed_analysis_clock.
Qed.

(** A cache hit is not a fresh computation: the second call below, served
    from the cache in the evening, returns the time stamp of the morning,
    where a fresh computation at that time has the stamp of the
    evening. *)
Lemma C7_counterexample :
  exists manager command ip,
    forall log2,
      let self := ai_analysis.init manager in
      let r1 :=
        ai_analysis.analyze_command log2 self command ip
          (fun _ => t_morning) in
      let r2 :=
        ai_analysis.analyze_command log2 (snd r1) command ip
          (fun _ => t_evening) in
      PyDict.get (fst r2) "timestamp" = Some (ai.VStr "2024-01-15T10:30:45")
      /\ PyDict.get
           (computed_analysis log2 manager command ip (fun _ => t_evening))
           "timestamp"
         = Some (ai.VStr "2024-01-15T22:05:09").
Proof.
  exists (ai.mk_manager None None), "ls -la", "192.168.1.50".
  intros log2. cbv zeta.
  rewrite second_call_is_hit. cbn [fst].
  fold (computed_analysis log2 (ai.mk_manager None None)
          "ls -la" "192.168.1.50" (fun _ => t_morning)).
  rewrite !computed_analysis_entries. split; reflexivity.
Qed.

(* ================================================================== *)
(** * C10                                                              *)
(* ================================================================== *)

(** A call on a pair whose key is cached returns the cached assessment,
    whatever pair it was computed for. *)
Lemma colliding_call log2 self ip1 command1 ip2 command2 clock1 clock2 :
  cache_key_of ip1 command1 = cache_key_of ip2 command2 ->
  let r1 := ai_analysis.analyze_command log2 self command1 ip1 clock1 in
  ai_analysis.analyze_command log2 (snd r1) command2 ip2 clock2
  = (fst r1, snd r1).
Proof.
  intro K. cbv zeta.
  pose proof (analyze_command_caches log2 self command1 ip1 clock1) as C.
  cbv zeta in C. rewrite K in C.
  exact (analyze_command_hit log2 _ command2 ip2 clock2 _ C).
Qed.

(** C10, with a pair of pairs that does collide.  The cache key is the one
    string ip + ":" + command, so distinct pairs can share a key, as
    ("1::2:3", "x") and ("1::2", "3:x") do; the call for the second pair of
    two such pairs returns the assessment cached for the first, with the
    [ip], [command] and [session_id] of the first. *)
Theorem C10_cache_key_collision :
  ((("1::2:3", "x") <> ("1::2", "3:x"))
   /\ cache_key_of "1::2:3" "x" = cache_key_of "1::2" "3:x")
  /\
  (forall log2 self ip1 command1 ip2 command2 clock1 clock2,
      cache_key_of ip1 command1 = cache_key_of ip2 command2 ->
      PyDict.get (ai_analysis.analysis_cache self)
        (cache_key_of ip1 command1) = None ->
      let r1 := ai_analysis.analyze_command log2 self command1 ip1 clock1 in
      let r2 :=
        ai_analysis.analyze_command log2 (snd r1) command2 ip2 clock2 in
      fst r2 = fst r1
      /\ PyDict.get (fst r2) "ip" = Some (ai.VStr ip1)
      /\ PyDict.get (fst r2) "command" = Some (ai.VStr command1)
      /\ PyDict.get (fst r2) "session_id"
         = Some (ai.VStr
                   (ip1 ++ "_"
                    ++ PyStr.of_Z (epoch_seconds (clock1 2%nat))))).
Proof.
  split; [split; [discriminate|reflexivity]|].
  intros log2 self ip1 command1 ip2 command2 clock1 clock2 K H. cbv zeta.
  rewrite (colliding_call _ _ _ _ _ _ _ _ K). cbn [fst].
  rewrite (analyze_command_computes _ _ _ _ _ H).
  rewrite computed_analysis_entries. repeat split; reflexivity.
Qed.

(** An instance: the two colliding pairs, on a new analyzer. *)
Lemma C10_witness :
  cache_key_of "1::2:3" "x" = cache_key_of "1::2" "3:x"
  /\ PyDict.get
       (ai_analysis.analysis_cache
          (ai_analysis.init (ai.mk_manager None None)))
       (cache_key_of "1::2:3" "x") = None
  /\ PyDict.get
       (fst (ai_analysis.analyze_command (fun _ => 0)
               (snd (ai_analysis.analyze_command (fun _ => 0)
                       (ai_analysis.init (ai.mk_manager None None))
                       "x" "1::2:3" (fun _ => t_morning)))
               "3:x" "1::2" (fun _ => t_evening)))
       "ip"
     = Some (ai.VStr "1::2:3").
Proof.
  split; [reflexivity|]. split; [reflexivity|].
  exact (proj1 (proj2 (proj2 C10_cache_key_collision (fun _ => 0)
                         (ai_analysis.init (ai.mk_manager None None))
                         "1::2:3" "x" "1::2" "3:x"
                         (fun _ => t_morning) (fun _ => t_evening)
                         eq_refl eq_refl))).
Defined.

(** The pairs ("1.2.3.4", "x") and ("1.2.3", "4:x") do not collide: their
    keys differ, and the call for the second pair computes an assessment
    of its own, with its own [ip] and [command]. *)
Lemma C10_counterexample :
  cache_key_of "1.2.3.4" "x" = "1.2.3.4:x"
  /\ cache_key_of "1.2.3" "4:x" = "1.2.3:4:x"
  /\ String.eqb "1.2.3.4:x" "1.2.3:4:x" = false
  /\ (forall log2 manager clock1 clock2,
        let r1 :=
          ai_analysis.analyze_command log2 (ai_analysis.init manager)
            "x" "1.2.3.4" clock1 in
        let r2 :=
          ai_analysis.analyze_command log2 (snd r1) "4:x" "1.2.3" clock2 in
        PyDict.get (fst r2) "ip" = Some (ai.VStr "1.2.3")
        /\ PyDict.get (fst r2) "command" = Some (ai.VStr "4:x")).
Proof.
  repeat split; reflexivity.
Qed.

(* ================================================================== *)
(** * C4                                                               *)
(* ================================================================== *)

Lemma predict_anomaly_no_model manager f :
  ai.model manager = None ->
  ai.predict_anomaly manager f = ai._heuristic_score f.
Proof. intro H. unfold ai.predict_anomaly. now rewrite H. Qed.

Lemma predict_anomaly_model_raises manager m f e :
  ai.model manager = Some m ->
  ai.predict_with_model m (ai.scaler manager) f = Raise e ->
  ai.predict_anomaly manager f = ai._heuristic_score f.
Proof. intros H R. unfold ai.predict_anomaly. now rewrite H, R. Qed.

Lemma get_threat_level_values score :
  In (ai.get_threat_level score) ["LOW"; "MEDIUM"; "HIGH"; "CRITICAL"].
Proof.
  unfold ai.get_threat_level.
  repeat match goal with
         | |- context [if ?b then _ else _] => destruct b
         end; simpl; tauto.
Qed.

Lemma heuristic_score_empty log2 :
  ai._heuristic_score (ai.extract_features log2 "") == 0.
Proof. vm_compute. reflexivity. Qed.

(** C4, as the sources have it.  [analyze_command] never raises: its
    [try] block does not raise, and what it computes is a valid
    assessment, with a score in [0,1] and one of the four levels.  When no
    model is loaded, or when the invocation of the model raises, the
    heuristic score is the score returned, and on that path the empty
    command is rated LOW with score 0.  The assessment of the [except]
    branch is MEDIUM with score 0.5. *)
Theorem C4_analyzer_never_raises :
  (forall log2 self command ip clock,
      raises (ai_analysis.analyze_command_try log2 self command ip clock)
      = false)
  /\
  (forall log2 manager command ip clock,
      exists score level,
        PyDict.get (computed_analysis log2 manager command ip clock)
          "anomaly_score" = Some (ai.VNum score)
        /\ PyDict.get (computed_analysis log2 manager command ip clock)
             "threat_level" = Some (ai.VStr level)
        /\ (0 <= score /\ score <= 1)
        /\ In level ["LOW"; "MEDIUM"; "HIGH"; "CRITICAL"])
  /\
  (forall manager f,
      ai.model manager = None ->
      ai.predict_anomaly manager f = ai._heuristic_score f)
  /\
  (forall manager m f e,
      ai.model manager = Some m ->
      ai.predict_with_model m (ai.scaler manager) f = Raise e ->
      ai.predict_anomaly manager f = ai._heuristic_score f)
  /\
  (forall log2 manager ip clock,
      ai.predict_anomaly manager (ai.extract_features log2 "")
      = ai._heuristic_score (ai.extract_features log2 "") ->
      exists score,
        PyDict.get (computed_analysis log2 manager "" ip clock)
          "anomaly_score" = Some (ai.VNum score)
        /\ score == 0
        /\ PyDict.get (computed_analysis log2 manager "" ip clock)
             "threat_level" = Some (ai.VStr "LOW"))
  /\
  (forall command ip now,
      PyDict.get (ai_analysis._fallback_analysis command ip now)
        "threat_level" = Some (ai.VStr "MEDIUM")
      /\ PyDict.get (ai_analysis._fallback_analysis command ip now)
           "anomaly_score" = Some (ai.VNum 0.5)).
Proof.
  split; [|split; [|split; [|split; [|split]]]].
  - intros log2 self command ip clock.
    destruct (analyze_command_try_ok log2 self command ip clock) as [r ->].
    reflexivity.
  - intros log2 manager command ip clock.
    rewrite computed_analysis_entries.
    eexists. eexists. split; [reflexivity|]. split; [reflexivity|].
    split; [apply predict_anomaly_range|apply get_threat_level_values].
  - exact predict_anomaly_no_model.
  - exact predict_anomaly_model_raises.
  - intros log2 manager ip clock H.
    rewrite computed_analysis_entries.
    set (score := ai.predict_anomaly manager (ai.extract_features log2 ""))
      in *.
    assert (Z0 : score == 0) by (rewrite H; apply heuristic_score_empty).
    assert (Lv : ai.get_threat_level score = "LOW").
    { apply (get_threat_level_bucket score). rewrite Z0. lra. }
    exists score. split; [reflexivity|]. split; [exact Z0|].
    transitivity (Some (ai.VStr (ai.get_threat_level score)));
      [reflexivity|now rewrite Lv].
  - intros command ip now. split; reflexivity.
Qed.

(** With a model that answers, the level of the empty command is the
    model's: a model whose [predict] flags the empty command makes it
    CRITICAL with score 1. *)
Lemma C4_counterexample :
  exists manager,
    forall log2 ip clock,
      PyDict.get
        (fst (ai_analysis.analyze_command log2 (ai_analysis.init manager)
                "" ip clock))
        "threat_level" = Some (ai.VStr "CRITICAL").
Proof.
  exists (ai.mk_manager (Some flagging_model) None).
  intros log2 ip clock. reflexivity.
Qed.

(* ================================================================== *)
(** * C8                                                               *)
(* ================================================================== *)

(** Only the [date] branch of [_get_command_response] reads the clock. *)
Lemma get_command_response_clock command now1 now2 :
  PyStr.startswith (PyStr.lower command) "date" = false ->
  handlers._get_command_response command now1
  = handlers._get_command_response command now2.
Proof.
  intro H. unfold handlers._get_command_response. cbv zeta.
  rewrite H.
  repeat match goal with
         | |- (if ?b then _ else _) = _ => destruct b; [reflexivity|]
         end.
  reflexivity.
Qed.

(** C8, as the source has it.  For a LOW assessment [generate_response]
    draws no random number, and unless the command starts with "date",
    whose reply carries the time of day, it does not read the clock: two
    calls give the same outcome, byte for byte. *)
Theorem C8_low_tier_response_deterministic :
  forall command a now1 now2 draw1 draw2,
    handlers.threat_level_of a = ai.VStr "LOW" ->
    PyStr.startswith (PyStr.lower (PyStr.strip command)) "date" = false ->
    handlers.generate_response command a now1 draw1
    = handlers.generate_response command a now2 draw2.
Proof.
  intros command a now1 now2 draw1 draw2 L D.
  unfold handlers.generate_response. cbv zeta.
  rewrite L, (get_command_response_clock _ now1 now2 D).
  reflexivity.
Qed.

(** An instance: "ls -la" in the morning and in the evening. *)
Lemma C8_witness :
  handlers.threat_level_of low_assessment = ai.VStr "LOW"
  /\ PyStr.startswith (PyStr.lower (PyStr.strip "ls -la")) "date" = false
  /\ handlers.generate_response "ls -la" low_assessment t_morning 0
     = handlers.generate_response "ls -la" low_assessment t_evening 4.
Proof.
  split; [reflexivity|]. split; [reflexivity|].
  exact (C8_low_tier_response_deterministic "ls -la" low_assessment
           t_morning t_evening 0 4 eq_refl eq_refl).
Defined.

(** The reply to "date" carries the time of day: two calls for the same
    LOW assessment at different times give different bytes. *)
Lemma C8_counterexample :
  handlers.threat_level_of low_assessment = ai.VStr "LOW"
  /\ handlers.generate_response "date" low_assessment t_morning 0
     = Ok ("Mon Jan 15 10:30:45 UTC 2024" ++ handlers.nl
           ++ "[root@server ~]# ")
  /\ handlers.generate_response "date" low_assessment t_evening 0
     = Ok ("Mon Jan 15 22:05:09 UTC 2024" ++ handlers.nl
           ++ "[root@server ~]# ").
Proof. repeat split; reflexivity. Qed.

(* ================================================================== *)
(** * C9                                                               *)
(* ================================================================== *)


(** [_send_message] returns a boolean whatever the HTTP client does, and
    [True] only for an accepted message. *)
Lemma send_message_true post self text :
  telegram_alert._send_message post self text = true ->
  exists url p,
    post url p = telegram_alert.Response false (Ok true).
Proof.
  unfold telegram_alert._send_message, telegram_alert._send_message_try.
  cbv zeta. intro H.
  match type of H with
  | context [post ?u ?p] =>
      exists u, p; destruct (post u p) as [| | |e j]; try discriminate
  end.
  destruct e; [discriminate|].
  destruct j as [[|]|]; [reflexivity|discriminate|discriminate].
Qed.


Lemma send_alert_default_score post self command ip level info now :
  telegram_alert.is_configured self = true ->
  telegram_alert.send_alert post self command ip level None info now
  = Raise "TypeError".
Proof. intro H. unfold telegram_alert.send_alert. now rewrite H. Qed.

(** C9 at its failing input.  With a sink configured, a call that leaves
    [anomaly_score] at its default [None] raises [TypeError] while the
    message is formatted, before anything is sent: the error reaches the
    caller. *)
Theorem C9_send_alert_raises_without_score :
  forall post command ip level info now,
    telegram_alert.is_configured configured_manager = true
    /\ telegram_alert.send_alert post configured_manager command ip level
         None info now
       = Raise "TypeError".
Proof.
  intros. split; [reflexivity|].
  now apply send_alert_default_score.
Qed.

(* ================================================================== *)
(** * telegram_alert: sanitising, sending, configuration               *)
(* ================================================================== *)

Lemma contains_char (ch : ascii) (s : string) :
  PyStr.contains (String ch "") s
  = negb (PyStr.count_if (is_char ch) s =? 0)%nat.
Proof.
  induction s as [|a s IH]; [reflexivity|].
  cbn [PyStr.contains PyStr.count_if prefix]. unfold is_char at 1.
  destruct (ascii_dec ch a).
  - rewrite prefix_empty. reflexivity.
  - rewrite IH. reflexivity.
Qed.

Lemma contains_char_false (ch : ascii) (s : string) :
  PyStr.contains (String ch "") s = false
  <-> PyStr.count_if (is_char ch) s = 0%nat.
Proof.
  rewrite contains_char, negb_false_iff. apply Nat.eqb_eq.
Qed.

Lemma string_app_assoc (x y z : string) : (x ++ y) ++ z = x ++ (y ++ z).
Proof. induction x as [|a x IH]; simpl; [reflexivity|now rewrite IH]. Qed.

Lemma replace_char_app c by_ (x y : string) :
  PyStr.replace_char c by_ (x ++ y)
  = PyStr.replace_char c by_ x ++ PyStr.replace_char c by_ y.
Proof.
  induction x as [|a x IH]; simpl; [reflexivity|].
  destruct (Ascii.eqb c a); rewrite IH; [|reflexivity].
  now rewrite string_app_assoc.
Qed.

(** The three replacements of [_sanitize_command], composed. *)
Lemma replacements_escaped (command : string) :
  PyStr.replace_char "&" "&amp;"
    (PyStr.replace_char ">" "&gt;"
       (PyStr.replace_char "<" "&lt;" command))
  = escaped command.
Proof.
  induction command as [|a s IH]; [reflexivity|].
  cbn [escaped PyStr.replace_char]. unfold escaped_char.
  rewrite (Ascii.eqb_sym a "<"), (Ascii.eqb_sym a ">"), (Ascii.eqb_sym a "&").
  destruct (Ascii.eqb_spec "<" a) as [<-|N1].
  - rewrite !replace_char_app, IH. reflexivity.
  - cbn [PyStr.replace_char].
    destruct (Ascii.eqb_spec ">"%char a) as [<-|N2].
    + rewrite !replace_char_app, IH. reflexivity.
    + cbn [PyStr.replace_char].
      destruct (Ascii.eqb_spec "&"%char a) as [<-|N3].
      * rewrite IH. reflexivity.
      * rewrite IH. reflexivity.
Qed.

Lemma escaped_free (ch : ascii) (s : string) :
  ch = "<"%char \/ ch = ">"%char ->
  PyStr.count_if (is_char ch) (escaped s) = 0%nat.
Proof.
  intro H. induction s as [|a s IH]; [reflexivity|].
  cbn [escaped]. rewrite count_if_app, IH, Nat.add_0_r.
  unfold escaped_char.
  destruct (Ascii.eqb_spec a "<"); [destruct H as [->| ->]; reflexivity|].
  destruct (Ascii.eqb_spec a ">"); [destruct H as [->| ->]; reflexivity|].
  destruct (Ascii.eqb_spec a "&"); [destruct H as [->| ->]; reflexivity|].
  cbn. unfold is_char.
  destruct (ascii_dec ch a) as [E|E]; [|reflexivity].
  destruct H; congruence.
Qed.

Lemma count_if_take f (n : nat) : forall s,
  (PyStr.count_if f (PyStr.take n s) <= PyStr.count_if f s)%nat.
Proof.
  induction n as [|n IH]; intros [|a s]; simpl; try lia.
  specialize (IH s). lia.
Qed.

Lemma length_take (n : nat) : forall s,
  String.length (PyStr.take n s) = Nat.min n (String.length s).
Proof.
  induction n as [|n IH]; intros [|a s]; simpl; try reflexivity.
  now rewrite IH.
Qed.

Lemma take_all (n : nat) : forall s,
  (String.length s <= n)%nat -> PyStr.take n s = s.
Proof.
  induction n as [|n IH]; intros [|a s] H; simpl in *; try reflexivity;
    try lia.
  rewrite IH; [reflexivity|lia].
Qed.

(** X1.  [_sanitize_command] writes [<], [>] and [&] as the texts [&amp;lt;],
    [&amp;gt;] and [&amp;], keeps every other character, and cuts the
    result after 500 characters, adding a 15-character mark; the result
    has at most 515 characters and neither [<] nor [>]. *)
Theorem sanitize_command_escapes :
  forall command,
    let out := telegram_alert._sanitize_command command in
    ((String.length (escaped command) <= 500)%nat -> out = escaped command)
    /\ ((500 < String.length (escaped command))%nat ->
        out = PyStr.take 500 (escaped command) ++ "... [truncated]")
    /\ (String.length out <= 515)%nat
    /\ PyStr.contains "<" out = false
    /\ PyStr.contains ">" out = false.
Proof.
  intro command. cbv zeta. unfold telegram_alert._sanitize_command.
  cbv zeta. rewrite replacements_escaped.
  set (e := escaped command).
  assert (F : forall ch, ch = "<"%char \/ ch = ">"%char ->
              PyStr.count_if (is_char ch) e = 0%nat)
    by (intros; now apply escaped_free).
  destruct (Nat.ltb_spec 500 (String.length e)) as [L|L].
  - split; [lia|]. split; [reflexivity|]. split.
    + rewrite string_length_app, length_take.
      change (String.length "... [truncated]") with 15%nat. lia.
    + assert (M : forall ch, ch = "<"%char \/ ch = ">"%char ->
                PyStr.count_if (is_char ch) "... [truncated]" = 0%nat)
        by (intros ch [->| ->]; vm_compute; reflexivity).
      split; apply contains_char_false; rewrite count_if_app;
        (match goal with
         | |- (PyStr.count_if (is_char ?c) _ + _)%nat = _ =>
             pose proof (count_if_take (is_char c) 500 e) as T;
             rewrite F in T by tauto; rewrite M by tauto
         end); lia.
  - split; [reflexivity|]. split; [lia|]. split; [lia|].
    split; apply contains_char_false; apply F; tauto.
Qed.

Lemma send_message_accepted post self text :
  telegram_alert._send_message post self text
  = accepted (post (send_message_url self) (outgoing_payload self text)).
Proof.
  unfold telegram_alert._send_message, telegram_alert._send_message_try.
  cbv zeta. fold (outgoing_text self text).
  fold (outgoing_payload self text). fold (send_message_url self).
  destruct (post _ _) as [| | |[|] [[|]|]]; reflexivity.
Qed.

(** X2.  [_send_message] makes one request, to the [sendMessage] address of the
    bot, with a text of at most [max_message_length] characters (the text
    itself when it is that short), and returns [True] exactly when the
    request is accepted; every failure gives [False]. *)
Theorem send_message_outcome :
  forall post self text,
    telegram_alert._send_message post self text
    = accepted (post (send_message_url self) (outgoing_payload self text))
    /\ ((3 <= telegram_alert.max_message_length self)%nat ->
        (String.length (outgoing_text self text)
         <= telegram_alert.max_message_length self)%nat)
    /\ ((String.length text <= telegram_alert.max_message_length self)%nat ->
        outgoing_text self text = text).
Proof.
  intros post self text. split; [|split].
  - apply send_message_accepted.
  - intro H. unfold outgoing_text.
    destruct (Nat.ltb_spec (telegram_alert.max_message_length self)
                (String.length text)); [|lia].
    rewrite string_length_app, length_take.
    change (String.length "...") with 3%nat. lia.
  - intro H. unfold outgoing_text.
    destruct (Nat.ltb_spec (telegram_alert.max_message_length self)
                (String.length text)); [lia|reflexivity].
Qed.

(** X3.  With a score, [send_alert] never raises; it returns [True] only when
    the sink is configured and the one request it makes is accepted, and
    without a configured sink it returns [False] for every client. *)
Theorem send_alert_with_score_outcome :
  forall post self command ip level score info now,
    exists sent,
      telegram_alert.send_alert post self command ip level (Some score)
        info now = Ok sent
      /\ (telegram_alert.is_configured self = false -> sent = false)
      /\ (sent = true ->
          telegram_alert.is_configured self = true
          /\ exists message,
              accepted (post (send_message_url self)
                          (outgoing_payload self message)) = true).
Proof.
  intros post self command ip level score info now.
  unfold telegram_alert.send_alert.
  destruct (telegram_alert.is_configured self); cbn [negb].
  - cbv zeta. cbn [bind]. eexists. split; [reflexivity|].
    split; [discriminate|]. intro S. split; [reflexivity|].
    eexists. rewrite <- (send_message_accepted post self _).
    exact S.
  - exists false. split; [reflexivity|]. split; [reflexivity|discriminate].
Qed.

(** X4.  With a configured sink [send_summary_alert] raises for every pair of
    counts, before any request is made: [ZeroDivisionError] for no
    session, [ValueError] otherwise, the text after the colon of the rate
    field being no format specifier. *)
Theorem send_summary_alert_raises :
  forall post self session_count threat_count time_period now,
    telegram_alert.is_configured self = true ->
    telegram_alert.send_summary_alert post self session_count threat_count
      time_period now
    = Raise (if (session_count =? 0)%Z then "ZeroDivisionError"
             else "ValueError").
Proof.
  intros post self s t period now H.
  unfold telegram_alert.send_summary_alert, telegram_alert.py_div.
  rewrite H. cbn [negb].
  destruct (s =? 0)%Z; reflexivity.
Qed.

(** An instance: one threat in two sessions. *)
Lemma send_summary_alert_raises_witness :
  telegram_alert.is_configured configured_manager = true
  /\ telegram_alert.send_summary_alert
       (fun _ _ => telegram_alert.Response false (Ok true))
       configured_manager 2 1 "last hour" t_morning
     = Raise "ValueError".
Proof.
  split; [reflexivity|].
  exact (send_summary_alert_raises _ configured_manager 2 1 "last hour"
           t_morning eq_refl).
Defined.

(** X5.  [validate_configuration] answers "valid" exactly for a configured
    manager, with the length of the token and the chat id; for every other
    manager it gives the one fixed error and an empty [missing] list: the
    variable that is missing is never named. *)
Theorem validate_configuration_outcome :
  forall self,
    (telegram_alert.is_configured self = true ->
     exists token chat,
       telegram_alert.bot_token self = Some token
       /\ telegram_alert.chat_id self = Some chat
       /\ telegram_alert.validate_configuration self
          = telegram_alert.Valid (String.length token) chat)
    /\ (telegram_alert.is_configured self = false ->
        telegram_alert.validate_configuration self
        = telegram_alert.Invalid "Missing bot token or chat ID" []).
Proof.
  intro self. unfold telegram_alert.validate_configuration.
  split; intro H; rewrite H; cbn [negb]; [|reflexivity].
  unfold telegram_alert.is_configured in H.
  apply andb_true_iff in H. destruct H as [T C].
  unfold telegram_alert.falsy. rewrite T, C. cbn.
  destruct (telegram_alert.bot_token self) as [token|]; [|discriminate].
  destruct (telegram_alert.chat_id self) as [chat|]; [|discriminate].
  exists token, chat. repeat split.
Qed.

(* ================================================================== *)
(** * handlers: replies                                                *)
(* ================================================================== *)

Lemma lstrip_head s a r :
  PyStr.lstrip s = String a r -> PyStr.isspace a = false.
Proof.
  induction s as [|c s IH]; simpl; [discriminate|].
  destruct (PyStr.isspace c) eqn:E; [exact IH|].
  intro H. injection H as <- _. exact E.
Qed.

Lemma rstrip_head a r :
  PyStr.isspace a = false ->
  PyStr.rstrip (String a r) = String a (PyStr.rstrip r).
Proof. intro H. simpl. now rewrite H, andb_false_r. Qed.

Lemma strip_head s a r :
  PyStr.strip s = String a r -> PyStr.isspace a = false.
Proof.
  unfold PyStr.strip. destruct (PyStr.lstrip s) as [|b l] eqn:E;
    [discriminate|].
  pose proof (lstrip_head _ _ _ E) as S.
  rewrite (rstrip_head _ _ S). intro H. injection H as <- _. exact S.
Qed.

Lemma split_from_nonempty cur s :
  PyStr.is_empty cur = false -> PyStr.split_from cur s <> [].
Proof.
  revert cur. induction s as [|c s IH]; intros cur H; simpl.
  - rewrite H. discriminate.
  - destruct (PyStr.isspace c).
    + rewrite H. discriminate.
    + apply IH. destruct cur; reflexivity.
Qed.

(** A stripped command has no word exactly when it is empty. *)
Lemma split_strip_nil s :
  PyStr.split (PyStr.strip s) = [] <-> PyStr.strip s = "".
Proof.
  split; [|intros ->; reflexivity].
  destruct (PyStr.strip s) as [|a r] eqn:E; [reflexivity|].
  pose proof (strip_head _ _ _ E) as S.
  unfold PyStr.split. simpl. rewrite S. intro H. exfalso.
  revert H. now apply split_from_nonempty.
Qed.

Lemma get_command_response_raises c now e :
  handlers._get_command_response c now = Raise e ->
  e = "IndexError" /\ PyStr.split c = [].
Proof.
  unfold handlers._get_command_response. cbv zeta.
  repeat match goal with
         | |- (if ?b then _ else _) = _ -> _ => destruct b
         end;
    try discriminate.
  destruct (PyStr.split c); [|discriminate].
  intro H. injection H as <-. now split.
Qed.

Lemma choice_in draw (l : list string) :
  l <> [] -> In (handlers.choice draw l) l.
Proof.
  intro H. unfold handlers.choice. apply nth_In.
  apply Nat.mod_upper_bound. destruct l; [congruence|discriminate].
Qed.

(** X6.  [generate_response] raises exactly for a blank command, and then
    [IndexError]; for every other command it returns a text that ends
    with the prompt. *)
Theorem generate_response_blank :
  forall command a now draw,
    (PyStr.strip command = "" ->
     handlers.generate_response command a now draw = Raise "IndexError")
    /\ (PyStr.strip command <> "" ->
        exists body,
          handlers.generate_response command a now draw
          = Ok (body ++ prompt)).
Proof.
  intros command a now draw. unfold handlers.generate_response. cbv zeta.
  split.
  - intros ->. reflexivity.
  - intro N.
    destruct (handlers._get_command_response (PyStr.strip command) now)
      as [body|e] eqn:E.
    + cbn [bind]. fold prompt. eexists. reflexivity.
    + exfalso. apply get_command_response_raises in E.
      destruct E as [_ E]. apply split_strip_nil in E. contradiction.
Qed.

(** X7.  The reply is the body for the command, then one line of the fixed
    set of its level (five notices for HIGH and CRITICAL, three warnings
    for MEDIUM, nothing for any other level), then the prompt. *)
Theorem generate_response_by_level :
  forall command a now draw body,
    handlers._get_command_response (PyStr.strip command) now = Ok body ->
    let level := handlers.threat_level_of a in
    (level = ai.VStr "HIGH" \/ level = ai.VStr "CRITICAL" ->
     exists line,
       In line suspicious_lines
       /\ handlers.generate_response command a now draw
          = Ok (body ++ line ++ prompt))
    /\ (level = ai.VStr "MEDIUM" ->
        exists line,
          In line warning_lines
          /\ handlers.generate_response command a now draw
             = Ok (body ++ line ++ prompt))
    /\ (level <> ai.VStr "HIGH" -> level <> ai.VStr "CRITICAL" ->
        level <> ai.VStr "MEDIUM" ->
        handlers.generate_response command a now draw = Ok (body ++ prompt)).
Proof.
  intros command a now draw body B. cbv zeta.
  unfold handlers.generate_response. cbv zeta. rewrite B. cbn [bind].
  fold prompt.
  split; [|split].
  - intros L. exists (handlers._add_suspicious_output command draw).
    split; [apply choice_in; discriminate|].
    destruct L as [-> | ->]; cbn [handlers.is_str String.eqb Ascii.eqb
      Bool.eqb orb]; now rewrite ?string_app_assoc.
  - intros ->. exists (handlers._add_warning_output command draw).
    split; [apply choice_in; discriminate|].
    cbn [handlers.is_str String.eqb Ascii.eqb Bool.eqb orb].
    now rewrite ?string_app_assoc.
  - intros H C M.
    assert (F : forall s, handlers.threat_level_of a <> ai.VStr s ->
                handlers.is_str (handlers.threat_level_of a) s = false).
    { intros s N. unfold handlers.is_str.
      destruct (handlers.threat_level_of a) as [s'| | |]; try reflexivity.
      destruct (String.eqb_spec s' s); [congruence|reflexivity]. }
    rewrite (F _ H), (F _ C), (F _ M). reflexivity.
Qed.

(** An instance: "cat /etc/passwd" rated HIGH. *)
Lemma generate_response_by_level_witness :
  handlers._get_command_response (PyStr.strip "cat /etc/passwd") t_morning
  = Ok handlers.etc_passwd_output
  /\ exists line,
      In line suspicious_lines
      /\ handlers.generate_response "cat /etc/passwd"
           [("threat_level", ai.VStr "HIGH")] t_morning 7
         = Ok (handlers.etc_passwd_output ++ line ++ prompt).
Proof.
  split; [reflexivity|].
  exact (proj1 (generate_response_by_level "cat /etc/passwd"
                  [("threat_level", ai.VStr "HIGH")] t_morning 7
                  handlers.etc_passwd_output eq_refl)
           (or_introl eq_refl)).
Defined.

(* ================================================================== *)
(** * handlers: the logs                                               *)
(* ================================================================== *)

Lemma skipn_snoc {A : Type} (k : nat) (l : list A) (x : A) :
  (k <= List.length l)%nat ->
  skipn k (l ++ [x])%list = (skipn k l ++ [x])%list.
Proof.
  intro H. rewrite skipn_app.
  replace (k - List.length l)%nat with 0%nat by lia. reflexivity.
Qed.

(** What a capped append keeps, for any positive cap. *)
Lemma capped_append {A : Type} (cap : nat) (l : list A) (x : A) :
  (0 < cap)%nat ->
  let all := (l ++ [x])%list in
  let out :=
    if (cap <? List.length all)%nat
    then skipn (List.length all - cap) all
    else all in
  List.length out = Nat.min cap (List.length l + 1)
  /\ ends_with all out
  /\ ends_with out [x]
  /\ ((List.length l < cap)%nat -> out = all).
Proof.
  intro C. cbv zeta. rewrite List.length_app. cbn [List.length].
  destruct (Nat.ltb_spec cap (List.length l + 1)) as [L|L].
  - split; [rewrite length_skipn, List.length_app; cbn [List.length]; lia|].
    split; [|split].
    + exists (firstn (List.length l + 1 - cap) (l ++ [x])%list).
      symmetry. apply firstn_skipn.
    + rewrite skipn_snoc by lia. eexists. reflexivity.
    + lia.
  - split; [rewrite List.length_app; cbn [List.length]; lia|].
    split; [exists []; reflexivity|].
    split; [exists l; reflexivity|reflexivity].
Qed.

Lemma append_to_json_ok {A : Type} (logs : list A) (data : A) :
  exists out,
    handlers._append_to_json (Ok logs) data = Ok out
    /\ List.length out
       = Nat.min handlers.json_log_cap (List.length logs + 1)
    /\ ends_with (logs ++ [data])%list out
    /\ ends_with out [data]
    /\ ((List.length logs < handlers.json_log_cap)%nat ->
        out = (logs ++ [data])%list).
Proof.
  eexists. split; [reflexivity|].
  unfold handlers.appended, handlers.last_entries. cbv zeta.
  apply (capped_append handlers.json_log_cap logs data).
  unfold handlers.json_log_cap. lia.
Qed.

(** X8.  [_append_to_json] on a readable file puts the new entry last and
    keeps the last 10000 entries: the file then holds the smaller of
    10000 and one more than before, the tail of the old entries followed
    by the new one; an unreadable file is left as it is. *)
Theorem append_to_json_capped :
  forall (A : Type) (content : py_result (list A)) (data : A),
    (forall logs,
        content = Ok logs ->
        exists out,
          handlers._append_to_json content data = Ok out
          /\ List.length out
             = Nat.min handlers.json_log_cap (List.length logs + 1)
          /\ ends_with (logs ++ [data])%list out
          /\ ends_with out [data]
          /\ ((List.length logs < handlers.json_log_cap)%nat ->
              out = (logs ++ [data])%list))
    /\ (forall e,
          content = Raise e ->
          handlers._append_to_json content data = Raise e).
Proof.
  intros A content data. split.
  - intros logs ->. apply append_to_json_ok.
  - intros e ->. reflexivity.
Qed.

Lemma replace_char_removes (c : ascii) (by_ s : string) :
  PyStr.count_if (is_char c) by_ = 0%nat ->
  PyStr.count_if (is_char c) (PyStr.replace_char c by_ s) = 0%nat.
Proof.
  intro H. induction s as [|a s IH]; [reflexivity|]. simpl.
  destruct (Ascii.eqb_spec c a) as [E|N].
  - rewrite count_if_app, H, IH. reflexivity.
  - simpl. rewrite IH. unfold is_char.
    destruct (ascii_dec c a); [contradiction|reflexivity].
Qed.

Lemma replace_char_keeps_free (d c : ascii) (by_ s : string) :
  PyStr.count_if (is_char d) by_ = 0%nat ->
  PyStr.count_if (is_char d) s = 0%nat ->
  PyStr.count_if (is_char d) (PyStr.replace_char c by_ s) = 0%nat.
Proof.
  intros H. induction s as [|a s IH]; [reflexivity|]. simpl. intro S.
  assert (S1 : (if is_char d a then 1 else 0)%nat = 0%nat) by lia.
  assert (S2 : PyStr.count_if (is_char d) s = 0%nat) by lia.
  destruct (Ascii.eqb c a).
  - rewrite count_if_app, H, (IH S2). reflexivity.
  - simpl. rewrite S1, (IH S2). reflexivity.
Qed.

Lemma safe_command_plain command : plain (handlers.safe_command command).
Proof.
  unfold plain, handlers.safe_command, handlers.tab, handlers.nl.
  split; apply contains_char_false.
  - apply replace_char_keeps_free; [reflexivity|].
    apply replace_char_removes. reflexivity.
  - apply replace_char_removes. reflexivity.
Qed.

(** X9.  The command that [_append_to_tsv] writes holds neither a tab nor a
    newline, so that a record whose other fields are plain is one line of
    five tab-separated fields.  The escaping loses information: a tab and
    the two characters backslash, t are written alike. *)
Theorem tsv_record_one_line :
  (forall command, plain (handlers.safe_command command))
  /\ (forall timestamp ip command level score,
        plain timestamp -> plain ip -> plain level -> plain score ->
        let line := handlers.tsv_line timestamp ip command level score in
        PyStr.count_if (is_char (ascii_of_nat 9)) line = 4%nat
        /\ PyStr.count_if (is_char (ascii_of_nat 10)) line = 1%nat
        /\ exists fields, line = fields ++ handlers.nl)
  /\ (exists c1 c2,
        c1 <> c2 /\ handlers.safe_command c1 = handlers.safe_command c2).
Proof.
  split; [exact safe_command_plain|]. split.
  - intros timestamp ip command level score [T1 T2] [I1 I2] [L1 L2] [S1 S2].
    destruct (safe_command_plain command) as [C1 C2].
    unfold handlers.tab, handlers.nl in *.
    apply contains_char_false in T1, T2, I1, I2, L1, L2, S1, S2, C1, C2.
    cbv zeta. unfold handlers.tsv_line, handlers.tab, handlers.nl.
    rewrite !count_if_app, T1, T2, I1, I2, L1, L2, S1, S2, C1, C2.
    split; [reflexivity|]. split; [reflexivity|].
    eexists. rewrite <- !string_app_assoc. reflexivity.
  - exists handlers.tab, (handlers.backslash ++ "t").
    split; [discriminate|reflexivity].
Qed.

(** X10.  [log_command] on three readable logs: the sessions log and the
    commands log end with an entry of the same time stamp, address,
    command, level and score, and stay within 10000 entries; the TSV log
    gains one line.  A level or score that the analysis lacks is logged as
    UNKNOWN or 0. *)
Theorem log_command_entries :
  forall py_str files command ip a clock sessions commands lines,
    handlers.sessions_log files = Ok sessions ->
    handlers.commands_log files = Ok commands ->
    handlers.tsv_log files = Ok lines ->
    let files' := handlers.log_command py_str files command ip a clock in
    let level := handlers.get_or a "threat_level" (ai.VStr "UNKNOWN") in
    let score := handlers.get_or a "anomaly_score" (ai.VNum 0) in
    let stamp := isoformat (clock 0%nat) in
    exists sessions' commands' session_id,
      handlers.sessions_log files' = Ok sessions'
      /\ handlers.commands_log files' = Ok commands'
      /\ ends_with sessions'
           [handlers.mk_session_entry session_id stamp ip command a
              level score]
      /\ ends_with commands'
           [handlers.mk_command_entry stamp ip command level score]
      /\ (List.length sessions' <= handlers.json_log_cap)%nat
      /\ (List.length commands' <= handlers.json_log_cap)%nat
      /\ handlers.tsv_log files'
         = Ok (lines
               ++ handlers.tsv_line stamp ip command (py_str level)
                    (py_str score)).
Proof.
  intros py_str files command ip a clock sessions commands lines S C T.
  cbv zeta. unfold handlers.log_command. cbv zeta.
  cbn [handlers.sessions_log handlers.commands_log handlers.tsv_log].
  rewrite S, C, T.
  destruct (append_to_json_ok sessions
              (handlers.mk_session_entry
                 (ip ++ "_" ++ PyStr.of_Z (epoch_seconds (clock 1%nat)))
                 (isoformat (clock 0%nat)) ip command a
                 (handlers.get_or a "threat_level" (ai.VStr "UNKNOWN"))
                 (handlers.get_or a "anomaly_score" (ai.VNum 0)))) as (s' & -> & Ls & _ & Es & _).
  destruct (append_to_json_ok commands
              (handlers.mk_command_entry
                 (isoformat (clock 0%nat)) ip command
                 (handlers.get_or a "threat_level" (ai.VStr "UNKNOWN"))
                 (handlers.get_or a "anomaly_score" (ai.VNum 0)))) as (c' & -> & Lc & _ & Ec & _).
  exists s', c'. eexists.
  split; [reflexivity|]. split; [reflexivity|].
  split; [exact Es|]. split; [exact Ec|].
  split; [lia|]. split; [lia|reflexivity].
Qed.

(** An instance: the first command logged into three empty logs. *)
Lemma log_command_entries_witness :
  exists sessions',
    handlers.sessions_log
      (handlers.log_command (fun _ => "HIGH")
         (handlers.mk_log_files (Ok []) (Ok []) (Ok ""))
         "cat /etc/passwd" "203.0.113.25"
         [("threat_level", ai.VStr "HIGH")] (fun _ => t_morning))
    = Ok sessions'
    /\ (List.length sessions' <= handlers.json_log_cap)%nat.
Proof.
  destruct (log_command_entries (fun _ => "HIGH")
              (handlers.mk_log_files (Ok []) (Ok []) (Ok ""))
              "cat /etc/passwd" "203.0.113.25"
              [("threat_level", ai.VStr "HIGH")] (fun _ => t_morning)
              [] [] "" eq_refl eq_refl eq_refl)
    as (s' & c' & sid & E & _ & _ & _ & L & _).
  exists s'. split; [exact E|exact L].
Defined.

(* ================================================================== *)
(** * ai_analysis: the analyzer in service                             *)
(* ================================================================== *)

Lemma get_some_in {V : Type} (d : PyDict.dict V) (k : string) (v : V) :
  PyDict.get d k = Some v -> In (k, v) d.
Proof.
  induction d as [|[k' v'] d IH]; simpl; [discriminate|].
  destruct (String.eqb_spec k' k) as [->|N].
  - intro H. injection H as ->. now left.
  - intro H. right. now apply IH.
Qed.

Lemma computed_analysis_valid log2 manager command ip clock :
  valid_assessment (computed_analysis log2 manager command ip clock)
    (cache_key_of ip command).
Proof.
  unfold valid_assessment. rewrite computed_analysis_entries.
  eexists. eexists. exists ip, command.
  split; [reflexivity|]. split; [reflexivity|].
  split; [reflexivity|]. split; [reflexivity|].
  split; [apply predict_anomaly_range|].
  split; [apply get_threat_level_values|]. split; reflexivity.
Qed.

Lemma in_service_init log2 manager :
  in_service log2 (ai_analysis.init manager).
Proof.
  split; [apply cache_ok_init|]. intros key a [].
Qed.

Lemma analyze_command_manager log2 self command ip clock :
  ai_analysis.ai_manager
    (snd (ai_analysis.analyze_command log2 self command ip clock))
  = ai_analysis.ai_manager self.
Proof.
  destruct (PyDict.get (ai_analysis.analysis_cache self)
              (cache_key_of ip command)) as [c|] eqn:E.
  - now rewrite (analyze_command_hit _ _ _ _ _ _ E).
  - destruct (analyze_command_miss log2 self command ip clock E)
      as (a & -> & _). reflexivity.
Qed.

(** A call keeps the analyzer in service. *)
Lemma analyze_command_in_service log2 self command ip clock :
  in_service log2 self ->
  in_service log2
    (snd (ai_analysis.analyze_command log2 self command ip clock)).
Proof.
  intros [OK S]. split; [now apply analyze_command_cache_ok|].
  destruct (PyDict.get (ai_analysis.analysis_cache self)
              (cache_key_of ip command)) as [c|] eqn:E.
  - now rewrite (analyze_command_hit _ _ _ _ _ _ E).
  - pose proof (analyze_command_computes log2 self command ip clock E) as F.
    destruct (analyze_command_miss log2 self command ip clock E)
      as (a & R & _).
    rewrite R in F |- *. cbn [fst snd] in *.
    intros key a'. cbn [ai_analysis.analysis_cache ai_analysis.ai_manager].
    rewrite (cache_analysis_new self _ a E). intro I.
    apply in_app_or in I. destruct I as [I|[I|[]]].
    + apply (S key a').
      destruct (_ <=? _)%nat; [now apply in_skipn in I|exact I].
    + injection I as <- <-. exists command, ip, clock. now split.
Qed.

Lemma run_in_service log2 calls : forall self clocks,
  in_service log2 self -> in_service log2 (run log2 self calls clocks).
Proof.
  induction calls as [|[ip command] calls IH]; intros self clocks H;
    [exact H|].
  cbn [run]. apply IH. now apply analyze_command_in_service.
Qed.

(** X11.  Whatever calls an analyzer has served since it was built, its cache
    holds at most 1000 entries under distinct keys, and the assessment it
    returns for a pair has a score in [0,1], the level of that score, and
    the address and command of a pair with the cache key of the pair
    asked for. *)
Theorem analyzer_in_service :
  forall log2 manager calls clocks command ip clock,
    let self := run log2 (ai_analysis.init manager) calls clocks in
    let r := ai_analysis.analyze_command log2 self command ip clock in
    (ai_analysis.stats_cache_size self <= 1000)%nat
    /\ NoDup (PyDict.keys (ai_analysis.analysis_cache self))
    /\ valid_assessment (fst r) (cache_key_of ip command)
    /\ (ai_analysis.stats_cache_size (snd r) <= 1000)%nat.
Proof.
  intros log2 manager calls clocks command ip clock. cbv zeta.
  pose proof (run_in_service log2 calls _ clocks (in_service_init log2 manager))
    as H.
  set (self := run log2 (ai_analysis.init manager) calls clocks) in *.
  pose proof (analyze_command_in_service log2 self command ip clock H)
    as [(_ & _ & L') _].
  destruct H as [(_ & N & L) S].
  split; [exact L|]. split; [exact N|]. split; [|exact L'].
  destruct (PyDict.get (ai_analysis.analysis_cache self)
              (cache_key_of ip command)) as [c|] eqn:E.
  - rewrite (analyze_command_hit _ _ _ _ _ _ E). cbn [fst].
    destruct (S _ _ (get_some_in _ _ _ E)) as (command' & ip' & clock' & -> & K).
    rewrite K. apply computed_analysis_valid.
  - rewrite (analyze_command_computes _ _ _ _ _ E).
    apply computed_analysis_valid.
Qed.







(* ================================================================== *)
(** * ai: features                                                     *)
(* ================================================================== *)

Lemma isdigit_dot : PyStr.isdigit "." = false.
Proof. reflexivity. Qed.

Lemma undotted_counts (part : string) :
  let digits := PyStr.replace_char "." "" part in
  PyStr.count_if PyStr.isdigit digits = PyStr.count_if PyStr.isdigit part
  /\ (String.length digits + PyStr.count_if (Ascii.eqb ".") part
      = String.length part)%nat
  /\ (PyStr.count_if digit_or_dot part
      = PyStr.count_if PyStr.isdigit part
        + PyStr.count_if (Ascii.eqb ".") part)%nat.
Proof.
  cbv zeta. induction part as [|a s (IH1 & IH2 & IH3)];
    [repeat split|].
  cbn [PyStr.replace_char PyStr.count_if String.length].
  unfold digit_or_dot at 1.
  destruct (Ascii.eqb_spec "."%char a) as [<-|N].
  - rewrite isdigit_dot. cbn [append orb]. repeat split; lia.
  - cbn [PyStr.count_if String.length]. rewrite orb_false_r.
    destruct (PyStr.isdigit a); repeat split; lia.
Qed.

Lemma count_if_le_length f (s : string) :
  (PyStr.count_if f s <= String.length s)%nat.
Proof.
  induction s as [|a s IH]; simpl; [lia|]. destruct (f a); lia.
Qed.

Lemma is_empty_length (s : string) :
  PyStr.is_empty s = true <-> String.length s = 0%nat.
Proof. destruct s; simpl; split; congruence. Qed.

(** X13.  The test behind [has_ip] accepts a word exactly when it is made of
    digits and dots only, with three dots and at least one digit: it does
    not look at where the dots stand or how large the numbers are. *)
Theorem looks_like_ip_characterised :
  forall part,
    ai.looks_like_ip part = true
    <-> (PyStr.count_if digit_or_dot part = String.length part
         /\ PyStr.count_if (Ascii.eqb ".") part = 3%nat
         /\ (1 <= PyStr.count_if PyStr.isdigit part)%nat).
Proof.
  intro part. unfold ai.looks_like_ip. cbv zeta.
  destruct (undotted_counts part) as (D & L & U). cbv zeta in D, L.
  pose proof (count_if_le_length PyStr.isdigit
                (PyStr.replace_char "." "" part)) as B.
  rewrite !andb_true_iff, negb_true_iff, !Nat.eqb_eq.
  destruct (PyStr.is_empty (PyStr.replace_char "." "" part)) eqn:E.
  - apply is_empty_length in E. split; [intros [[? _] _]; discriminate|].
    intros (A1 & A2 & A3). lia.
  - assert (E' : String.length (PyStr.replace_char "." "" part) <> 0%nat).
    { intro Z. apply is_empty_length in Z. congruence. }
    split.
    + intros [[_ A] C]. lia.
    + intros (A1 & A2 & A3). repeat split; lia.
Qed.





(* ================================================================== *)
(** * ai_analysis: complexity                                          *)
(* ================================================================== *)

Lemma complexity_range command :
  0 <= ai_analysis._calculate_complexity command
  /\ ai_analysis._calculate_complexity command <= 1.
Proof.
  unfold ai_analysis._calculate_complexity. cbv zeta.
  split; [|apply Q.le_min_l].
  apply Q.min_glb; [lra|].
  repeat match goal with
         | |- context [Qnat ?n] =>
             let H := fresh "H" in
             pose proof (Qnat_nonneg n) as H;
             generalize dependent (Qnat n); intros
         end.
  repeat match goal with
         | |- context [if ?b then _ else _] => destruct b
         end; lra.
Qed.

(** X15.  [_calculate_complexity] stays in [0,1], and its second length test
    never fires: a command without any of the counted operators and with
    at most five words scores 0.2 when it is longer than 50 characters,
    however long, and 0 otherwise. *)
Theorem calculate_complexity_length :
  forall command,
    (0 <= ai_analysis._calculate_complexity command
     /\ ai_analysis._calculate_complexity command <= 1)
    /\ (operator_free command ->
        (List.length (PyStr.split command) <= 5)%nat ->
        ai_analysis._calculate_complexity command
        == (if (50 <? String.length command)%nat then 0.2 else 0)).
Proof.
  intro command. split; [apply complexity_range|].
  intros (H1 & H2 & H3 & H4 & H5 & H6 & H7 & H8 & H9) W.
  unfold ai_analysis._calculate_complexity. cbv zeta.
  rewrite H1, H2, H3, H4, H5, H6, H7, H8, H9.
  destruct (Nat.ltb_spec 5 (List.length (PyStr.split command))); [lia|].
  destruct (Nat.ltb_spec 50 (String.length command));
    [reflexivity|].
  destruct (Nat.ltb_spec 100 (String.length command)); [lia|reflexivity].
Qed.

(** An instance: 120 letters score 0.2. *)
Lemma calculate_complexity_length_witness :
  operator_free long_plain_command
  /\ (List.length (PyStr.split long_plain_command) <= 5)%nat
  /\ (100 < String.length long_plain_command)%nat
  /\ ai_analysis._calculate_complexity long_plain_command == 0.2.
Proof.
  assert (O : operator_free long_plain_command)
    by (repeat split; vm_compute; reflexivity).
  assert (W : (List.length (PyStr.split long_plain_command) <= 5)%nat)
    by (vm_compute; lia).
  split; [exact O|]. split; [exact W|].
  split; [vm_compute; lia|].
  exact (proj2 (calculate_complexity_length long_plain_command) O W).
Defined.

(* ================================================================== *)
(** * aetherion_app: levels, labels, addresses                         *)
(* ================================================================== *)

(** X16.  A higher score never gets a lower level, in either analyzer, nor a
    lower confidence. *)
Theorem threat_level_monotone :
  forall s1 s2,
    s1 <= s2 ->
    (tier_rank (fst (aetherion_app.threat_level_of s1))
     <= tier_rank (fst (aetherion_app.threat_level_of s2)))%nat
    /\ snd (aetherion_app.threat_level_of s1)
       <= snd (aetherion_app.threat_level_of s2)
    /\ (tier_rank (ai.get_threat_level s1)
        <= tier_rank (ai.get_threat_level s2))%nat.
Proof.
  intros s1 s2 H.
  unfold aetherion_app.threat_level_of, ai.get_threat_level.
  repeat split;
    repeat match goal with
           | |- context [Qgeb ?x ?y] =>
               let E := fresh "E" in
               destruct (Qgeb x y) eqn:E;
               [apply Qgeb_true in E|apply Qgeb_false in E]
           end;
    try (exfalso; lra); cbn; try lia; lra.
Qed.

(** An instance: the scores 0.4575 and 0.9. *)
Lemma threat_level_monotone_witness :
  0.4575 <= 0.9
  /\ (tier_rank (fst (aetherion_app.threat_level_of 0.4575))
      <= tier_rank (fst (aetherion_app.threat_level_of 0.9)))%nat.
Proof.
  assert (H : 0.4575 <= 0.9) by lra.
  split; [exact H|].
  exact (proj1 (threat_level_monotone 0.4575 0.9 H)).
Defined.

Lemma in_when (b : bool) (label : string) :
  b = true -> In label (aetherion_app.when b label).
Proof. intros ->. now left. Qed.

Lemma Qgtb_weaken (x a b : Q) : a <= b -> Qgtb x b = true -> Qgtb x a = true.
Proof.
  intros L H. apply Qgtb_true. apply Qgtb_true in H. lra.
Qed.

Lemma vector_backed s :
  aetherion_app.attack_vector_of s = "Generic Command"
  \/ exists label,
      In (aetherion_app.attack_vector_of s, label) vector_indicator
      /\ In label (aetherion_app.indicators_of s).
Proof.
  unfold aetherion_app.attack_vector_of, aetherion_app.indicators_of.
  destruct (Qgtb (aetherion_app.system_modification s) 0.25) eqn:E1.
  { right. eexists. split; [left; reflexivity|].
    rewrite !in_app_iff. right. right. left. now apply in_when. }
  destruct (Qgtb (aetherion_app.privilege_escalation s) 0.2) eqn:E2.
  { right. eexists. split; [right; left; reflexivity|].
    rewrite !in_app_iff. left. now apply in_when. }
  destruct (Qgtb (aetherion_app.code_execution s) 0.25) eqn:E3.
  { right. eexists. split; [right; right; left; reflexivity|].
    rewrite !in_app_iff. right. left. apply in_when.
    apply (Qgtb_weaken _ 0.2 0.25); [lra|exact E3]. }
  destruct (Qgtb (aetherion_app.data_access s) 0.18) eqn:E4.
  { right. eexists. split; [do 3 right; left; reflexivity|].
    rewrite !in_app_iff. do 3 right. left. apply in_when.
    apply (Qgtb_weaken _ 0.15 0.18); [lra|exact E4]. }
  destruct (Qgtb (aetherion_app.network_activity s) 0.2) eqn:E5.
  { right. eexists. split; [do 4 right; left; reflexivity|].
    rewrite !in_app_iff. do 4 right. left. apply in_when.
    apply (Qgtb_weaken _ 0.15 0.2); [lra|exact E5]. }
  destruct (Qgtb (aetherion_app.information_gathering s) 0.15) eqn:E6.
  { right. eexists. split; [do 5 right; left; reflexivity|].
    rewrite !in_app_iff. do 5 right. left. now apply in_when. }
  now left.
Qed.

(** X17.  Every attack-vector label other than "Generic Command" comes with
    its indicator label in the same assessment: the boundary of a vector
    is never below the boundary of its indicator. *)
Theorem attack_vector_has_indicator :
  forall sha command ip t_sig t_stamp,
    let a :=
      aetherion_app.analyze_command_threat sha command ip t_sig t_stamp in
    aetherion_app.attack_vector a = "Generic Command"
    \/ exists label,
        In (aetherion_app.attack_vector a, label) vector_indicator
        /\ In label (aetherion_app.indicators a).
Proof.
  intros sha command ip t_sig t_stamp. cbv zeta.
  unfold aetherion_app.analyze_command_threat. cbv zeta.
  destruct (aetherion_app.threat_level_of _) as [level conf].
  cbn [aetherion_app.attack_vector aetherion_app.indicators].
  apply vector_backed.
Qed.

Lemma contains_false_prefix (p s : string) :
  PyStr.contains p s = false -> prefix p s = false.
Proof.
  destruct s; simpl; intro H; apply orb_false_iff in H; tauto.
Qed.

(** X18.  An address that [analyze_command_threat] scores as external is one
    that [get_geographic_info] calls External; not the other way round,
    the analyzer looking for the private prefixes anywhere in the address
    and the locator at its start only. *)
Theorem external_address_consistent :
  (forall ip,
      aetherion_app.is_external ip = true ->
      aetherion_api.get_geographic_info ip = external_location)
  /\ (exists ip,
        aetherion_api.get_geographic_info ip = external_location
        /\ aetherion_app.is_external ip = false).
Proof.
  split.
  - intros ip H. unfold aetherion_app.is_external in H.
    apply andb_true_iff in H. destruct H as [_ H].
    apply negb_true_iff in H.
    unfold aetherion_app.internal_prefixes in H. cbn [existsb] in H.
    rewrite !orb_false_iff in H.
    destruct H as (H1 & H2 & H3 & H4 & H5 & _).
    unfold aetherion_api.get_geographic_info, PyStr.startswith.
    rewrite (contains_false_prefix _ _ H1), (contains_false_prefix _ _ H2),
      (contains_false_prefix _ _ H3), (contains_false_prefix _ _ H4).
    destruct (String.eqb_spec ip "::1") as [->|N]; [discriminate|].
    reflexivity.
  - exists "8.8.10.1". split; reflexivity.
Qed.

Lemma upper_length s : String.length (PyStr.upper s) = String.length s.
Proof.
  unfold PyStr.upper.
  induction s as [|c s IH]; simpl; [reflexivity|now rewrite IH].
Qed.

Lemma upper_char_not_lower c : PyStr.islower (PyStr.upper_char c) = false.
Proof.
  unfold PyStr.upper_char.
  destruct (PyStr.islower c) eqn:E; [|exact E].
  unfold PyStr.islower, PyStr.in_range in *. cbv zeta in *.
  apply andb_true_iff in E. destruct E as [E1 E2].
  apply Nat.leb_le in E1, E2.
  rewrite nat_ascii_embedding by lia.
  apply andb_false_iff. left. apply Nat.leb_gt. lia.
Qed.

Lemma upper_no_lower s : PyStr.count_if PyStr.islower (PyStr.upper s) = 0%nat.
Proof.
  unfold PyStr.upper.
  induction s as [|c s IH]; [reflexivity|].
  cbn [PyStr.map_chars PyStr.count_if].
  now rewrite upper_char_not_lower, IH.
Qed.

(** X19.  The signature of an assessment has at most 16 characters, exactly 16
    when the digest has that many, and no lower-case letter. *)
Theorem threat_signature_shape :
  forall sha command ip t_sig t_stamp,
    let a :=
      aetherion_app.analyze_command_threat sha command ip t_sig t_stamp in
    let digest :=
      sha (command ++ ":" ++ ip ++ ":" ++ strftime_Ymd t_sig) in
    String.length (aetherion_app.threat_signature a)
    = Nat.min 16 (String.length digest)
    /\ PyStr.count_if PyStr.islower (aetherion_app.threat_signature a)
       = 0%nat.
Proof.
  intros sha command ip t_sig t_stamp. cbv zeta.
  unfold aetherion_app.analyze_command_threat. cbv zeta.
  destruct (aetherion_app.threat_level_of _) as [level conf].
  cbn [aetherion_app.threat_signature].
  unfold aetherion_app.signature_of. cbv zeta.
  split.
  - now rewrite upper_length, length_take.
  - apply upper_no_lower.
Qed.

(* ================================================================== *)
(** * aetherion_app: threat intelligence, pages, stored sessions       *)
(* ================================================================== *)

Lemma get_set_other {V : Type} (d : PyDict.dict V) (k k' : string) (v : V) :
  k' <> k -> PyDict.get (PyDict.set d k v) k' = PyDict.get d k'.
Proof.
  intro N. induction d as [|[k0 v0] d IH]; simpl.
  - destruct (String.eqb_spec k k'); [congruence|reflexivity].
  - destruct (String.eqb_spec k0 k) as [->|N0]; simpl.
    + destruct (String.eqb_spec k k'); [congruence|reflexivity].
    + now rewrite IH.
Qed.

Lemma last_cons {A : Type} (l : list A) (x d : A) :
  last (x :: l) d = last l x.
Proof.
  revert x d. induction l as [|y l IH]; intros x d; [reflexivity|].
  change (last (x :: y :: l) d) with (last (y :: l) d).
  rewrite IH. symmetry. apply IH.
Qed.

Lemma last_of_map {A B : Type} (f : A -> B) (l : list A) (d : A) :
  last (map f l) (f d) = f (last l d).
Proof.
  induction l as [|x [|y l] IH]; try reflexivity. exact IH.
Qed.

Lemma sightings_known ip :
  forall seen d ti,
    PyDict.get d ip = Some ti ->
    aetherion_api.reputation_score ti <= 1 ->
    exists ti',
      PyDict.get (sightings d ip seen) ip = Some ti'
      /\ aetherion_api.attack_frequency ti'
         = (aetherion_api.attack_frequency ti
            + Z.of_nat (List.length seen))%Z
      /\ aetherion_api.first_seen ti' = aetherion_api.first_seen ti
      /\ aetherion_api.last_seen ti'
         = last (map (fun s => isoformat (snd s)) seen)
                (aetherion_api.last_seen ti)
      /\ aetherion_api.ti_threat_signature ti'
         = aetherion_api.ti_threat_signature ti
      /\ aetherion_api.source_country ti' = aetherion_api.source_country ti
      /\ aetherion_api.source_city ti' = aetherion_api.source_city ti
      /\ aetherion_api.reputation_score ti
         <= aetherion_api.reputation_score ti'
      /\ aetherion_api.reputation_score ti' <= 1
      /\ (forall other,
             other <> ip ->
             PyDict.get (sightings d ip seen) other = PyDict.get d other).
Proof.
  induction seen as [|s seen IH]; intros d ti G R.
  - exists ti. simpl. rewrite Z.add_0_r.
    repeat split; try assumption; try reflexivity. lra.
  - unfold sightings. cbn [fold_left]. fold (sightings
      (aetherion_api.update_threat_intelligence (Ok d) ip (fst s) (snd s))
      ip seen).
    unfold aetherion_api.update_threat_intelligence at 1 2.
    cbv zeta. cbn [aetherion_api.load_threat_intelligence]. rewrite G.
    match goal with
    | |- context [PyDict.set d ip ?v] => set (ti2 := v)
    end.
    assert (R2 : aetherion_api.reputation_score ti2 <= 1).
    { subst ti2. cbn. apply Q.le_min_l. }
    destruct (IH (PyDict.set d ip ti2) ti2 (get_set_same d ip ti2) R2)
      as (ti' & G' & F & FS & LS & SG & CO & CI & RL & RU & O).
    exists ti'. split; [exact G'|].
    assert (RS : aetherion_api.reputation_score ti
                 <= aetherion_api.reputation_score ti2).
    { subst ti2. cbn. apply Q.min_glb; lra. }
    repeat split; try assumption.
    + rewrite F. subst ti2. cbn [aetherion_api.attack_frequency List.length].
      lia.
    + cbn [map]. rewrite last_cons. rewrite LS. reflexivity.
    + lra.
    + intros other N. rewrite (O other N). now apply get_set_other.
Qed.

(** X20.  A first analysis of an address not yet in the intelligence file makes
    its record, and every later one counts up: after the analyses the
    record holds their number as attack frequency, the time of the first
    as first seen, the time of the last as last seen, the signature and
    the location of the first, and a reputation between the first score
    and 1; the records of the other addresses stay as they are.  An
    unreadable file counts as an empty one. *)
Theorem threat_intelligence_sightings :
  forall file ip a t seen,
    PyDict.get (aetherion_api.load_threat_intelligence file) ip = None ->
    aetherion_app.anomaly_score a <= 1 ->
    let before := aetherion_api.load_threat_intelligence file in
    let after := sightings before ip ((a, t) :: seen) in
    exists ti,
      PyDict.get after ip = Some ti
      /\ aetherion_api.attack_frequency ti
         = Z.of_nat (S (List.length seen))
      /\ aetherion_api.first_seen ti = isoformat t
      /\ aetherion_api.last_seen ti = isoformat (snd (last seen (a, t)))
      /\ aetherion_api.ti_threat_signature ti
         = aetherion_app.threat_signature a
      /\ aetherion_api.source_country ti
         = aetherion_api.geo_get (aetherion_api.get_geographic_info ip)
             "country"
      /\ aetherion_app.anomaly_score a <= aetherion_api.reputation_score ti
      /\ aetherion_api.reputation_score ti <= 1
      /\ (forall other,
             other <> ip ->
             PyDict.get after other = PyDict.get before other).
Proof.
  intros file ip a t seen G R. cbv zeta.
  unfold sightings. cbn [fold_left fst snd].
  fold (sightings
          (aetherion_api.update_threat_intelligence
             (Ok (aetherion_api.load_threat_intelligence file)) ip a t)
          ip seen).
  unfold aetherion_api.update_threat_intelligence at 1 2.
  cbv zeta. cbn [aetherion_api.load_threat_intelligence]. rewrite G.
  match goal with
  | |- context [PyDict.set _ ip ?v] => set (ti1 := v)
  end.
  set (d := aetherion_api.load_threat_intelligence file) in *.
  destruct (sightings_known ip seen (PyDict.set d ip ti1) ti1
              (get_set_same d ip ti1) R)
    as (ti & G' & F & FS & LS & SG & CO & CI & RL & RU & O).
  exists ti. split; [exact G'|].
  repeat split; try assumption.
  - rewrite F. subst ti1. cbn [aetherion_api.attack_frequency]. lia.
  - rewrite LS. subst ti1. cbn [aetherion_api.last_seen].
    apply (last_of_map (fun s => isoformat (snd s)) seen (a, t)).
  - intros other N. rewrite (O other N). now apply get_set_other.
Qed.

(** An instance: two analyses of 203.0.113.25 with no file yet. *)
Lemma threat_intelligence_sightings_witness :
  PyDict.get
    (aetherion_api.load_threat_intelligence (Raise "FileNotFoundError"))
    "203.0.113.25" = None
  /\ aetherion_app.anomaly_score listing_assessment <= 1
  /\ exists ti,
      PyDict.get
        (sightings
           (aetherion_api.load_threat_intelligence
              (Raise "FileNotFoundError"))
           "203.0.113.25"
           [(listing_assessment, t_morning);
            (listing_assessment, t_evening)])
        "203.0.113.25" = Some ti
      /\ aetherion_api.attack_frequency ti = 2%Z
      /\ aetherion_api.last_seen ti = isoformat t_evening.
Proof.
  assert (G : PyDict.get
                (aetherion_api.load_threat_intelligence
                   (Raise "FileNotFoundError"))
                "203.0.113.25" = None) by reflexivity.
  assert (R : aetherion_app.anomaly_score listing_assessment <= 1)
    by (cbn; lra).
  split; [exact G|]. split; [exact R|].
  destruct (threat_intelligence_sightings (Raise "FileNotFoundError")
              "203.0.113.25" listing_assessment t_morning
              [(listing_assessment, t_evening)] G R)
    as (ti & H1 & H2 & _ & H4 & _).
  exists ti. split; [exact H1|]. split; [exact H2|exact H4].
Defined.

(* ------------------------------------------------------------------ *)
(** ** Pages of [get_session_analytics]                                *)

Lemma firstn_plus {A : Type} (a b : nat) : forall l : list A,
  firstn (a + b) l = (firstn a l ++ firstn b (skipn a l))%list.
Proof.
  induction a as [|a IH]; intros [|x l]; simpl.
  - reflexivity.
  - reflexivity.
  - now rewrite firstn_nil.
  - now rewrite IH.
Qed.

Lemma firstn_min_length {A : Type} (n : nat) (l : list A) :
  firstn (Nat.min n (List.length l)) l = firstn n l.
Proof.
  destruct (Nat.le_gt_cases n (List.length l)) as [H|H].
  - now rewrite Nat.min_l.
  - rewrite Nat.min_r by lia. rewrite firstn_all.
    symmetry. apply firstn_all2. lia.
Qed.

Lemma page_of_nat {A : Type} (l : list A) (k limit : nat) :
  aetherion_api.page_of l (Z.of_nat (S k)) (Z.of_nat limit)
  = firstn limit (skipn (k * limit) l).
Proof.
  unfold aetherion_api.page_of, aetherion_api.py_slice,
    aetherion_api.slice_bound. cbv zeta.
  replace (Z.of_nat (S k) - 1)%Z with (Z.of_nat k) by lia.
  rewrite <- Nat2Z.inj_mul, <- Nat2Z.inj_add.
  destruct (Z.ltb_spec (Z.of_nat (k * limit)) 0) as [F|_]; [lia|].
  destruct (Z.ltb_spec (Z.of_nat (k * limit + limit)) 0) as [F|_]; [lia|].
  rewrite !Nat2Z.id.
  destruct (Nat.le_gt_cases (k * limit) (List.length l)) as [H|H].
  - rewrite (Nat.min_l (k * limit)) by exact H.
    replace (Nat.min (k * limit + limit) (List.length l) - k * limit)%nat
      with (Nat.min limit (List.length (skipn (k * limit) l))).
    + apply firstn_min_length.
    + rewrite length_skipn. lia.
  - rewrite (Nat.min_r (k * limit)) by lia.
    rewrite (Nat.min_r (k * limit + limit)) by lia.
    rewrite Nat.sub_diag. cbn [firstn].
    rewrite (skipn_all2 l) by lia. now rewrite firstn_nil.
Qed.

Lemma pages_firstn {A : Type} (l : list A) (limit : nat) :
  forall n, concat (pages l limit n) = firstn (n * limit) l.
Proof.
  unfold pages. induction n as [|n IH]; [reflexivity|].
  rewrite seq_S, map_app, concat_app, IH.
  cbn [map concat Nat.add]. rewrite app_nil_r.
  rewrite page_of_nat.
  replace (S n * limit)%nat with (n * limit + limit)%nat by lia.
  symmetry. apply firstn_plus.
Qed.

Lemma page_length {A : Type} (l : list A) (page : Z) (limit : nat) :
  (List.length
     (aetherion_api.page_of l page (Z.of_nat limit)) <= limit)%nat.
Proof.
  unfold aetherion_api.page_of, aetherion_api.py_slice. cbv zeta.
  rewrite length_firstn.
  unfold aetherion_api.slice_bound.
  destruct (Z.ltb_spec ((page - 1) * Z.of_nat limit) 0);
    destruct (Z.ltb_spec ((page - 1) * Z.of_nat limit + Z.of_nat limit) 0);
    lia.
Qed.

Lemma pages_count (len limit : nat) :
  (0 < limit)%nat ->
  exists n,
    ((Z.of_nat len + Z.of_nat limit - 1) / Z.of_nat limit)%Z = Z.of_nat n
    /\ (len <= n * limit)%nat
    /\ (0 < n -> (n - 1) * limit < len)%nat.
Proof.
  intro L.
  set (q := ((Z.of_nat len + Z.of_nat limit - 1) / Z.of_nat limit)%Z).
  assert (B : (0 < Z.of_nat limit)%Z) by lia.
  pose proof (Z.mul_div_le (Z.of_nat len + Z.of_nat limit - 1)
                (Z.of_nat limit) B) as Lo.
  pose proof (Z.mul_succ_div_gt (Z.of_nat len + Z.of_nat limit - 1)
                (Z.of_nat limit) B) as Hi.
  fold q in Lo, Hi.
  assert (Q0 : (0 <= q)%Z) by (apply Z.div_pos; lia).
  exists (Z.to_nat q). split; [now rewrite Z2Nat.id|].
  assert (E : Z.of_nat (Z.to_nat q) = q) by now rewrite Z2Nat.id.
  split.
  - apply Nat2Z.inj_le. rewrite Nat2Z.inj_mul, E. nia.
  - intro P. assert (Q1 : (0 < q)%Z) by lia.
    apply Nat2Z.inj_lt. rewrite Nat2Z.inj_mul, Nat2Z.inj_sub by lia.
    rewrite E. nia.
Qed.

(** X21.  With a positive page size the pages of [get_session_analytics], each
    as it is cut before it is sorted, split the filtered sessions into
    consecutive pieces: the pages 1 to [total_pages], one after the other,
    are the filtered sessions; each of them holds at least one and no page
    more than [limit] sessions; every page after [total_pages] is
    empty. *)
Theorem session_pages_partition :
  forall (A : Type) (filtered_sessions : list A) (limit : nat),
    (0 < limit)%nat ->
    exists n,
      aetherion_api.total_pages
        (Z.of_nat (List.length filtered_sessions)) (Z.of_nat limit)
      = Ok (Z.of_nat n)
      /\ concat (pages filtered_sessions limit n) = filtered_sessions
      /\ (forall page : Z,
             (List.length
                (aetherion_api.page_of filtered_sessions page
                   (Z.of_nat limit)) <= limit)%nat)
      /\ (forall page,
             (1 <= page <= n)%nat ->
             aetherion_api.page_of filtered_sessions (Z.of_nat page)
               (Z.of_nat limit) <> [])
      /\ (forall page,
             (n < page)%nat ->
             aetherion_api.page_of filtered_sessions (Z.of_nat page)
               (Z.of_nat limit) = []).
Proof.
  intros A l limit L.
  destruct (pages_count (List.length l) limit L) as (n & E & U & M).
  exists n. split.
  { unfold aetherion_api.total_pages.
    destruct (Z.eqb_spec (Z.of_nat limit) 0) as [F|_]; [lia|].
    now rewrite E. }
  split.
  { rewrite pages_firstn. apply firstn_all2. exact U. }
  split.
  { intro page. apply page_length. }
  split.
  - intros [|k] [P1 P2]; [lia|].
    rewrite page_of_nat. intro F.
    apply (f_equal (@List.length A)) in F.
    rewrite length_firstn, length_skipn in F. cbn [List.length] in F.
    assert (M2 : ((n - 1) * limit < List.length l)%nat) by (apply M; lia).
    assert (k * limit <= (n - 1) * limit)%nat by nia.
    lia.
  - intros [|k] P; [lia|].
    rewrite page_of_nat.
    rewrite (skipn_all2 l) by nia. apply firstn_nil.
Qed.

(** An instance: five sessions in pages of two. *)
Lemma session_pages_partition_witness :
  (0 < 2)%nat
  /\ exists n,
      aetherion_api.total_pages 5 2 = Ok (Z.of_nat n)
      /\ concat (pages [1; 2; 3; 4; 5]%nat 2 n) = [1; 2; 3; 4; 5]%nat.
Proof.
  assert (L : (0 < 2)%nat) by lia.
  split; [exact L|].
  destruct (session_pages_partition nat [1; 2; 3; 4; 5]%nat 2 L)
    as (n & H1 & H2 & _).
  exists n. split; [exact H1|exact H2].
Defined.

(** X22.  [save_professional_session] stores the loaded sessions with the new
    one last and cut to the last 1500: the stored list has the smaller
    of 1500 and one more than before, it is the end of the old list with
    the new session, and below 1500 nothing is dropped. *)
Theorem saved_sessions_capped :
  forall (A : Type) (sessions : list A) (session : A),
    let stored := aetherion_api.saved_sessions sessions session in
    List.length stored = Nat.min 1500 (List.length sessions + 1)
    /\ ends_with (sessions ++ [session])%list stored
    /\ ends_with stored [session]
    /\ ((List.length sessions < 1500)%nat ->
        stored = (sessions ++ [session])%list).
Proof.
  intros A sessions session. cbv zeta.
  unfold aetherion_api.saved_sessions. cbv zeta.
  apply (capped_append 1500 sessions session). lia.
Qed.

(* ================================================================== *)
(** * server: the command loop                                         *)
(* ================================================================== *)

















